(** * Face-recognition service: embedding math, image ingestion, backend adapter

    A shallow embedding of
      - [face_recognition_service/utils/embedding_utils.py],
      - [face_recognition_service/utils/image_utils.py],
      - [face_recognition_service/models/face_model.py],
      - the three endpoints of [main.py],
    with the pieces of [schemas/api_schemas.py] and [config.py] they use.

    Numbers.  The Python code computes on IEEE floats through numpy.  Every
    numeric function below is written once, over an interface [Flt] of the
    float operations the source uses, and the interface has these instances:
      - [Flt_float]: Rocq's primitive binary64 floats, on which the functions
        run ([vm_compute]), NaN and infinities included;
      - [Flt_float32]: the same carrier with every operation rounded to
        binary32, the arithmetic numpy applies to the float32 arrays that
        [find_best_match] builds (the interface [Single] selects it);
      - [Flt_R]: the real numbers, i.e. the same functions in exact arithmetic
        (no rounding, no overflow, no NaN, a cast to float32 that changes
        nothing).  A statement proved on [Flt_R] says so; what has to hold of
        the floats as well is stated for every instance of the interface.
    numpy leaves the order of summation in [np.dot] and [np.linalg.norm]
    unspecified; [inner] fixes one order, which is immaterial over [R] and on
    the float inputs evaluated here (all their sums are exact). *)

From Stdlib Require Import PrimFloat.
From Stdlib Require SpecFloat FloatOps.
From Stdlib Require Import Reals Lra Lia ZArith Bool String Ascii List.
From Stdlib Require Import Sorting.Sorted Sorting.Permutation.
From Stdlib Require Import DecimalString.
Import ListNotations.

Set Implicit Arguments.

(* ================================================================== *)
(** * Python: exceptions, results, strings                             *)
(* ================================================================== *)

Module Py.

(** [class ErrorCode] of api_schemas.py: the machine-readable error kinds. *)
Inductive ErrorCode :=
| INVALID_IMAGE
| NO_FACE_DETECTED
| MULTIPLE_FACES_DETECTED
| IMAGE_TOO_LARGE
| UNSUPPORTED_FORMAT
| MODEL_NOT_LOADED
| INVALID_EMBEDDING
| PROCESSING_ERROR.

(** The string each [ErrorCode] attribute holds. *)
Definition error_code_value (c : ErrorCode) : string :=
  match c with
  | INVALID_IMAGE => "INVALID_IMAGE"
  | NO_FACE_DETECTED => "NO_FACE_DETECTED"
  | MULTIPLE_FACES_DETECTED => "MULTIPLE_FACES_DETECTED"
  | IMAGE_TOO_LARGE => "IMAGE_TOO_LARGE"
  | UNSUPPORTED_FORMAT => "UNSUPPORTED_FORMAT"
  | MODEL_NOT_LOADED => "MODEL_NOT_LOADED"
  | INVALID_EMBEDDING => "INVALID_EMBEDDING"
  | PROCESSING_ERROR => "PROCESSING_ERROR"
  end.

(** The subclasses of [requests.exceptions.RequestException] that the
    handlers of [fetch_image_from_url] tell apart: [Timeout] (with
    [ConnectTimeout] and [ReadTimeout]) is caught by the first clause, every
    other one by the second. *)
Inductive request_failure :=
| Timeout
| HTTPError (status_code : nat)
| ConnectionError
| OtherRequestException.

(** The exceptions the modelled code raises or sees. *)
Inductive exn :=
| ValueError (msg : string)
| TypeError (msg : string)
| IndexError (msg : string)
| ZeroDivisionError (msg : string)
| ValidationError (msg : string)          (* pydantic *)
| BinasciiError (msg : string)            (* base64.binascii.Error *)
| RequestException (kind : request_failure) (msg : string)
| ImageProcessingError (message : string) (error_code : ErrorCode)
| FaceModelError (message : string) (error_code : ErrorCode)
| OtherException (msg : string)           (* any other subclass of Exception *)
| OutsideModel (what : string).           (* a numpy case this file does not model *)

(** [str(e)]. *)
Definition str_exn (e : exn) : string :=
  match e with
  | ValueError m | TypeError m | IndexError m | ZeroDivisionError m
  | ValidationError m | BinasciiError m | RequestException _ m
  | ImageProcessingError m _ | FaceModelError m _ | OtherException m
  | OutsideModel m => m
  end.

Definition is_image_processing_error (e : exn) : Prop :=
  exists m c, e = ImageProcessingError m c.

(** A computation that returns or raises. *)
Inductive result (A : Type) :=
| Ok (a : A)
| Raise (e : exn).
Arguments Ok {A} a.
Arguments Raise {A} e.

Definition bind {A B} (m : result A) (f : A -> result B) : result B :=
  match m with
  | Ok a => f a
  | Raise e => Raise e
  end.

(** [try: m  except Exception as e: raise h e] (every handler of the source
    ends in a raise). *)
Definition try_except {A} (m : result A) (h : exn -> exn) : result A :=
  match m with
  | Ok a => Ok a
  | Raise e => Raise (h e)
  end.

Definition is_ok {A} (m : result A) : bool :=
  match m with Ok _ => true | Raise _ => false end.

(** [str(n)] for a non-negative int. *)
Definition str_nat (n : nat) : string := NilEmpty.string_of_uint (Nat.to_uint n).

(** [str(n)] for an int. *)
Definition str_int (n : Z) : string := NilEmpty.string_of_int (Z.to_int n).

(** [", ".join(l)] and the like. *)
Fixpoint join (sep : string) (l : list string) : string :=
  match l with
  | [] => ""
  | [s] => s
  | s :: l' => s ++ sep ++ join sep l'
  end.

(** [str(t)] for a tuple of ints, as in [f"{image.shape}"]. *)
Definition str_tuple (t : list nat) : string :=
  match t with
  | [n] => "(" ++ str_nat n ++ ",)"
  | _ => "(" ++ join ", " (map str_nat t) ++ ")"
  end.

(** numpy's own spelling of a shape in the message of [np.dot]. *)
Definition str_shape (t : list nat) : string :=
  match t with
  | [n] => "(" ++ str_nat n ++ ",)"
  | _ => "(" ++ join "," (map str_nat t) ++ ")"
  end.

(** [s.startswith(p)]. *)
Definition startswith (s p : string) : bool := String.prefix p s.

(** [c in s] for a one-character [c]. *)
Fixpoint contains_char (c : ascii) (s : string) : bool :=
  match s with
  | EmptyString => false
  | String x s' => Ascii.eqb x c || contains_char c s'
  end.

(** [s.split(c, 1)[1]] when [c] occurs in [s]: what follows its first
    occurrence. *)
Fixpoint after_first (c : ascii) (s : string) : string :=
  match s with
  | EmptyString => EmptyString
  | String x s' => if Ascii.eqb x c then s' else after_first c s'
  end.

Definition lower_ascii (c : ascii) : ascii :=
  let n := nat_of_ascii c in
  if (65 <=? n)%nat && (n <=? 90)%nat then ascii_of_nat (n + 32) else c.

(** [s.lower()] on ASCII. *)
Fixpoint lower (s : string) : string :=
  match s with
  | EmptyString => EmptyString
  | String c s' => String (lower_ascii c) (lower s')
  end.

(** [x in l] for strings. *)
Definition str_in (x : string) (l : list string) : bool :=
  existsb (String.eqb x) l.

End Py.
Export Py.

Declare Scope py_scope.
Delimit Scope py_scope with py.
Notation "x <- m ;; k" := (bind m (fun x => k))
  (at level 61, m at next level, right associativity) : py_scope.
Open Scope py_scope.
Open Scope string_scope.

(* ================================================================== *)
(** * numpy: floats and arrays                                          *)
(* ================================================================== *)

Module Np.

(** The float operations the source uses.  [f32] is the cast
    [np.array(..., dtype=np.float32)] applies to a component. *)
Class Flt (F : Type) := {
  f0 : F;                       (* 0.0 *)
  f1 : F;                       (* 1.0 *)
  f2 : F;                       (* 2.0 *)
  fopp : F -> F;
  fadd : F -> F -> F;
  fsub : F -> F -> F;
  fmul : F -> F -> F;
  fdiv : F -> F -> F;           (* numpy's division: never raises *)
  fsqrt : F -> F;
  feqb : F -> F -> bool;        (* == *)
  fltb : F -> F -> bool;        (* <  *)
  fleb : F -> F -> bool;        (* <= *)
  fisnan : F -> bool;
  fisinf : F -> bool;
  f32 : F -> F
}.

(** ** Exact arithmetic: the reals. *)

Definition Req_bool (x y : R) : bool := if Req_dec_T x y then true else false.
Definition Rlt_bool (x y : R) : bool := if Rlt_dec x y then true else false.
Definition Rle_bool (x y : R) : bool := if Rle_dec x y then true else false.

#[export] Instance Flt_R : Flt R := {|
  f0 := 0%R; f1 := 1%R; f2 := 2%R;
  fopp := Ropp; fadd := Rplus; fsub := Rminus; fmul := Rmult; fdiv := Rdiv;
  fsqrt := sqrt;
  feqb := Req_bool; fltb := Rlt_bool; fleb := Rle_bool;
  fisnan := fun _ => false;
  fisinf := fun _ => false;
  f32 := fun x => x
|}.

(** ** IEEE binary64: Rocq's primitive floats. *)

(** Rounding of a binary64 value to binary32 (24-bit significand, exponents
    up to 128), to nearest even, overflow to infinity; the result is again a
    binary64 value, as numpy holds it after a cast back. *)
Definition round_float32 (x : PrimFloat.float) : PrimFloat.float :=
  match FloatOps.Prim2SF x with
  | SpecFloat.S754_finite s m e =>
      FloatOps.SF2Prim
        (SpecFloat.binary_normalize 24 128 (SpecFloat.cond_Zopp s (Zpos m)) e s)
  | _ => x
  end.

#[export] Instance Flt_float : Flt PrimFloat.float := {|
  f0 := PrimFloat.zero; f1 := PrimFloat.one; f2 := PrimFloat.two;
  fopp := PrimFloat.opp; fadd := PrimFloat.add; fsub := PrimFloat.sub;
  fmul := PrimFloat.mul; fdiv := PrimFloat.div;
  fsqrt := PrimFloat.sqrt;
  feqb := PrimFloat.eqb; fltb := PrimFloat.ltb; fleb := PrimFloat.leb;
  fisnan := PrimFloat.is_nan;
  fisinf := PrimFloat.is_infinity;
  f32 := round_float32
|}.

(** Arithmetic on a float32 array: numpy computes it in single precision,
    so every operation rounds its result to binary32.  (Rounding the
    binary64 result of one operation on binary32 operands to binary32 is the
    binary32 operation: 53 bits are more than twice 24 plus 2.) *)
Definition Flt_float32 : Flt PrimFloat.float := {|
  f0 := PrimFloat.zero; f1 := PrimFloat.one; f2 := PrimFloat.two;
  fopp := PrimFloat.opp;
  fadd := fun x y => round_float32 (PrimFloat.add x y);
  fsub := fun x y => round_float32 (PrimFloat.sub x y);
  fmul := fun x y => round_float32 (PrimFloat.mul x y);
  fdiv := fun x y => round_float32 (PrimFloat.div x y);
  fsqrt := fun x => round_float32 (PrimFloat.sqrt x);
  feqb := PrimFloat.eqb; fltb := PrimFloat.ltb; fleb := PrimFloat.leb;
  fisnan := PrimFloat.is_nan;
  fisinf := PrimFloat.is_infinity;
  f32 := round_float32
|}.

(** [single]: the arithmetic of arrays of dtype float32 beside that of
    Python's floats.  In exact arithmetic the two are one. *)
Class Single (F : Type) := { single : Flt F }.

#[export] Instance Single_R : Single R := {| single := Flt_R |}.
#[export] Instance Single_float : Single PrimFloat.float := {| single := Flt_float32 |}.

(** ** Arrays: a shape and the elements in row-major order. *)

Record ndarray (T : Type) := mkarray { shape : list nat; data : list T }.

Section Arrays.
Context {T : Type}.

(** [a.size]. *)
Definition size (a : ndarray T) : nat := fold_right Nat.mul 1%nat (shape a).

(** [len(a.shape)]. *)
Definition ndim (a : ndarray T) : nat := length (shape a).

(** A well-formed array holds [size] elements. *)
Definition wf (a : ndarray T) : Prop := length (data a) = size a.

(** [np.array(l)] for a flat list. *)
Definition vec (l : list T) : ndarray T := mkarray [length l] l.

(** A 0-d array (a numpy scalar). *)
Definition scalar (x : T) : ndarray T := mkarray [] [x].

(** The [r] rows, [c] long each, of row-major data. *)
Fixpoint rows (r c : nat) (l : list T) : list (list T) :=
  match r with
  | O => []
  | S r' => firstn c l :: rows r' c (skipn c l)
  end.

(** [np.array(m)] for a list of [r] rows of length [c]. *)
Definition mat (r c : nat) (l : list T) : ndarray T := mkarray [r; c] l.

(** [len(a)]: the first dimension; a 0-d array has none. *)
Definition len (a : ndarray T) : result nat :=
  match shape a with
  | [] => Raise (TypeError "len() of unsized object")
  | n :: _ => Ok n
  end.

(** [float(a)]: a size-1 array converts, another does not. *)
Definition to_float (a : ndarray T) : result T :=
  match data a with
  | [x] => Ok x
  | _ => Raise (TypeError "only length-1 arrays can be converted to Python scalars")
  end.

End Arrays.

(** An elementwise operation keeps the shape. *)
Definition amap {T U} (f : T -> U) (a : ndarray T) : ndarray U :=
  mkarray (shape a) (map f (data a)).

Section Numeric.
Context {F : Type} `{Flt F}.

(** The sum of the products [x_i * y_i]. *)
Fixpoint inner (a b : list F) : F :=
  match a, b with
  | x :: a', y :: b' => fadd (fmul x y) (inner a' b')
  | _, _ => f0
  end.

(** [np.linalg.norm(a)] with no axis: the 2-norm of the flattened array,
    whatever its rank (for a matrix, the Frobenius norm). *)
Definition linalg_norm (a : ndarray F) : F := fsqrt (inner (data a) (data a)).

(** [np.linalg.norm(a, axis=1)] on a matrix: the 2-norm of each row. *)
Definition linalg_norm_axis1 (a : ndarray F) : result (ndarray F) :=
  match shape a with
  | [r; c] => Ok (mkarray [r] (map (fun row => fsqrt (inner row row)) (rows r c (data a))))
  | _ => Raise (OutsideModel "np.linalg.norm(axis=1) on an array that is not 2-d")
  end.

(** [np.dot(a, b)], for the two rank combinations of the source: vector by
    vector (a scalar) and matrix by vector (a vector). *)
Definition dot (a b : ndarray F) : result (ndarray F) :=
  match shape a, shape b with
  | [n], [m] =>
      if (n =? m)%nat then Ok (scalar (inner (data a) (data b)))
      else Raise (ValueError ("shapes " ++ str_shape [n] ++ " and " ++ str_shape [m]
                    ++ " not aligned: " ++ str_nat n ++ " (dim 0) != "
                    ++ str_nat m ++ " (dim 0)"))
  | [r; c], [m] =>
      if (c =? m)%nat
      then Ok (mkarray [r] (map (fun row => inner row (data b)) (rows r c (data a))))
      else Raise (ValueError ("shapes " ++ str_shape [r; c] ++ " and " ++ str_shape [m]
                    ++ " not aligned: " ++ str_nat c ++ " (dim 1) != "
                    ++ str_nat m ++ " (dim 0)"))
  | _, _ => Raise (OutsideModel "np.dot on other ranks")
  end.

Fixpoint zip_with (f : F -> F -> F) (a b : list F) : list F :=
  match a, b with
  | x :: a', y :: b' => f x y :: zip_with f a' b'
  | _, _ => []
  end.

Definition broadcast_error (s1 s2 : list nat) : exn :=
  ValueError ("operands could not be broadcast together with shapes "
              ++ str_shape s1 ++ " " ++ str_shape s2 ++ " ").

(** [a - b] with numpy's broadcasting, for vector minus vector and matrix
    minus vector: equal trailing dimensions, or one of them 1. *)
Definition sub (a b : ndarray F) : result (ndarray F) :=
  match shape a, shape b with
  | [n], [m] =>
      if (n =? m)%nat then Ok (mkarray [n] (zip_with fsub (data a) (data b)))
      else if (m =? 1)%nat
      then Ok (mkarray [n] (map (fun x => fsub x (hd f0 (data b))) (data a)))
      else if (n =? 1)%nat
      then Ok (mkarray [m] (map (fun y => fsub (hd f0 (data a)) y) (data b)))
      else Raise (broadcast_error [n] [m])
  | [r; c], [m] =>
      if (c =? m)%nat
      then Ok (mkarray [r; c]
                 (concat (map (fun row => zip_with fsub row (data b)) (rows r c (data a)))))
      else if (m =? 1)%nat
      then Ok (mkarray [r; c] (map (fun x => fsub x (hd f0 (data b))) (data a)))
      else if (c =? 1)%nat
      then Ok (mkarray [r; m]
                 (concat (map (fun x => map (fun y => fsub x y) (data b)) (data a))))
      else Raise (broadcast_error [r; c] [m])
  | _, _ => Raise (OutsideModel "subtraction on other ranks")
  end.

(** [np.maximum], [np.minimum] on two floats, and [np.clip(x, lo, hi)], which
    is [minimum(maximum(x, lo), hi)] on every element. *)
Definition fmax (x y : F) : F := if fltb x y then y else x.
Definition fmin (x y : F) : F := if fltb y x then y else x.
Definition clip1 (x lo hi : F) : F := fmin (fmax x lo) hi.
Definition clip (a : ndarray F) (lo hi : F) : ndarray F :=
  amap (fun x => clip1 x lo hi) a.

(** Python's builtin [max(a, b)] and [min(a, b)]: the first argument unless
    the second is strictly better. *)
Definition py_max (a b : F) : F := if fltb a b then b else a.
Definition py_min (a b : F) : F := if fltb b a then b else a.

(** [a / b] on Python floats raises on a zero divisor. *)
Definition py_div (a b : F) : result F :=
  if feqb b f0 then Raise (ZeroDivisionError "float division by zero")
  else Ok (fdiv a b).

End Numeric.

End Np.
Export Np.

(* ================================================================== *)
(** * config.py and schemas/api_schemas.py                              *)
(* ================================================================== *)

Module Config.

(** The fields of [Settings] the modelled code reads. *)
Record Settings := {
  max_image_size : Z;
  allowed_image_formats : list string;
  embedding_size : Z;
  request_timeout : Z
}.

(** The defaults of the class: 10 MiB, the five formats, 512, 30 s. *)
Definition settings : Settings := {|
  max_image_size := 10 * 1024 * 1024;
  allowed_image_formats := ["jpg"; "jpeg"; "png"; "bmp"; "webp"];
  embedding_size := 512;
  request_timeout := 30
|}%Z.

End Config.

Module Schemas.
Section Schemas.
Context {F : Type} `{Flt F}.

(** [class ReferenceEmbedding]: an id and an embedding. *)
Record ReferenceEmbedding := {
  ref_id : string;
  ref_embedding : list F
}.

(** The field constraints pydantic enforces on a [ReferenceEmbedding]:
    [id] of [min_length=1], [embedding] of exactly 512 floats. *)
Definition ReferenceEmbedding_valid (r : ReferenceEmbedding) : Prop :=
  ref_id r <> "" /\ length (ref_embedding r) = 512%nat.

(** [class MatchResult]. *)
Record MatchResult := {
  match_id : string;
  distance : F;
  similarity : F
}.

(** [MatchResult(id=, distance=, similarity=)]: pydantic checks
    [similarity] against [ge=0.0] and [le=1.0] and raises otherwise. *)
Definition new_MatchResult (id : string) (d s : F) : result MatchResult :=
  if fleb f0 s && fleb s f1
  then Ok {| match_id := id; distance := d; similarity := s |}
  else Raise (ValidationError "similarity: input should be between 0 and 1").

End Schemas.
Arguments ReferenceEmbedding F : clear implicits.
Arguments MatchResult F : clear implicits.
End Schemas.
Export Schemas.

(* ================================================================== *)
(** * utils/embedding_utils.py                                          *)
(* ================================================================== *)

Module EmbeddingUtils.
Section EmbeddingUtils.
Context {F : Type} `{Flt F}.

(** [normalize_embedding]: the array over its norm, unless the norm is 0.
    The norm is that of the whole array: one number, also for a matrix. *)
Definition normalize_embedding (embedding : ndarray F) : ndarray F :=
  let norm := linalg_norm embedding in
  if feqb norm f0 then embedding
  else amap (fun x => fdiv x norm) embedding.

(** [cosine_distance]. *)
Definition cosine_distance (embedding1 embedding2 : ndarray F) : result F :=
  let emb1_norm := normalize_embedding embedding1 in
  let emb2_norm := normalize_embedding embedding2 in
  cosine_sim <- dot emb1_norm emb2_norm ;;
  let cosine_sim := clip cosine_sim (fopp f1) f1 in
  let distance := amap (fun x => fsub f1 x) cosine_sim in
  to_float distance.

(** [euclidean_distance]. *)
Definition euclidean_distance (embedding1 embedding2 : ndarray F) : result F :=
  diff <- sub embedding1 embedding2 ;;
  let distance := linalg_norm diff in
  Ok distance.

Definition unsupported_metric {A} (metric : string) : result A :=
  Raise (ValueError ("Unsupported distance metric: " ++ metric)).

(** [calculate_distance]. *)
Definition calculate_distance (embedding1 embedding2 : ndarray F)
    (metric : string) : result F :=
  if metric =? "cosine" then cosine_distance embedding1 embedding2
  else if metric =? "euclidean" then euclidean_distance embedding1 embedding2
  else unsupported_metric metric.

(** [distance_to_similarity]; [distance] is a Python float, so the division
    of the Euclidean branch raises when [1.0 + distance] is zero. *)
Definition distance_to_similarity (distance : F) (metric : string) : result F :=
  if metric =? "cosine" then
    half <- py_div distance f2 ;;
    let similarity := fsub f1 half in
    Ok (py_max f0 (py_min f1 similarity))
  else if metric =? "euclidean" then
    similarity <- py_div f1 (fadd f1 distance) ;;
    Ok (py_max f0 (py_min f1 similarity))
  else unsupported_metric metric.

(** [list.sort(key=...)] is stable and compares keys with [<] only.  It is
    modelled as a stable insertion sort: an element is put in front of the
    sorted rest, behind the elements whose key is strictly smaller.  Where
    [<] is a strict weak order on the keys every stable sort returns the
    same list, so the model is exact there.  Where it is not (a NaN among
    the keys) the outcome of [list.sort] depends on CPython's algorithm; of
    that case this file uses one input only, three keys that CPython's run
    detection and this model both leave in place. *)
Section Sort.
Context {A : Type} (key : A -> F).

Fixpoint insert_sorted (x : A) (l : list A) : list A :=
  match l with
  | [] => [x]
  | y :: l' =>
      if fltb (key y) (key x) then y :: insert_sorted x l'
      else x :: y :: l'
  end.

Fixpoint list_sort (l : list A) : list A :=
  match l with
  | [] => []
  | x :: l' => insert_sorted x (list_sort l')
  end.
End Sort.

End EmbeddingUtils.

Section Matching.
Context {F : Type} `{Flt F} `{Single F}.

(** The body of the [for ref in reference_embeddings] loop.  Both arrays
    are float32 arrays, so the distance is computed in single precision;
    [float(distance)] makes it a Python float, on which the similarity is
    computed. *)
Definition match_of (query_array : ndarray F) (metric : string)
    (ref : ReferenceEmbedding F) : result (MatchResult F) :=
  let ref_array := vec (map f32 (ref_embedding ref)) in
  distance <- @calculate_distance F single query_array ref_array metric ;;
  similarity <- distance_to_similarity distance metric ;;
  new_MatchResult (ref_id ref) distance similarity.

(** The loop: the matches in input order, or the first exception. *)
Fixpoint collect_matches (query_array : ndarray F) (metric : string)
    (refs : list (ReferenceEmbedding F)) : result (list (MatchResult F)) :=
  match refs with
  | [] => Ok []
  | ref :: rest =>
      m <- match_of query_array metric ref ;;
      ms <- collect_matches query_array metric rest ;;
      Ok (m :: ms)
  end.

(** [find_best_match]: [(all_matches, best_match)]; [matches[0]] raises
    IndexError on the empty list. *)
Definition find_best_match (query_embedding : list F)
    (reference_embeddings : list (ReferenceEmbedding F)) (metric : string)
    : result (list (MatchResult F) * MatchResult F) :=
  let query_array := vec (map f32 query_embedding) in
  matches <- collect_matches query_array metric reference_embeddings ;;
  let matches := list_sort (@distance F) matches in
  match matches with
  | [] => Raise (IndexError "list index out of range")
  | best_match :: _ => Ok (matches, best_match)
  end.

End Matching.

Section Batch.
Context {F : Type} `{Flt F}.

(** [batch_calculate_distances]. *)
Definition batch_calculate_distances (query_embedding reference_embeddings : ndarray F)
    (metric : string) : result (ndarray F) :=
  if metric =? "cosine" then
    let query_norm := normalize_embedding query_embedding in
    let refs_norm := normalize_embedding reference_embeddings in
    cosine_sims <- dot refs_norm query_norm ;;
    let distances := amap (fun x => fsub f1 x) cosine_sims in
    Ok distances
  else if metric =? "euclidean" then
    diffs <- sub reference_embeddings query_embedding ;;
    linalg_norm_axis1 diffs
  else unsupported_metric metric.

(** [is_valid_embedding] on a list of floats: the size, then no NaN and no
    infinity after the cast to float32. *)
Definition is_valid_embedding (embedding : list F) (expected_size : nat) : bool :=
  if negb (length embedding =? expected_size)%nat then false
  else
    let arr := map f32 embedding in
    if existsb fisnan arr || existsb fisinf arr then false
    else true.

End Batch.
End EmbeddingUtils.
Export EmbeddingUtils.

(* ================================================================== *)
(** * Effects: what a call does besides returning                       *)
(* ================================================================== *)

Module Effects.

(** The calls into the outside world, in the order they happen. *)
Inductive event :=
| EvB64Decode (base64_string : string)            (* base64.b64decode *)
| EvHttpGet (url : string) (timeout : Z)          (* requests.get *)
| EvImageOpen (image_bytes : list Byte.byte)      (* PIL's Image.open: the pixel decode *)
| EvInference (image : ndarray Z).                (* self.model.get(image) *)

(** A computation with its trace of events. *)
Definition io (A : Type) : Type := (list event * result A)%type.

Definition ret {A} (a : A) : io A := ([], Ok a).
Definition throw {A} (e : exn) : io A := ([], Raise e).

(** A call that leaves [ev] in the trace and returns or raises as the
    outside world decides. *)
Definition call {A} (ev : event) (r : result A) : io A := ([ev], r).

Definition io_bind {A B} (m : io A) (f : A -> io B) : io B :=
  match m with
  | (t, Ok a) => let '(t', r) := f a in ((t ++ t')%list, r)
  | (t, Raise e) => (t, Raise e)
  end.

(** [try: m  except ...: raise h e]. *)
Definition io_try {A} (m : io A) (h : exn -> exn) : io A :=
  (fst m, try_except (snd m) h).

Definition is_image_open (ev : event) : bool :=
  match ev with EvImageOpen _ => true | _ => false end.

Definition is_inference (ev : event) : bool :=
  match ev with EvInference _ => true | _ => false end.

End Effects.
Export Effects.

Notation "x <~ m ;; k" := (io_bind m (fun x => k))
  (at level 61, m at next level, right associativity) : py_scope.
Notation "m ;;; k" := (io_bind m (fun _ => k))
  (at level 61, right associativity) : py_scope.

(* ================================================================== *)
(** * utils/image_utils.py                                              *)
(* ================================================================== *)

Module ImageUtils.

(** What [requests.get] returns. *)
Record Response := {
  status_code : nat;
  reason : string;
  resp_url : string;
  content : list Byte.byte
}.

(** [response.raise_for_status()]: HTTPError on a 4xx or 5xx status. *)
Definition raise_for_status (r : Response) : result unit :=
  let c := status_code r in
  if (400 <=? c)%nat && (c <? 500)%nat then
    Raise (RequestException (HTTPError c)
             (str_nat c ++ " Client Error: " ++ reason r ++ " for url: " ++ resp_url r))
  else if (500 <=? c)%nat && (c <? 600)%nat then
    Raise (RequestException (HTTPError c)
             (str_nat c ++ " Server Error: " ++ reason r ++ " for url: " ++ resp_url r))
  else Ok tt.

(** What [Image.open] returns, as far as the code looks at it; [pixels] is
    [np.array(pil_image)], an array of uint8 values. *)
Record PilImage := {
  format : option string;
  mode : string;
  pixels : ndarray Z
}.

(** [cv2.cvtColor(a, cv2.COLOR_RGB2BGR)]: the first and third channel of
    every pixel change places; a fourth channel is dropped; cv2 refuses
    any other channel count. *)
Fixpoint swap_rb3 (l : list Z) : list Z :=
  match l with
  | r :: g :: b :: l' => b :: g :: r :: swap_rb3 l'
  | _ => []
  end.

Fixpoint swap_rb4 (l : list Z) : list Z :=
  match l with
  | r :: g :: b :: _ :: l' => b :: g :: r :: swap_rb4 l'
  | _ => []
  end.

Definition cvtColor_RGB2BGR (a : ndarray Z) : result (ndarray Z) :=
  match shape a with
  | [h; w; 3%nat] => Ok (mkarray [h; w; 3%nat] (swap_rb3 (data a)))
  | [h; w; 4%nat] => Ok (mkarray [h; w; 3%nat] (swap_rb4 (data a)))
  | _ => Raise (OtherException "OpenCV: Invalid number of channels in input image")
  end.

(** [cv2.cvtColor(a, cv2.COLOR_GRAY2BGR)] on a 2-d uint8 array: every
    value three times. *)
Definition cvtColor_GRAY2BGR (a : ndarray Z) : result (ndarray Z) :=
  match shape a with
  | [h; w] => Ok (mkarray [h; w; 3%nat] (flat_map (fun p => [p; p; p]) (data a)))
  | [h; w; 1%nat] => Ok (mkarray [h; w; 3%nat] (flat_map (fun p => [p; p; p]) (data a)))
  | _ => Raise (OtherException "OpenCV: Invalid number of channels in input image")
  end.

(** [cv2.cvtColor(a, cv2.COLOR_BGRA2BGR)]: the fourth channel of every
    pixel is dropped. *)
Fixpoint drop_alpha (l : list Z) : list Z :=
  match l with
  | b :: g :: r :: _ :: l' => b :: g :: r :: drop_alpha l'
  | _ => []
  end.

Definition cvtColor_BGRA2BGR (a : ndarray Z) : result (ndarray Z) :=
  match shape a with
  | [h; w; 4%nat] => Ok (mkarray [h; w; 3%nat] (drop_alpha (data a)))
  | _ => Raise (OtherException "OpenCV: Invalid number of channels in input image")
  end.

(** [validate_image]: [(is_valid, error_message)]. *)
Definition validate_image (image : option (ndarray Z)) : bool * option string :=
  match image with
  | None => (false, Some "Image is None")
  | Some image =>
      if (size image =? 0)%nat then (false, Some "Image is empty")
      else
        let check_dims (height width : nat) :=
          let min_size := 32%Z in
          if (Z.of_nat height <? min_size)%Z || (Z.of_nat width <? min_size)%Z then
            (false, Some ("Image too small: " ++ str_nat width ++ "x" ++ str_nat height
                          ++ ". Minimum size: " ++ str_int min_size ++ "x" ++ str_int min_size))
          else
            let max_size := 8192%Z in
            if (Z.of_nat height >? max_size)%Z || (Z.of_nat width >? max_size)%Z then
              (false, Some ("Image too large: " ++ str_nat width ++ "x" ++ str_nat height
                            ++ ". Maximum size: " ++ str_int max_size ++ "x" ++ str_int max_size))
            else (true, None) in
        match shape image with
        | [height; width; channels] =>
            if negb ((channels =? 1)%nat || (channels =? 3)%nat || (channels =? 4)%nat) then
              (false, Some ("Invalid number of channels: " ++ str_nat channels
                            ++ ". Expected 1, 3, or 4"))
            else check_dims height width
        | [height; width] => check_dims height width
        | s => (false, Some ("Invalid image shape: " ++ str_tuple s
                             ++ ". Expected 2D or 3D array"))
        end
  end.

(** The last two handlers of [preprocess_image]. *)
Definition preprocess_handler (e : exn) : exn :=
  match e with
  | ImageProcessingError _ _ => e
  | _ => ImageProcessingError ("Failed to preprocess image: " ++ str_exn e) PROCESSING_ERROR
  end.

(** [preprocess_image]. *)
Definition preprocess_image (image : option (ndarray Z)) : result (ndarray Z) :=
  try_except
    (let '(is_valid, error_msg) := validate_image image in
     if negb is_valid then
       Raise (ImageProcessingError (match error_msg with Some m => m | None => "None" end)
                INVALID_IMAGE)
     else
       match image with
       | None => Raise (TypeError "'NoneType' object has no attribute 'shape'")
       | Some image =>
           if (ndim image =? 2)%nat then cvtColor_GRAY2BGR image
           else
             match nth_error (shape image) 2 with
             | None => Raise (IndexError "tuple index out of range")
             | Some c => if (c =? 4)%nat then cvtColor_BGRA2BGR image else Ok image
             end
       end)
    preprocess_handler.

Section Ingestion.
(** The outside world: the settings object, base64, HTTP and PIL. *)
Variable settings : Config.Settings.
Variable b64decode : string -> result (list Byte.byte).
Variable requests_get : string -> Z -> result Response.
Variable Image_open : list Byte.byte -> result PilImage.
Variable convert : PilImage -> string -> result PilImage.

Definition str_formats (l : list string) : string :=
  "{" ++ join ", " (map (fun s => "'" ++ s ++ "'") l) ++ "}".

(** The handlers of [load_image_from_bytes]. *)
Definition load_handler (e : exn) : exn :=
  match e with
  | ImageProcessingError _ _ => e
  | _ => ImageProcessingError ("Failed to load image from bytes: " ++ str_exn e) INVALID_IMAGE
  end.

(** [load_image_from_bytes]. *)
Definition load_image_from_bytes (image_bytes : list Byte.byte) : io (ndarray Z) :=
  io_try
    (pil_image <~ call (EvImageOpen image_bytes) (Image_open image_bytes) ;;
     match
       match format pil_image with
       | Some fmt =>
           if negb (fmt =? "") && negb (str_in (lower fmt) (Config.allowed_image_formats settings))
           then Raise (ImageProcessingError
                         ("Unsupported image format: " ++ fmt ++ ". Allowed formats: "
                          ++ str_formats (Config.allowed_image_formats settings))
                         UNSUPPORTED_FORMAT)
           else Ok tt
       | None => Ok tt
       end
     with
     | Raise e => throw e
     | Ok _ =>
         match
           pil_image <- (if negb (mode pil_image =? "RGB") then convert pil_image "RGB"
                         else Ok pil_image) ;;
           let image_array := pixels pil_image in
           cvtColor_RGB2BGR image_array
         with
         | Raise e => throw e
         | Ok image_bgr => ret image_bgr
         end
     end)
    load_handler.

Definition too_large (n : nat) : exn :=
  ImageProcessingError
    ("Image size (" ++ str_nat n ++ " bytes) exceeds maximum allowed ("
     ++ str_int (Config.max_image_size settings) ++ " bytes)")
    IMAGE_TOO_LARGE.

(** The handlers of [decode_base64_image]. *)
Definition decode_handler (e : exn) : exn :=
  match e with
  | BinasciiError m => ImageProcessingError ("Invalid base64 encoding: " ++ m) INVALID_IMAGE
  | ImageProcessingError _ _ => e
  | _ => ImageProcessingError ("Failed to decode image: " ++ str_exn e) INVALID_IMAGE
  end.

(** The data-URI prefix, when there is one, is cut off. *)
Definition strip_data_uri (base64_string : string) : string :=
  if contains_char "," base64_string && startswith base64_string "data:"
  then after_first "," base64_string
  else base64_string.

(** [decode_base64_image]. *)
Definition decode_base64_image (base64_string : string) : io (ndarray Z) :=
  io_try
    (let base64_string := strip_data_uri base64_string in
     image_bytes <~ call (EvB64Decode base64_string) (b64decode base64_string) ;;
     if (Z.of_nat (length image_bytes) >? Config.max_image_size settings)%Z
     then throw (too_large (length image_bytes))
     else load_image_from_bytes image_bytes)
    decode_handler.

(** [url.startswith(('http://', 'https://'))]. *)
Definition http_scheme (url : string) : bool :=
  startswith url "http://" || startswith url "https://".

(** The handlers of [fetch_image_from_url], in the order of the source. *)
Definition fetch_handler (url : string) (e : exn) : exn :=
  match e with
  | RequestException Timeout _ =>
      ImageProcessingError ("Request timeout while fetching image from URL: " ++ url)
        PROCESSING_ERROR
  | RequestException _ m =>
      ImageProcessingError ("Failed to fetch image from URL: " ++ m) INVALID_IMAGE
  | ImageProcessingError _ _ => e
  | _ => ImageProcessingError ("Failed to load image from URL: " ++ str_exn e) INVALID_IMAGE
  end.

(** [fetch_image_from_url]. *)
Definition fetch_image_from_url (url : string) (timeout : Z) : io (ndarray Z) :=
  io_try
    (if negb (http_scheme url)
     then throw (ImageProcessingError
                   "Invalid URL format. URL must start with http:// or https://"
                   INVALID_IMAGE)
     else
       response <~ call (EvHttpGet url timeout) (requests_get url timeout) ;;
       match raise_for_status response with
       | Raise e => throw e
       | Ok _ =>
           let image_bytes := content response in
           if (Z.of_nat (length image_bytes) >? Config.max_image_size settings)%Z
           then throw (too_large (length image_bytes))
           else load_image_from_bytes image_bytes
       end)
    (fetch_handler url).

End Ingestion.

End ImageUtils.
Export ImageUtils.

(* ================================================================== *)
(** * models/face_model.py                                              *)
(* ================================================================== *)

Module FaceModel.
Section FaceModel.
Context {F : Type}.

(** A face as the backend returns it: [embedding] may be [None];
    [det_score] is [None] here when the object has no such attribute. *)
Record Face := {
  embedding : option (ndarray F);
  det_score : option F
}.

(** [class FaceRecognitionModel]: [model] is [None] until [load] has run;
    a loaded model is the backend's [get]. *)
Record FaceRecognitionModel := {
  model : option (ndarray Z -> result (list Face));
  model_name : string;
  device : string;
  detection_threshold : F;
  embedding_size : Z
}.

(** [is_loaded]. *)
Definition is_loaded (self : FaceRecognitionModel) : bool :=
  match model self with Some _ => true | None => false end.

Definition not_loaded_error : exn :=
  FaceModelError "Face recognition model is not loaded" MODEL_NOT_LOADED.

Definition no_face_error : exn :=
  FaceModelError "No face detected in the image" NO_FACE_DETECTED.

(** The two handlers of [get_embedding]. *)
Definition embedding_handler (e : exn) : exn :=
  match e with
  | FaceModelError _ _ => e
  | _ => FaceModelError ("Failed to extract embedding: " ++ str_exn e) PROCESSING_ERROR
  end.

Definition multiple_faces_message (n : nat) : string :=
  "Multiple faces detected (" ++ str_nat n
  ++ "). Please provide an image with a single face.".

Definition invalid_embedding_message (expected : Z) (got : string) : string :=
  "Invalid embedding extracted. Expected size " ++ str_int expected ++ ", got " ++ got.

(** What follows [faces = self.model.get(image)] inside the [try]. *)
Definition single_face (self : FaceRecognitionModel) (return_detection_info : bool)
    (faces : list Face) : result (ndarray F * option F) :=
  if (length faces =? 0)%nat then
    Raise no_face_error
  else if (1 <? length faces)%nat then
    Raise (FaceModelError (multiple_faces_message (length faces)) MULTIPLE_FACES_DETECTED)
  else
    match faces with
    | [] => Raise (IndexError "list index out of range")
    | face :: _ =>
        match embedding face with
        | None =>
            Raise (FaceModelError
                     (invalid_embedding_message (embedding_size self) "None")
                     INVALID_EMBEDDING)
        | Some emb =>
            n <- len emb ;;
            if negb (Z.of_nat n =? embedding_size self)%Z then
              Raise (FaceModelError
                       (invalid_embedding_message (embedding_size self) (str_nat n))
                       INVALID_EMBEDDING)
            else
              let detection_score :=
                if return_detection_info then det_score face else None in
              Ok (emb, detection_score)
        end
    end.

(** [get_embedding]. *)
Definition get_embedding (self : FaceRecognitionModel) (image : ndarray Z)
    (return_detection_info : bool) : io (ndarray F * option F) :=
  match model self with
  | None =>
      throw not_loaded_error
  | Some get =>
      io_try
        (faces <~ call (EvInference image) (get image) ;;
         match single_face self return_detection_info faces with
         | Ok r => ret r
         | Raise e => throw e
         end)
        embedding_handler
  end.

(** [detect_faces]. *)
Definition detect_faces (self : FaceRecognitionModel) (image : ndarray Z) : io nat :=
  match model self with
  | None =>
      throw not_loaded_error
  | Some get =>
      io_try
        (faces <~ call (EvInference image) (get image) ;; ret (length faces))
        (fun e => FaceModelError ("Failed to detect faces: " ++ str_exn e) PROCESSING_ERROR)
  end.

End FaceModel.
Arguments Face F : clear implicits.
Arguments FaceRecognitionModel F : clear implicits.
End FaceModel.
Export FaceModel.

Unset Implicit Arguments.

(* ================================================================== *)
(** * The specification's formulas, in its own words                    *)
(* ================================================================== *)

Module Spec.

(** [clip(x, lo, hi)]. *)
Definition Rclip (x lo hi : R) : R := Rmax lo (Rmin hi x).

(** [dot(a, b)] and the L2 norm [||v||]. *)
Fixpoint Rdot (a b : list R) : R :=
  match a, b with
  | x :: a', y :: b' => (x * y + Rdot a' b')%R
  | _, _ => 0%R
  end.

Definition l2norm (v : list R) : R := sqrt (Rdot v v).

(** [normalize(v)]: [v] unchanged if its L2 norm is exactly 0, else
    [v / ||v||]. *)
Definition normalize (v : list R) : list R :=
  if Req_dec_T (l2norm v) 0 then v else map (fun x => (x / l2norm v)%R) v.

(** [cosineDistance(a,b) = 1 - clip(dot(normalize(a), normalize(b)), -1, 1)]. *)
Definition cosineDistance (a b : list R) : R :=
  (1 - Rclip (Rdot (normalize a) (normalize b)) (-1) 1)%R.

(** [distanceToSimilarity]: cosine [clip(1 - distance/2, 0, 1)]; Euclidean
    [clip(1/(1+distance), 0, 1)]. *)
Definition cosine_similarity (d : R) : R := Rclip (1 - d / 2) 0 1.
Definition euclidean_similarity (d : R) : R := Rclip (1 / (1 + d)) 0 1.

End Spec.

(* ================================================================== *)
(** * What the statements below speak of                                *)
(* ================================================================== *)

Module Statements.

Section KeyOrder.
Context {F : Type} `{Flt F}.

(** [<] on three keys behaves as an order does: it is asymmetric, and "not
    below" is transitive.  A NaN among different numbers breaks the second:
    neither [nan < x] nor [x < nan] holds, for any [x]. *)
Definition ordered3 (x y z : F) : bool :=
  implb (fltb x y) (negb (fltb y x))
  && implb (negb (fltb y x) && negb (fltb z y)) (negb (fltb z x)).

(** [<] orders the keys of a list. *)
Definition keys_ordered (keys : list F) : bool :=
  forallb (fun x => forallb (fun y => forallb (fun z => ordered3 x y z) keys) keys) keys.

(** [x <= y] as [list.sort] sees it: [y] is not below [x]. *)
Definition not_below (x y : F) : Prop := fltb y x = false.

(** The key [k] ranks with [d]: neither is below the other. *)
Definition ties_with (d k : F) : bool := negb (fltb k d) && negb (fltb d k).

End KeyOrder.

(** What a match of [find_best_match] says of its reference: the id, the
    distance of the two float32 arrays, and the similarity of that distance. *)
Definition match_of_reference {F : Type} `{Flt F} `{Single F} (query : list F)
    (metric : string) (m : MatchResult F) (r : ReferenceEmbedding F) : Prop :=
  match_id m = ref_id r
  /\ @calculate_distance F single (vec (map f32 query))
       (vec (map f32 (ref_embedding r))) metric = Ok (distance m)
  /\ distance_to_similarity (distance m) metric = Ok (similarity m).

(** The float interface [H] with another division. *)
Definition with_division {F : Type} (H : Flt F) (div : F -> F -> F) : Flt F :=
  {| f0 := @f0 F H; f1 := @f1 F H; f2 := @f2 F H;
     fopp := @fopp F H; fadd := @fadd F H; fsub := @fsub F H; fmul := @fmul F H;
     fdiv := div;
     fsqrt := @fsqrt F H;
     feqb := @feqb F H; fltb := @fltb F H; fleb := @fleb F H;
     fisnan := @fisnan F H; fisinf := @fisinf F H;
     f32 := @f32 F H |}.

(** [div] is the division of [H] wherever the divisor is not zero. *)
Definition agrees_off_zero {F : Type} (H : Flt F) (div : F -> F -> F) : Prop :=
  forall x n, @feqb F H n (@f0 F H) = false -> div x n = @fdiv F H x n.

(** The distance and similarity of the two metrics, in exact arithmetic. *)
Definition Rdistance (metric : string) (a b : list R) : R :=
  if (metric =? "cosine")%string then Spec.cosineDistance a b
  else Spec.l2norm (zip_with Rminus a b).

Definition Rsimilarity (metric : string) (d : R) : R :=
  if (metric =? "cosine")%string then Spec.cosine_similarity d
  else Spec.euclidean_similarity d.

Definition supported (metric : string) : Prop :=
  metric = "cosine" \/ metric = "euclidean".

(** The byte length is over the configured cap. *)
Definition over_cap (settings : Config.Settings) (image_bytes : list Byte.byte) : Prop :=
  (Z.of_nat (length image_bytes) > Config.max_image_size settings)%Z.

(** The dimensions [validate_image] accepts. *)
Definition dims_ok (height width : nat) : Prop :=
  (32 <= Z.of_nat height <= 8192)%Z /\ (32 <= Z.of_nat width <= 8192)%Z.

End Statements.
Export Statements.

(* ================================================================== *)
(** * Concrete inputs                                                   *)
(* ================================================================== *)

Module Examples.
Import Byte.

(** Three references for a query in the plane; the last two are at the
    same cosine distance from the query [(1, 0)]. *)
Definition refs_example : list (ReferenceEmbedding float) :=
  [ {| ref_id := "far"; ref_embedding := [0; 1]%float |};
    {| ref_id := "same"; ref_embedding := [1; 0]%float |};
    {| ref_id := "longer"; ref_embedding := [2; 0]%float |} ].

(** A query and three references of 512 components, as the schema asks for.
    The second reference holds 1e39 (the binary64 number Python reads that
    literal as), finite and beyond the range of float32; the third is the
    query itself. *)
Definition query_512 : list float := 1%float :: repeat 0%float 511.

Definition refs_overflow : list (ReferenceEmbedding float) :=
  [ {| ref_id := "a"; ref_embedding := 0%float :: 1%float :: repeat 0%float 510 |};
    {| ref_id := "b"; ref_embedding := 0x1.78287f49c4a1dp+129%float :: repeat 0%float 511 |};
    {| ref_id := "c"; ref_embedding := query_512 |} ].

(** A division that answers 1 on a zero divisor. *)
Definition div_one_on_zero (x n : float) : float :=
  if PrimFloat.eqb n PrimFloat.zero then PrimFloat.one else PrimFloat.div x n.

Definition tiny_image : ndarray Z := mkarray [1; 1; 3]%nat [0; 0; 0]%Z.

(** A backend that reports [faces] for every image. *)
Definition loaded_model (faces : list (Face float)) (size : Z)
    : FaceRecognitionModel float :=
  {| model := Some (fun _ => Ok faces);
     model_name := "buffalo_l";
     device := "cpu";
     detection_threshold := 0.5%float;
     embedding_size := size |}.

Definition unloaded_model : FaceRecognitionModel float :=
  {| model := None;
     model_name := "buffalo_l";
     device := "cpu";
     detection_threshold := 0.5%float;
     embedding_size := 512 |}.

Definition face_ok : Face float :=
  {| embedding := Some (vec [0.5; 0.25]%float); det_score := Some 0.75%float |}.

(** A face whose embedding has the right length and holds NaN and an
    infinity. *)
Definition face_nan : Face float :=
  {| embedding := Some (vec [nan; infinity]); det_score := Some 0.75%float |}.

Definition six_bytes : list byte := [x00; x01; x02; x03; x04; x05].
Definition three_bytes : list byte := [x00; x01; x02].

(** [base64.b64decode] on the two texts used below, which are the base64
    of [six_bytes] and of [three_bytes]. *)
Definition b64decode_example (s : string) : result (list byte) :=
  if (s =? "AAECAwQF")%string then Ok six_bytes
  else if (s =? "AAEC")%string then Ok three_bytes
  else Raise (BinasciiError "Incorrect padding").

(** The default settings with a cap of 4 bytes. *)
Definition small_cap : Config.Settings :=
  {| Config.max_image_size := 4;
     Config.allowed_image_formats := Config.allowed_image_formats Config.settings;
     Config.embedding_size := 512;
     Config.request_timeout := 30 |}.

(** PIL cannot read the bytes. *)
Definition open_fails (_ : list byte) : result PilImage :=
  Raise (OtherException "cannot identify image file").

Definition convert_none (p : PilImage) (_ : string) : result PilImage := Ok p.

(** Servers: one answers 200 with [six_bytes], one 404, one not in time,
    one refuses the connection. *)
Definition get_six_bytes (url : string) (_ : Z) : result Response :=
  Ok {| status_code := 200; reason := "OK"; resp_url := url; content := six_bytes |}.

Definition get_404 (url : string) (_ : Z) : result Response :=
  Ok {| status_code := 404; reason := "Not Found"; resp_url := url; content := [] |}.

(** A server that answers 304 with [six_bytes]. *)
Definition get_304 (url : string) (_ : Z) : result Response :=
  Ok {| status_code := 304; reason := "Not Modified"; resp_url := url;
        content := six_bytes |}.

Definition get_timeout (_ : string) (_ : Z) : result Response :=
  Raise (RequestException Timeout "Read timed out.").

Definition get_refused (_ : string) (_ : Z) : result Response :=
  Raise (RequestException ConnectionError "Connection refused").

Definition face_url : string := "https://example.org/face.jpg".

(** A 32 x 32 image with one channel, all black. *)
Definition gray_32x32x1 : ndarray Z := mkarray [32; 32; 1]%nat (repeat 0%Z 1024).

End Examples.
Export Examples.

(* ================================================================== *)
(** * utils/image_utils.py: encode_image_to_base64                      *)
(* ================================================================== *)

Module ImageEncoding.
Section Encoding.
(** The outside world: PIL's [Image.fromarray] and [save], and
    [base64.b64encode] followed by [decode("utf-8")]. *)
Variable Image_fromarray : ndarray Z -> result PilImage.
Variable Image_save : PilImage -> string -> result (list Byte.byte).
Variable b64encode : list Byte.byte -> string.

(** The one handler of [encode_image_to_base64]: whatever is raised
    becomes a ProcessingError. *)
Definition encode_handler (e : exn) : exn :=
  ImageProcessingError ("Failed to encode image to base64: " ++ str_exn e)
    PROCESSING_ERROR.

(** The prefix [f"data:image/{format.lower()};base64,"]. *)
Definition data_uri_prefix (format : string) : string :=
  "data:" ++ ("image/" ++ lower format) ++ ";base64,".

(** [image_rgb], as the [if len(image.shape) == 3 and image.shape[2] == 3]
    block leaves it; [cv2.COLOR_BGR2RGB] is the same channel swap as
    [cv2.COLOR_RGB2BGR]. *)
Definition image_rgb_of (image : ndarray Z) : result (ndarray Z) :=
  if (ndim image =? 3)%nat
  then match nth_error (shape image) 2 with
       | Some 3%nat => cvtColor_RGB2BGR image
       | _ => Ok image
       end
  else Ok image.

(** [encode_image_to_base64]. *)
Definition encode_image_to_base64 (image : ndarray Z) (format : string)
    : result string :=
  try_except
    (image_rgb <- image_rgb_of image ;;
     pil_image <- Image_fromarray image_rgb ;;
     buffer <- Image_save pil_image format ;;
     let base64_string := b64encode buffer in
     Ok (data_uri_prefix format ++ base64_string))
    encode_handler.

End Encoding.
End ImageEncoding.
Export ImageEncoding.

(* ================================================================== *)
(** * config.py and models/face_model.py: loading and the singleton     *)
(* ================================================================== *)

Module Lifecycle.
Section Lifecycle.
Context {F : Type}.

(** The model fields of [Settings]; [providers] is what the environment
    gave, [None] when it gave nothing. *)
Record ModelSettings := {
  cfg_model_name : string;
  cfg_detection_threshold : F;
  cfg_embedding_size : Z;
  cfg_device : string;
  cfg_providers : option (list string)
}.

(** [Settings.__init__]: the ONNX Runtime providers follow the device when
    none are given. *)
Definition Settings_init (s : ModelSettings) : ModelSettings :=
  match cfg_providers s with
  | Some _ => s
  | None =>
      {| cfg_model_name := cfg_model_name s;
         cfg_detection_threshold := cfg_detection_threshold s;
         cfg_embedding_size := cfg_embedding_size s;
         cfg_device := cfg_device s;
         cfg_providers :=
           Some (if (cfg_device s =? "cuda")%string
                 then ["CUDAExecutionProvider"; "CPUExecutionProvider"]
                 else ["CPUExecutionProvider"]) |}
  end.

(** An insightface [FaceAnalysis] object: [prepare] succeeds or raises, and
    what [get] does depends on whether [prepare] has succeeded. *)
Record FaceAnalysis := {
  prepare : Z -> nat * nat -> F -> result unit;
  get : bool -> ndarray Z -> result (list (Face F))
}.

Variable settings : ModelSettings.
(** The constructor [FaceAnalysis(name=, providers=)]. *)
Variable new_FaceAnalysis : string -> option (list string) -> result FaceAnalysis.

(** [FaceRecognitionModel.__init__]. *)
Definition new_FaceRecognitionModel : FaceRecognitionModel F :=
  {| model := None;
     model_name := cfg_model_name settings;
     device := cfg_device settings;
     detection_threshold := cfg_detection_threshold settings;
     embedding_size := cfg_embedding_size settings |}.

Definition with_model (self : FaceRecognitionModel F)
    (m : option (ndarray Z -> result (list (Face F)))) : FaceRecognitionModel F :=
  {| model := m;
     model_name := model_name self;
     device := device self;
     detection_threshold := detection_threshold self;
     embedding_size := embedding_size self |}.

Definition load_error (e : exn) : exn :=
  FaceModelError ("Failed to load face recognition model: " ++ str_exn e)
    MODEL_NOT_LOADED.

(** [load]: the object after the call, and what the call returned or
    raised.  [self.model] is assigned as soon as the constructor returns,
    before [prepare] runs. *)
Definition load (self : FaceRecognitionModel F)
    : FaceRecognitionModel F * result unit :=
  match new_FaceAnalysis (model_name self) (cfg_providers settings) with
  | Raise e => (self, Raise (load_error e))
  | Ok fa =>
      let self := with_model self (Some (get fa false)) in
      let ctx_id := if (device self =? "cpu")%string then (-1)%Z else 0%Z in
      let det_size := (640, 640)%nat in
      match prepare fa ctx_id det_size (detection_threshold self) with
      | Raise e => (self, Raise (load_error e))
      | Ok _ => (with_model self (Some (get fa true)), Ok tt)
      end
  end.

(** The module-level [_model_instance]. *)
Definition instance_state : Type := option (FaceRecognitionModel F).

(** [get_model]. *)
Definition get_model (instance : instance_state) : result (FaceRecognitionModel F) :=
  match instance with
  | None =>
      Raise (FaceModelError
               "Face recognition model not initialized. Call initialize_model() first."
               MODEL_NOT_LOADED)
  | Some m => Ok m
  end.

(** [initialize_model]: the instance is stored first and loaded then. *)
Definition initialize_model (instance : instance_state) : instance_state * result unit :=
  let '(m, r) := load new_FaceRecognitionModel in
  (Some m, r).

(** [cleanup_model]. *)
Definition cleanup_model (instance : instance_state) : instance_state :=
  match instance with
  | Some _ => None
  | None => instance
  end.

End Lifecycle.
Arguments ModelSettings F : clear implicits.
Arguments FaceAnalysis F : clear implicits.
Arguments instance_state F : clear implicits.
End Lifecycle.
Export Lifecycle.

(* ================================================================== *)
(** * schemas/api_schemas.py: request and response models               *)
(* ================================================================== *)

Module ApiSchemas.
Section ApiSchemas.
Context {F : Type} `{Flt F}.

(** [validate_metric], the validator of [distance_metric]. *)
Definition validate_metric (v : string) : result string :=
  if negb (str_in (lower v) ["cosine"; "euclidean"])
  then Raise (ValueError "Distance metric must be one of {'cosine', 'euclidean'}")
  else Ok (lower v).

(** [ReferenceEmbedding(id=, embedding=)]: [id] of [min_length=1],
    [embedding] of [min_length=512] and [max_length=512].  Of pydantic's
    ValidationError only the class is modelled: the string names what failed
    and is not pydantic's text. *)
Definition new_ReferenceEmbedding (id : string) (embedding : list F)
    : result (ReferenceEmbedding F) :=
  if (String.length id <? 1)%nat || negb (length embedding =? 512)%nat
  then Raise (ValidationError "ReferenceEmbedding")
  else Ok {| ref_id := id; ref_embedding := embedding |}.

(** [class CompareRequest]. *)
Record CompareRequest := {
  query_embedding : list F;
  reference_embeddings : list (ReferenceEmbedding F);
  distance_metric : string
}.

Fixpoint new_references (raw : list (string * list F))
    : result (list (ReferenceEmbedding F)) :=
  match raw with
  | [] => Ok []
  | (id, embedding) :: rest =>
      r <- new_ReferenceEmbedding id embedding ;;
      rs <- new_references rest ;;
      Ok (r :: rs)
  end.

(** [CompareRequest(...)] from the decoded JSON: [query_embedding] of
    exactly 512 floats, [reference_embeddings] of [min_length=1], every
    reference valid, the metric through [validate_metric]. *)
Definition new_CompareRequest (query : list F) (raw_references : list (string * list F))
    (metric : string) : result CompareRequest :=
  if negb (length query =? 512)%nat
  then Raise (ValidationError "query_embedding")
  else
    refs <- new_references raw_references ;;
    if (length refs <? 1)%nat
    then Raise (ValidationError "reference_embeddings")
    else
      match validate_metric metric with
      | Raise e => Raise (ValidationError (str_exn e))
      | Ok m =>
          Ok {| query_embedding := query;
                reference_embeddings := refs;
                distance_metric := m |}
      end.

(** [class CompareResponse]. *)
Record CompareResponse := {
  matches : list (MatchResult F);
  best_match : MatchResult F;
  response_metric : string
}.

(** [class EmbedResponse]. *)
Record EmbedResponse := {
  response_embedding : list F;
  face_detected : bool;
  detection_score : option F
}.

(** [embedding.tolist()] as pydantic's [list[float]] takes it: the elements
    of a 1-d array; the nested lists of another rank are no list of floats. *)
Definition tolist (a : ndarray F) : option (list F) :=
  if (ndim a =? 1)%nat then Some (data a) else None.

(** [EmbedResponse(embedding=, face_detected=, detection_score=)]: 512
    floats, and a score, when there is one, in [0, 1]. *)
Definition new_EmbedResponse (embedding : option (list F)) (detected : bool)
    (score : option F) : result EmbedResponse :=
  match embedding with
  | None => Raise (ValidationError "embedding")
  | Some l =>
      if negb (length l =? 512)%nat then Raise (ValidationError "embedding")
      else
        match score with
        | Some x =>
            if fleb f0 x && fleb x f1
            then Ok {| response_embedding := l; face_detected := detected;
                       detection_score := score |}
            else Raise (ValidationError "detection_score")
        | None =>
            Ok {| response_embedding := l; face_detected := detected;
                  detection_score := None |}
        end
  end.

(** [class ComparePhotosResponse]. *)
Record ComparePhotosResponse := {
  photos_match : bool;
  photos_similarity : F;
  photos_distance : F;
  photos_metric : string;
  image1_detection_score : option F;
  image2_detection_score : option F
}.

(** A field declared with [ge=0.0] and [le=1.0]. *)
Definition in_unit_interval (x : F) : bool := fleb f0 x && fleb x f1.

Definition optional_in_unit_interval (x : option F) : bool :=
  match x with Some v => in_unit_interval v | None => true end.

(** [ComparePhotosResponse(...)]: the similarity and the two detection
    scores, when there are any, in [0, 1]. *)
Definition new_ComparePhotosResponse (is_match : bool) (similarity distance : F)
    (metric : string) (score1 score2 : option F) : result ComparePhotosResponse :=
  if in_unit_interval similarity
     && optional_in_unit_interval score1 && optional_in_unit_interval score2
  then Ok {| photos_match := is_match; photos_similarity := similarity;
             photos_distance := distance; photos_metric := metric;
             image1_detection_score := score1; image2_detection_score := score2 |}
  else Raise (ValidationError "ComparePhotosResponse").

End ApiSchemas.
Arguments CompareRequest F : clear implicits.
Arguments CompareResponse F : clear implicits.
Arguments EmbedResponse F : clear implicits.
Arguments ComparePhotosResponse F : clear implicits.
End ApiSchemas.
Export ApiSchemas.

(* ================================================================== *)
(** * main.py: the endpoints                                            *)
(* ================================================================== *)

Module Main.

(** The float literal 0.4 of the match verdict. *)
Class FltLit (F : Type) := { f0_4 : F }.

#[export] Instance FltLit_R : FltLit R := {| f0_4 := (4 / 10)%R |}.
#[export] Instance FltLit_float : FltLit float := {| f0_4 := 0x1.999999999999ap-2%float |}.

(** What an endpoint answers: the body with status 200, the JSON error
    body the two exception handlers of the app write (status 400), or an
    [HTTPException]. *)
Inductive http_result (A : Type) :=
| Http200 (body : A)
| HttpErrorResponse (status_code : nat) (error : string) (error_code : ErrorCode)
| HTTPException (status_code : nat) (detail : string).
Arguments Http200 {A} body.
Arguments HttpErrorResponse {A} status_code error error_code.
Arguments HTTPException {A} status_code detail.

Section Endpoints.
Context {F : Type} `{Flt F} `{Single F} `{FltLit F}.

(** The verdict of [compare_photos], on the metric in lower case: cosine
    distance under 0.4, any other under 1.0. *)
Definition is_match (metric : string) (distance : F) : bool :=
  if (metric =? "cosine")%string then fltb distance f0_4
  else fltb distance f1.

(** A step that calls nothing outside. *)
Definition lift {A} (r : result A) : io A := ([], r).

(** [compare_embeddings]: ValueError becomes status 400 (pydantic's
    ValidationError and binascii's Error are ValueErrors), anything else
    500. *)
Definition compare_embeddings (request : CompareRequest F)
    : http_result (CompareResponse F) :=
  match find_best_match (query_embedding request) (reference_embeddings request)
          (distance_metric request) with
  | Ok (all_matches, best) =>
      Http200 {| matches := all_matches; best_match := best;
                 response_metric := distance_metric request |}
  | Raise (ValueError m) => HTTPException 400 m
  | Raise (ValidationError m) => HTTPException 400 m
  | Raise (BinasciiError m) => HTTPException 400 m
  | Raise e => HTTPException 500 ("Internal server error: " ++ str_exn e)
  end.

(** The outside world of [extract_embedding]. *)
Variable settings : Config.Settings.
Variable b64decode : string -> result (list Byte.byte).
Variable Image_open : list Byte.byte -> result PilImage.
Variable convert : PilImage -> string -> result PilImage.

(** [extract_embedding]: decode, preprocess, fetch the model, extract, and
    build the response; the two domain errors are answered by the app's
    handlers, anything else is a 500. *)
Definition extract_embedding (instance : instance_state F) (request_image : string)
    : list event * http_result (EmbedResponse F) :=
  let '(trace, r) :=
    image <~ decode_base64_image settings b64decode Image_open convert request_image ;;
    image <~ lift (preprocess_image (Some image)) ;;
    model <~ lift (get_model instance) ;;
    found <~ get_embedding model image true ;;
    let '(embedding, detection_score) := found in
    let embedding_list := tolist embedding in
    lift (new_EmbedResponse embedding_list true detection_score) in
  (trace,
   match r with
   | Ok response => Http200 response
   | Raise (FaceModelError m c) => HttpErrorResponse 400 m c
   | Raise (ImageProcessingError m c) => HttpErrorResponse 400 m c
   | Raise e => HTTPException 500 ("Internal server error: " ++ str_exn e)
   end).

(** The rest of the outside world of [compare_photos]: [requests.get],
    [base64.b64encode(...).decode("utf-8")], [str.strip] and the [str] of
    Starlette's [HTTPException]. *)
Variable requests_get : string -> Z -> result Response.
Variable b64encode : list Byte.byte -> string.
Variable strip : string -> string.
Variable str_HTTPException : nat -> string -> string.

(** [raise HTTPException(status_code=, detail=)] inside the [try]: an
    exception that is neither of the two domain errors. *)
Definition raise_HTTPException {A} (status_code : nat) (detail : string) : result A :=
  Raise (OtherException (str_HTTPException status_code detail)).

(** [f"{detection_score:.4f}"], which the two [logger.debug] calls
    evaluate: None has no such format. *)
Definition format_4f (detection_score : option F) : result unit :=
  match detection_score with
  | Some _ => Ok tt
  | None => Raise (TypeError "unsupported format string passed to NoneType.__format__")
  end.

(** [compare_photos]: the first image from its URL, the second from the
    uploaded bytes.  The three input checks raise [HTTPException] inside the
    [try], whose last handler takes every exception but the two domain
    errors. *)
Definition compare_photos (instance : instance_state F) (image1 : string)
    (image2_bytes : list Byte.byte) (distance_metric : string)
    : list event * http_result (ComparePhotosResponse F) :=
  let '(trace, r) :=
    lift (if (image1 =? "")%string || (strip image1 =? "")%string
          then raise_HTTPException 400 "Image URL cannot be empty"
          else Ok tt) ;;;
    let image1 := strip image1 in
    lift (if negb (http_scheme image1)
          then raise_HTTPException 400 "Image URL must start with http:// or https://"
          else Ok tt) ;;;
    lift (if negb (str_in (lower distance_metric) ["cosine"; "euclidean"])
          then raise_HTTPException 400
                 ("Distance metric must be 'cosine' or 'euclidean', got '"
                  ++ distance_metric ++ "'")
          else Ok tt) ;;;
    img1 <~ fetch_image_from_url settings requests_get Image_open convert image1 30 ;;
    img1 <~ lift (preprocess_image (Some img1)) ;;
    model <~ lift (get_model instance) ;;
    found1 <~ get_embedding model img1 true ;;
    let '(embedding1, detection_score1) := found1 in
    lift (format_4f detection_score1) ;;;
    let image2_b64 := b64encode image2_bytes in
    img2 <~ decode_base64_image settings b64decode Image_open convert image2_b64 ;;
    img2 <~ lift (preprocess_image (Some img2)) ;;
    found2 <~ get_embedding model img2 true ;;
    let '(embedding2, detection_score2) := found2 in
    lift (format_4f detection_score2) ;;;
    distance <~ lift (calculate_distance embedding1 embedding2 (lower distance_metric)) ;;
    similarity <~ lift (distance_to_similarity distance (lower distance_metric)) ;;
    let is_match := is_match (lower distance_metric) distance in
    lift (new_ComparePhotosResponse is_match similarity distance
            (lower distance_metric) detection_score1 detection_score2) in
  (trace,
   match r with
   | Ok response => Http200 response
   | Raise (FaceModelError m c) => HttpErrorResponse 400 m c
   | Raise (ImageProcessingError m c) => HttpErrorResponse 400 m c
   | Raise e => HTTPException 500 ("Internal server error: " ++ str_exn e)
   end).

End Endpoints.
End Main.
Export Main.

(* ================================================================== *)
(** * More concrete inputs                                              *)
(* ================================================================== *)

Module MoreExamples.
Import Byte.

(** PIL on the encoding side: any array becomes an RGB image, and every
    image is saved as [three_bytes], whose base64 is "AAEC". *)
Definition fromarray_rgb (a : ndarray Z) : result PilImage :=
  Ok {| format := None; mode := "RGB"; pixels := a |}.

Definition save_three_bytes (_ : PilImage) (_ : string) : result (list byte) :=
  Ok three_bytes.

Definition b64encode_example (_ : list byte) : string := "AAEC".

(** A 2 x 1 image in BGR order, and a 40 x 40 image of one colour. *)
Definition two_pixels : ndarray Z := mkarray [2; 1; 3]%nat [1; 2; 3; 4; 5; 6]%Z.

Definition gray_40x40 : ndarray Z := mkarray [40; 40]%nat (repeat 7%Z 1600).

(** PIL reads every byte string as a GIF, or as the PNG [two_pixels]. *)
Definition open_gif (_ : list byte) : result PilImage :=
  Ok {| format := Some "GIF"; mode := "P"; pixels := mkarray [2; 1]%nat [0; 1]%Z |}.

Definition open_png (_ : list byte) : result PilImage :=
  Ok {| format := Some "PNG"; mode := "RGB"; pixels := two_pixels |}.

(** PIL reads every byte string as a black 32 x 32 PNG. *)
Definition open_rgb_32 (_ : list byte) : result PilImage :=
  Ok {| format := Some "PNG"; mode := "RGB";
        pixels := mkarray [32; 32; 3]%nat (repeat 0%Z 3072) |}.

(** The model settings as [config.py] declares them, nothing given by the
    environment. *)
Definition model_settings : ModelSettings float :=
  {| cfg_model_name := "buffalo_l";
     cfg_detection_threshold := 0.5%float;
     cfg_embedding_size := 512;
     cfg_device := "cpu";
     cfg_providers := None |}.

(** A face with a 512-dimensional embedding, with and without a score. *)
Definition face_512 : Face float :=
  {| embedding := Some (vec (repeat 0.5%float 512)); det_score := Some 0.75%float |}.

Definition face_512_no_score : Face float :=
  {| embedding := Some (vec (repeat 0.5%float 512)); det_score := None |}.

(** Backends: one that reports [face_512] once prepared, one whose
    [prepare] fails, and a model pack that cannot be found. *)
Definition analysis_get (prepared : bool) (_ : ndarray Z) : result (list (Face float)) :=
  if prepared then Ok [face_512] else Raise (OtherException "model is not prepared").

Definition analysis_ok : FaceAnalysis float :=
  {| prepare := fun _ _ _ => Ok tt; get := analysis_get |}.

Definition analysis_broken : FaceAnalysis float :=
  {| prepare := fun _ _ _ => Raise (OtherException "no detection model");
     get := analysis_get |}.

Definition new_analysis_ok (_ : string) (_ : option (list string))
    : result (FaceAnalysis float) := Ok analysis_ok.

Definition new_analysis_broken (_ : string) (_ : option (list string))
    : result (FaceAnalysis float) := Ok analysis_broken.

Definition new_analysis_missing (_ : string) (_ : option (list string))
    : result (FaceAnalysis float) := Raise (OtherException "model not found").

(** [str.strip] on strings without surrounding white space, and the [str]
    of an [HTTPException] as Starlette writes it. *)
Definition strip_nothing (s : string) : string := s.

Definition str_status_detail (status_code : nat) (detail : string) : string :=
  str_nat status_code ++ ": " ++ detail.

(** The references of a request, two of 512 floats each: the second is the
    query [query_512] itself. *)
Definition raw_references_example : list (string * list float) :=
  [("a", 0%float :: 1%float :: repeat 0%float 510); ("c", query_512)].

End MoreExamples.
Export MoreExamples.

(* ================================================================== *)
(** * Exact arithmetic: how the float interface reads on the reals      *)
(* ================================================================== *)

Section RealFacts.
Open Scope R_scope.

Lemma Req_bool_true (x y : R) : Req_bool x y = true <-> x = y.
Proof. unfold Req_bool. destruct (Req_dec_T x y); split; intros; congruence. Qed.

Lemma Req_bool_false (x y : R) : Req_bool x y = false <-> x <> y.
Proof. unfold Req_bool. destruct (Req_dec_T x y); split; intros; congruence. Qed.

Lemma Rlt_bool_true (x y : R) : Rlt_bool x y = true <-> x < y.
Proof. unfold Rlt_bool. destruct (Rlt_dec x y); split; intros; congruence. Qed.

Lemma Rlt_bool_false (x y : R) : Rlt_bool x y = false <-> y <= x.
Proof.
  unfold Rlt_bool. destruct (Rlt_dec x y); split; intros; try congruence; lra.
Qed.

Lemma Rle_bool_true (x y : R) : Rle_bool x y = true <-> x <= y.
Proof. unfold Rle_bool. destruct (Rle_dec x y); split; intros; congruence. Qed.

(** Python's [max(lo, min(hi, x))] is the clip of the specification. *)
Lemma py_clip_R (x lo hi : R) :
  py_max lo (py_min hi x) = Spec.Rclip x lo hi.
Proof.
  unfold py_max, py_min, Spec.Rclip, Rmax, Rmin; simpl.
  unfold Rlt_bool.
  destruct (Rlt_dec x hi), (Rle_dec hi x); try lra;
    match goal with |- context [Rlt_dec lo ?z] => destruct (Rlt_dec lo z) end;
    match goal with |- context [Rle_dec lo ?z] => destruct (Rle_dec lo z) end;
    lra.
Qed.

(** numpy's [clip] on one element likewise, when [lo <= hi]. *)
Lemma clip1_R (x lo hi : R) : lo <= hi -> clip1 x lo hi = Spec.Rclip x lo hi.
Proof.
  intros Hlh. unfold clip1, fmin, fmax, Spec.Rclip, Rmax, Rmin; simpl.
  unfold Rlt_bool.
  destruct (Rlt_dec x lo), (Rle_dec hi x); try lra;
    match goal with |- context [Rlt_dec hi ?z] => destruct (Rlt_dec hi z) end;
    try match goal with |- context [Rle_dec lo ?z] => destruct (Rle_dec lo z) end;
    lra.
Qed.

Lemma Rclip_bounds (x lo hi : R) : lo <= hi -> lo <= Spec.Rclip x lo hi <= hi.
Proof.
  intros. unfold Spec.Rclip, Rmax, Rmin.
  destruct (Rle_dec hi x); match goal with |- context [Rle_dec lo ?z] => destruct (Rle_dec lo z) end; lra.
Qed.

Lemma Rclip_mono (x y lo hi : R) : x <= y -> Spec.Rclip x lo hi <= Spec.Rclip y lo hi.
Proof.
  intros. unfold Spec.Rclip.
  apply Rle_max_compat_l. apply Rle_min_compat_l. assumption.
Qed.

End RealFacts.

(* ================================================================== *)
(** * distance_to_similarity                                            *)
(* ================================================================== *)

Section Similarity.
Open Scope R_scope.

Lemma similarity_cosine_eq (d : R) :
  distance_to_similarity d "cosine" = Ok (Spec.cosine_similarity d).
Proof.
  unfold distance_to_similarity, py_div; simpl.
  replace (Req_bool 2 0) with false
    by (symmetry; apply Req_bool_false; lra).
  simpl. rewrite py_clip_R. reflexivity.
Qed.

Lemma similarity_euclidean_eq (d : R) :
  d <> -1 -> distance_to_similarity d "euclidean" = Ok (Spec.euclidean_similarity d).
Proof.
  intros Hd. unfold distance_to_similarity, py_div; simpl.
  replace (Req_bool (1 + d) 0) with false
    by (symmetry; apply Req_bool_false; lra).
  simpl. rewrite py_clip_R. reflexivity.
Qed.

Lemma similarity_euclidean_zero_division :
  distance_to_similarity (-1) "euclidean"
  = Raise (ZeroDivisionError "float division by zero").
Proof.
  unfold distance_to_similarity, py_div; simpl.
  replace (Req_bool (1 + -1) 0) with true
    by (symmetry; apply Req_bool_true; lra).
  reflexivity.
Qed.

Lemma Rclip_id (x lo hi : R) : lo <= x <= hi -> Spec.Rclip x lo hi = x.
Proof.
  intros. unfold Spec.Rclip. rewrite Rmin_right by lra. rewrite Rmax_right by lra.
  reflexivity.
Qed.

Lemma Rclip_low (x lo hi : R) : lo <= hi -> x <= lo -> Spec.Rclip x lo hi = lo.
Proof.
  intros. unfold Spec.Rclip. rewrite Rmin_right by lra. rewrite Rmax_left by lra.
  reflexivity.
Qed.

Lemma Rclip_high (x lo hi : R) : lo <= hi -> hi <= x -> Spec.Rclip x lo hi = hi.
Proof.
  intros. unfold Spec.Rclip. rewrite Rmin_left by lra. rewrite Rmax_right by lra.
  reflexivity.
Qed.

(** C4, as the claim states it, fails on negative distances: with the
    Euclidean metric the similarity of -2 is 0 and that of -1/2 is 1, so it
    grows with the distance there, and at -1 the function raises
    ZeroDivisionError instead of returning. *)
Lemma C4_euclidean_not_decreasing_on_negatives :
  distance_to_similarity (-2) "euclidean" = Ok 0
  /\ distance_to_similarity (-1 / 2) "euclidean" = Ok 1
  /\ -2 < -1 / 2
  /\ 0 < 1
  /\ distance_to_similarity (-1) "euclidean"
     = Raise (ZeroDivisionError "float division by zero").
Proof.
  split; [| split; [| split; [lra | split; [lra |]]]].
  - rewrite similarity_euclidean_eq by lra. f_equal.
    unfold Spec.euclidean_similarity. apply Rclip_low; lra.
  - rewrite similarity_euclidean_eq by lra. f_equal.
    unfold Spec.euclidean_similarity. apply Rclip_high; lra.
  - apply similarity_euclidean_zero_division.
Qed.

(** On [d >= 0] the Euclidean similarity is [1/(1+d)] itself, in (0, 1]. *)
Lemma euclidean_similarity_unclipped (d : R) :
  0 <= d -> Spec.euclidean_similarity d = / (1 + d) /\ 0 < / (1 + d) <= 1.
Proof.
  intros Hd.
  assert (Hpos : 0 < / (1 + d)) by (apply Rinv_0_lt_compat; lra).
  assert (Hle : / (1 + d) <= 1).
  { rewrite <- Rinv_1. apply Rinv_le_contravar; lra. }
  split; [| split; assumption].
  unfold Spec.euclidean_similarity, Rdiv. rewrite Rmult_1_l.
  apply Rclip_id. lra.
Qed.

(** C4 (amended): with the cosine metric, for every real [d] the result is
    [clip(1 - d/2, 0, 1)], lies in [0,1] and never grows with [d]; with the
    Euclidean metric the result is [clip(1/(1+d), 0, 1)] and lies in [0,1]
    at every [d] other than -1, and never grows with [d] on [d > -1], which
    holds the whole range [d >= 0] of that metric; the similarity of
    distance 0 is 1 with both metrics and that of cosine distance 2 is 0, in
    exact arithmetic and on binary64 floats. *)
Theorem C4_distance_to_similarity :
  (forall d, distance_to_similarity d "cosine" = Ok (Spec.cosine_similarity d)
             /\ 0 <= Spec.cosine_similarity d <= 1)
  /\ (forall d1 d2, d1 <= d2 ->
        Spec.cosine_similarity d2 <= Spec.cosine_similarity d1)
  /\ (forall d, d <> -1 ->
        distance_to_similarity d "euclidean" = Ok (Spec.euclidean_similarity d)
        /\ 0 <= Spec.euclidean_similarity d <= 1)
  /\ (forall d1 d2, -1 < d1 -> d1 <= d2 ->
        Spec.euclidean_similarity d2 <= Spec.euclidean_similarity d1)
  /\ (distance_to_similarity 0 "cosine" = Ok 1
      /\ distance_to_similarity 0 "euclidean" = Ok 1
      /\ distance_to_similarity 2 "cosine" = Ok 0)
  /\ (distance_to_similarity 0%float "cosine" = Ok 1%float
      /\ distance_to_similarity 0%float "euclidean" = Ok 1%float
      /\ distance_to_similarity 2%float "cosine" = Ok 0%float).
Proof.
  split; [| split; [| split; [| split; [| split]]]].
  - intros d. split; [apply similarity_cosine_eq |].
    apply Rclip_bounds; lra.
  - intros d1 d2 Hle. apply Rclip_mono. lra.
  - intros d Hd. split; [apply similarity_euclidean_eq; exact Hd |].
    apply Rclip_bounds; lra.
  - intros d1 d2 H1 Hle. apply Rclip_mono.
    unfold Rdiv. rewrite !Rmult_1_l.
    apply Rinv_le_contravar; lra.
  - split; [| split].
    + rewrite similarity_cosine_eq. f_equal.
      unfold Spec.cosine_similarity. apply Rclip_high; lra.
    + rewrite similarity_euclidean_eq by lra. f_equal.
      unfold Spec.euclidean_similarity. apply Rclip_high; lra.
    + rewrite similarity_cosine_eq. f_equal.
      unfold Spec.cosine_similarity. apply Rclip_low; lra.
  - split; [| split]; vm_compute; reflexivity.
Qed.

(** The amended C4 at concrete distances: 1/2 and 3 with both metrics. *)
Lemma C4_distance_to_similarity_witness :
  distance_to_similarity (1 / 2) "cosine" = Ok (Spec.cosine_similarity (1 / 2))
  /\ Spec.cosine_similarity 3 <= Spec.cosine_similarity (1 / 2)
  /\ distance_to_similarity 3 "euclidean" = Ok (Spec.euclidean_similarity 3)
  /\ Spec.euclidean_similarity 3 <= Spec.euclidean_similarity (1 / 2).
Proof.
  destruct C4_distance_to_similarity as (Hc & Hcm & He & Hem & _).
  split; [apply (Hc (1 / 2)) |].
  split; [apply (Hcm (1 / 2) 3); lra |].
  split; [apply (He 3); lra |].
  apply (Hem (1 / 2) 3); lra.
Defined.

End Similarity.

(* ================================================================== *)
(** * Vectors in exact arithmetic                                       *)
(* ================================================================== *)

Section VectorFacts.
Open Scope R_scope.

Lemma inner_Rdot (a b : list R) : inner a b = Spec.Rdot a b.
Proof.
  revert b. induction a as [| x a IH]; intros [| y b]; reflexivity.
Qed.

Lemma Rdot_comm (a b : list R) : Spec.Rdot a b = Spec.Rdot b a.
Proof.
  revert b. induction a as [| x a IH]; intros [| y b]; simpl; try reflexivity.
  rewrite IH. ring.
Qed.

Lemma Rdot_self_nonneg (v : list R) : 0 <= Spec.Rdot v v.
Proof.
  induction v as [| x v IH]; simpl; [lra |].
  pose proof (Rle_0_sqr x) as Hx. unfold Rsqr in Hx. lra.
Qed.

Lemma Rdot_scale (a b : list R) (n m : R) :
  Spec.Rdot (map (fun x => x / n) a) (map (fun x => x / m) b)
  = Spec.Rdot a b * (/ n * / m).
Proof.
  revert b. induction a as [| x a IH]; intros [| y b]; simpl; try ring.
  rewrite IH. unfold Rdiv. ring.
Qed.

Lemma l2norm_sqr (v : list R) : Spec.l2norm v * Spec.l2norm v = Spec.Rdot v v.
Proof. unfold Spec.l2norm. apply sqrt_sqrt. apply Rdot_self_nonneg. Qed.

Lemma l2norm_zero_dot (v : list R) : Spec.l2norm v = 0 -> Spec.Rdot v v = 0.
Proof. intros Hn. rewrite <- l2norm_sqr, Hn. ring. Qed.

(** A vector of norm 0 is left as it is, and its product with itself is 0. *)
Lemma normalize_zero (v : list R) : Spec.l2norm v = 0 -> Spec.normalize v = v.
Proof.
  intros Hn. unfold Spec.normalize. destruct (Req_dec_T (Spec.l2norm v) 0); congruence.
Qed.

(** A vector of non-zero norm becomes a unit vector. *)
Lemma normalize_unit (v : list R) :
  Spec.l2norm v <> 0 -> Spec.Rdot (Spec.normalize v) (Spec.normalize v) = 1.
Proof.
  intros Hn. unfold Spec.normalize.
  destruct (Req_dec_T (Spec.l2norm v) 0) as [E | _]; [congruence |].
  rewrite Rdot_scale, <- l2norm_sqr. field. exact Hn.
Qed.

Lemma normalize_length (v : list R) : length (Spec.normalize v) = length v.
Proof.
  unfold Spec.normalize. destruct (Req_dec_T (Spec.l2norm v) 0); [reflexivity |].
  apply length_map.
Qed.

(** [normalize_embedding] on a vector is the specification's [normalize]. *)
Lemma normalize_embedding_vec (v : list R) :
  normalize_embedding (vec v) = mkarray [length v] (Spec.normalize v).
Proof.
  unfold normalize_embedding, linalg_norm, Spec.normalize, Spec.l2norm; simpl.
  rewrite inner_Rdot. unfold Req_bool.
  destruct (Req_dec_T (sqrt (Spec.Rdot v v)) 0); reflexivity.
Qed.

(** [cosine_distance] on two vectors of one length returns the
    specification's [cosineDistance]. *)
Lemma cosine_distance_vec (a b : list R) :
  length a = length b ->
  cosine_distance (vec a) (vec b) = Ok (Spec.cosineDistance a b).
Proof.
  intros Hlen. unfold cosine_distance.
  rewrite !normalize_embedding_vec. unfold dot; simpl.
  rewrite Hlen, Nat.eqb_refl. simpl.
  rewrite inner_Rdot.
  unfold Spec.cosineDistance. f_equal. f_equal.
  rewrite <- (@clip1_R (Spec.Rdot (Spec.normalize a) (Spec.normalize b)) (-1) 1) by lra.
  reflexivity.
Qed.

Lemma zip_sub_sqr (a b : list R) :
  Spec.Rdot (zip_with Rminus a b) (zip_with Rminus a b)
  = Spec.Rdot (zip_with Rminus b a) (zip_with Rminus b a).
Proof.
  revert b. induction a as [| x a IH]; intros [| y b]; simpl; try reflexivity.
  rewrite IH. ring.
Qed.

(** [euclidean_distance] on two vectors of one length. *)
Lemma euclidean_distance_vec (a b : list R) :
  length a = length b ->
  euclidean_distance (vec a) (vec b)
  = Ok (Spec.l2norm (zip_with Rminus a b)).
Proof.
  intros Hlen. unfold euclidean_distance, sub; simpl.
  rewrite Hlen, Nat.eqb_refl. simpl.
  unfold linalg_norm; simpl. rewrite inner_Rdot. reflexivity.
Qed.

End VectorFacts.

(* ================================================================== *)
(** * cosine_distance and euclidean_distance                            *)
(* ================================================================== *)

Section FloatFacts.
Context {F : Type} {H : Flt F}.

Lemma normalize_embedding_shape (a : ndarray F) :
  shape (normalize_embedding a) = shape a.
Proof. unfold normalize_embedding. destruct (feqb _ _); reflexivity. Qed.

(** [cosine_distance] on two vectors of one length, for every float type:
    the clipped product of the two normalised vectors, taken from 1. *)
Lemma cosine_distance_formula (a b : list F) :
  length a = length b ->
  cosine_distance (vec a) (vec b)
  = Ok (fsub f1 (clip1 (inner (data (normalize_embedding (vec a)))
                              (data (normalize_embedding (vec b))))
                       (fopp f1) f1)).
Proof.
  intros Hlen. unfold cosine_distance, dot.
  rewrite !normalize_embedding_shape. simpl shape; cbv beta iota.
  rewrite Hlen, Nat.eqb_refl. reflexivity.
Qed.

(** No operation of [normalize_embedding] and [cosine_distance] other than
    the division looks at the division. *)
Lemma linalg_norm_with_division (div : F -> F -> F) (a : ndarray F) :
  @linalg_norm F (with_division H div) a = linalg_norm a.
Proof. reflexivity. Qed.

Lemma normalize_embedding_with_division (div : F -> F -> F) (a : ndarray F) :
  agrees_off_zero H div ->
  @normalize_embedding F (with_division H div) a = normalize_embedding a.
Proof.
  intros Hdiv. unfold normalize_embedding.
  rewrite linalg_norm_with_division.
  change (@feqb F (with_division H div)) with (@feqb F H).
  change (@f0 F (with_division H div)) with (@f0 F H).
  destruct (feqb (linalg_norm a) f0) eqn:Hz; [reflexivity |].
  unfold amap. f_equal. apply map_ext. intros x.
  change (@fdiv F (with_division H div)) with div. apply Hdiv. exact Hz.
Qed.

Lemma cosine_distance_with_division (div : F -> F -> F) (a b : ndarray F) :
  agrees_off_zero H div ->
  @cosine_distance F (with_division H div) a b = cosine_distance a b.
Proof.
  intros Hdiv. unfold cosine_distance.
  rewrite !(normalize_embedding_with_division _ _ Hdiv). reflexivity.
Qed.

End FloatFacts.

Section Distances.
Open Scope R_scope.

(** C5, as the claim states it, fails at the zero vector: its norm is
    exactly 0, so [normalize_embedding] returns it unchanged, the product is
    0 and the cosine distance of the vector to itself is 1, not about 0, in
    exact arithmetic and on binary64 floats alike.  On binary64 the same
    happens at a vector of non-zero norm: the square of 2^600 overflows, the
    norm of (2^600, 0) is an infinity, every component over it is 0, and the
    distance of the vector to itself is 1.  And the result is not always in
    [0, 2] there: the float32 array of the finite vector (1e39, 0) holds an
    infinity, and its distance to (1, 0) is NaN. *)
Lemma C5_zero_vector_self_distance :
  cosine_distance (vec [0; 0]) (vec [0; 0]) = Ok 1
  /\ normalize_embedding (vec [0; 0]) = vec [0; 0]
  /\ 1 / 1000 < Rabs (1 - 0)
  /\ cosine_distance (vec [0; 0]%float) (vec [0; 0]%float) = Ok 1%float
  /\ cosine_distance (vec [0x1p600; 0]%float) (vec [0x1p600; 0]%float) = Ok 1%float
  /\ linalg_norm (vec [0x1p600; 0]%float) = infinity
  /\ (exists d,
        @cosine_distance float Flt_float32
          (vec (map round_float32 [0x1.78287f49c4a1dp+129; 0]%float))
          (vec (map round_float32 [1; 0]%float)) = Ok d
        /\ PrimFloat.is_nan d = true).
Proof.
  assert (Hn : Spec.l2norm [0; 0] = 0).
  { unfold Spec.l2norm; simpl.
    replace (0 * 0 + (0 * 0 + 0)) with 0 by ring. apply sqrt_0. }
  split; [| split; [| split; [| split; [| split; [| split]]]]].
  - rewrite cosine_distance_vec by reflexivity. f_equal.
    unfold Spec.cosineDistance. rewrite (normalize_zero _ Hn). simpl.
    replace (0 * 0 + (0 * 0 + 0)) with 0 by ring.
    rewrite Rclip_id by lra. ring.
  - rewrite normalize_embedding_vec, (normalize_zero _ Hn). reflexivity.
  - rewrite Rabs_right; lra.
  - vm_compute. reflexivity.
  - vm_compute. reflexivity.
  - vm_compute. reflexivity.
  - eexists. split; vm_compute; reflexivity.
Qed.

(** C5 (amended).  For every float type and vectors [a], [b] of one length:
    [cosine_distance] returns [1 - clip(dot(normalize a, normalize b), -1, 1)],
    where [normalize] leaves a vector whose norm is exactly 0 unchanged and
    divides any other by its norm; no division by zero occurs: neither
    result changes when the division is replaced by one that differs from
    it on zero divisors only; and the clip of any [x] to [-1, 1] is 1, or
    -1 for an [x] below -1, or [x] itself, which is then neither below -1
    nor above 1.  In exact arithmetic the result lies in [0, 2], and the
    distance of a vector to itself is 0 when its norm is not 0. *)
Theorem C5_cosine_distance :
  (forall (F : Type) (H : Flt F) (a b : list F),
     length a = length b ->
     cosine_distance (vec a) (vec b)
     = Ok (fsub f1 (clip1 (inner (data (normalize_embedding (vec a)))
                                 (data (normalize_embedding (vec b))))
                          (fopp f1) f1))
     /\ (feqb (linalg_norm (vec a)) f0 = true -> normalize_embedding (vec a) = vec a)
     /\ (feqb (linalg_norm (vec a)) f0 = false ->
           normalize_embedding (vec a)
           = mkarray [length a] (map (fun x => fdiv x (linalg_norm (vec a))) a))
     /\ (forall div,
           agrees_off_zero H div ->
           @normalize_embedding F (with_division H div) (vec a)
           = normalize_embedding (vec a)
           /\ @cosine_distance F (with_division H div) (vec a) (vec b)
              = cosine_distance (vec a) (vec b))
     /\ (forall x : F,
           clip1 x (fopp f1) f1 = f1
           \/ (clip1 x (fopp f1) f1 = fopp f1 /\ fltb x (fopp f1) = true)
           \/ (clip1 x (fopp f1) f1 = x
               /\ fltb x (fopp f1) = false /\ fltb f1 x = false)))
  /\ (forall a b : list R,
        length a = length b ->
        cosine_distance (vec a) (vec b) = Ok (Spec.cosineDistance a b)
        /\ 0 <= Spec.cosineDistance a b <= 2
        /\ (Spec.l2norm a <> 0 -> cosine_distance (vec a) (vec a) = Ok 0)).
Proof.
  split.
  - intros F H a b Hlen.
    split; [apply cosine_distance_formula; exact Hlen |].
    split; [intros Hz; unfold normalize_embedding; rewrite Hz; reflexivity |].
    split; [intros Hz; unfold normalize_embedding; rewrite Hz; reflexivity |].
    split.
    { intros div Hdiv.
      split; [apply normalize_embedding_with_division; exact Hdiv |].
      apply cosine_distance_with_division. exact Hdiv. }
    intros x. unfold clip1, fmax, fmin.
    destruct (fltb x (fopp f1)) eqn:Elo.
    + destruct (fltb f1 (fopp f1)); [left; reflexivity |].
      right. left. split; reflexivity.
    + destruct (fltb f1 x) eqn:Ehi; [left; reflexivity |].
      right. right. split; [reflexivity | split; reflexivity].
  - intros a b Hlen.
    split; [apply cosine_distance_vec; exact Hlen |].
    split.
    { unfold Spec.cosineDistance.
      pose proof (@Rclip_bounds (Spec.Rdot (Spec.normalize a) (Spec.normalize b)) (-1) 1).
      lra. }
    intros Hn. rewrite cosine_distance_vec by reflexivity. f_equal.
    unfold Spec.cosineDistance.
    rewrite (normalize_unit _ Hn). rewrite Rclip_id by lra. ring.
Qed.

(** The amended C5 on binary64 floats, at [a = b = (1, 1, 1)], where the
    product of the normalised vectors exceeds 1 and the clip brings the
    distance to 0, and at the zero vector with a division that answers 1 on
    a zero divisor; and in exact arithmetic at [a = (3, 4)], [b = (4, 3)]. *)
Lemma C5_cosine_distance_witness :
  cosine_distance (vec [1; 1; 1]%float) (vec [1; 1; 1]%float) = Ok 0%float
  /\ PrimFloat.ltb 1
       (inner (data (normalize_embedding (vec [1; 1; 1]%float)))
              (data (normalize_embedding (vec [1; 1; 1]%float)))) = true
  /\ @normalize_embedding float (with_division Flt_float div_one_on_zero)
       (vec [0; 0]%float) = vec [0; 0]%float
  /\ cosine_distance (vec [3; 4]) (vec [4; 3]) = Ok (Spec.cosineDistance [3; 4] [4; 3])
  /\ 0 <= Spec.cosineDistance [3; 4] [4; 3] <= 2.
Proof.
  destruct C5_cosine_distance as [Hfloat Hexact].
  assert (Hdiv : agrees_off_zero Flt_float div_one_on_zero).
  { intros x n Hn. unfold div_one_on_zero. simpl in Hn. rewrite Hn. reflexivity. }
  split; [| split; [| split]].
  - destruct (Hfloat float Flt_float [1; 1; 1]%float [1; 1; 1]%float eq_refl)
      as (Hformula & _).
    rewrite Hformula. vm_compute. reflexivity.
  - vm_compute. reflexivity.
  - destruct (Hfloat float Flt_float [0; 0]%float [0; 0]%float eq_refl)
      as (_ & Hguard & _ & Hany & _).
    destruct (Hany div_one_on_zero Hdiv) as [Hnorm _].
    rewrite Hnorm. apply Hguard. vm_compute. reflexivity.
  - destruct (Hexact [3; 4] [4; 3] eq_refl) as (Hd & Hb & _).
    split; [exact Hd | exact Hb].
Defined.

(** C10: on vectors of one length both distances are symmetric. *)
Theorem C10_distances_symmetric (a b : list R) :
  length a = length b ->
  cosine_distance (vec a) (vec b) = cosine_distance (vec b) (vec a)
  /\ euclidean_distance (vec a) (vec b) = euclidean_distance (vec b) (vec a).
Proof.
  intros Hlen. split.
  - rewrite !cosine_distance_vec by congruence.
    unfold Spec.cosineDistance. rewrite Rdot_comm. reflexivity.
  - rewrite !euclidean_distance_vec by congruence.
    unfold Spec.l2norm. rewrite zip_sub_sqr. reflexivity.
Qed.

(** C10 at [a = (1, 2)], [b = (3, 5)]. *)
Lemma C10_distances_symmetric_witness :
  cosine_distance (vec [1; 2]) (vec [3; 5]) = cosine_distance (vec [3; 5]) (vec [1; 2])
  /\ euclidean_distance (vec [1; 2]) (vec [3; 5])
     = euclidean_distance (vec [3; 5]) (vec [1; 2]).
Proof.
  exact (@C10_distances_symmetric [1; 2] [3; 5] eq_refl).
Defined.

End Distances.

(* ================================================================== *)
(** * The sort of find_best_match                                       *)
(* ================================================================== *)

Section SortFacts.
Context {F : Type} `{Flt F} {A : Type} (key : A -> F).

Lemma insert_sorted_perm (x : A) (l : list A) :
  Permutation (insert_sorted key x l) (x :: l).
Proof.
  induction l as [| y l IH]; simpl; [apply Permutation_refl |].
  destruct (fltb (key y) (key x)).
  - apply perm_trans with (y :: x :: l); [| apply perm_swap].
    apply perm_skip. exact IH.
  - apply Permutation_refl.
Qed.

Lemma list_sort_perm (l : list A) : Permutation (list_sort key l) l.
Proof.
  induction l as [| x l IH]; simpl; [apply perm_nil |].
  apply perm_trans with (x :: list_sort key l); [apply insert_sorted_perm |].
  apply perm_skip. exact IH.
Qed.

(** What [keys_ordered] says of any three of the keys. *)
Lemma keys_ordered_spec (keys : list F) :
  keys_ordered keys = true ->
  forall x y z, In x keys -> In y keys -> In z keys ->
    (fltb x y = true -> fltb y x = false)
    /\ (not_below x y -> not_below y z -> not_below x z).
Proof.
  unfold keys_ordered, not_below. intros Hk x y z Hx Hy Hz.
  rewrite forallb_forall in Hk. specialize (Hk x Hx).
  rewrite forallb_forall in Hk. specialize (Hk y Hy).
  rewrite forallb_forall in Hk. specialize (Hk z Hz).
  unfold ordered3 in Hk. apply andb_true_iff in Hk. destruct Hk as [Ha Ht].
  split.
  - intros Hxy. rewrite Hxy in Ha. simpl in Ha.
    destruct (fltb y x); [discriminate | reflexivity].
  - intros Hyx Hzy. rewrite Hyx, Hzy in Ht. simpl in Ht.
    destruct (fltb z x); [discriminate | reflexivity].
Qed.

Section Ordered.
Variable keys : list F.
Hypothesis Hkeys : keys_ordered keys = true.

Lemma insert_sorted_sorted (x : A) (l : list A) :
  In (key x) keys -> (forall y, In y l -> In (key y) keys) ->
  StronglySorted (fun a b => not_below (key a) (key b)) l ->
  StronglySorted (fun a b => not_below (key a) (key b)) (insert_sorted key x l).
Proof.
  intros Hx. induction l as [| y l IH]; intros Hl Hs; simpl.
  - constructor; constructor.
  - inversion Hs as [| ? ? Hs' Hall]; subst.
    assert (Hy : In (key y) keys) by (apply Hl; left; reflexivity).
    assert (Hl' : forall z, In z l -> In (key z) keys)
      by (intros z Hz; apply Hl; right; exact Hz).
    destruct (fltb (key y) (key x)) eqn:E.
    + constructor; [apply IH; assumption |].
      apply (Permutation_Forall (Permutation_sym (insert_sorted_perm x l))).
      constructor; [| exact Hall].
      apply (proj1 (keys_ordered_spec keys Hkeys _ _ _ Hy Hx Hx) E).
    + constructor; [exact Hs |].
      constructor; [exact E |].
      rewrite Forall_forall in *. intros z Hz.
      apply (proj2 (keys_ordered_spec keys Hkeys _ _ _ Hx Hy (Hl' z Hz)) E).
      apply Hall. exact Hz.
Qed.

Lemma list_sort_sorted (l : list A) :
  (forall y, In y l -> In (key y) keys) ->
  StronglySorted (fun a b => not_below (key a) (key b)) (list_sort key l).
Proof.
  induction l as [| x l IH]; intros Hl; simpl; [constructor |].
  apply insert_sorted_sorted.
  - apply Hl. left. reflexivity.
  - intros y Hy. apply Hl. right.
    apply (Permutation_in y (list_sort_perm l)). exact Hy.
  - apply IH. intros y Hy. apply Hl. right. exact Hy.
Qed.

(** Insertion never moves an element past one that ranks with it. *)
Lemma insert_sorted_stable (d : F) (x : A) (l : list A) :
  In d keys -> In (key x) keys -> (forall y, In y l -> In (key y) keys) ->
  filter (fun m => ties_with d (key m)) (insert_sorted key x l)
  = filter (fun m => ties_with d (key m)) (x :: l).
Proof.
  intros Hd Hx. induction l as [| y l IH]; intros Hl; [reflexivity |].
  assert (Hy : In (key y) keys) by (apply Hl; left; reflexivity).
  simpl insert_sorted. destruct (fltb (key y) (key x)) eqn:E; [| reflexivity].
  simpl filter. rewrite IH by (intros z Hz; apply Hl; right; exact Hz).
  simpl filter.
  destruct (ties_with d (key x)) eqn:Ex; [| reflexivity].
  destruct (ties_with d (key y)) eqn:Ey; [| reflexivity].
  exfalso. unfold ties_with in Ex, Ey.
  apply andb_true_iff in Ex, Ey.
  destruct Ex as [Ex1 Ex2], Ey as [Ey1 Ey2].
  apply negb_true_iff in Ex1, Ex2, Ey1, Ey2.
  assert (Hle : not_below (key x) (key y)).
  { apply (proj2 (keys_ordered_spec keys Hkeys _ _ _ Hx Hd Hy)).
    - unfold not_below. exact Ex2.
    - unfold not_below. exact Ey1. }
  unfold not_below in Hle. congruence.
Qed.

Lemma list_sort_stable (d : F) (l : list A) :
  In d keys -> (forall y, In y l -> In (key y) keys) ->
  filter (fun m => ties_with d (key m)) (list_sort key l)
  = filter (fun m => ties_with d (key m)) l.
Proof.
  intros Hd. induction l as [| x l IH]; intros Hl; [reflexivity |].
  simpl list_sort. rewrite insert_sorted_stable.
  - simpl. rewrite IH by (intros y Hy; apply Hl; right; exact Hy). reflexivity.
  - exact Hd.
  - apply Hl. left. reflexivity.
  - intros y Hy. apply Hl. right.
    apply (Permutation_in y (list_sort_perm l)). exact Hy.
Qed.

End Ordered.

(** The head of a sorted list is below none of its elements. *)
Lemma sorted_head_least (x : A) (l : list A) :
  fltb (key x) (key x) = false ->
  StronglySorted (fun a b => not_below (key a) (key b)) (x :: l) ->
  forall y, In y (x :: l) -> not_below (key x) (key y).
Proof.
  intros Hirr Hs y [<- | Hin]; [exact Hirr |].
  inversion Hs as [| ? ? _ Hall]; subst.
  rewrite Forall_forall in Hall. apply Hall. exact Hin.
Qed.

End SortFacts.

(* ================================================================== *)
(** * find_best_match                                                   *)
(* ================================================================== *)

Section RankingExact.
Open Scope R_scope.

Lemma calculate_distance_vec (metric : string) (a b : list R) :
  supported metric -> length a = length b ->
  calculate_distance (vec a) (vec b) metric = Ok (Rdistance metric a b).
Proof.
  intros [-> | ->] Hlen; unfold calculate_distance, Rdistance; simpl.
  - apply cosine_distance_vec. exact Hlen.
  - apply euclidean_distance_vec. exact Hlen.
Qed.

Lemma Rdistance_euclidean_nonneg (a b : list R) : 0 <= Rdistance "euclidean" a b.
Proof. unfold Rdistance; simpl. unfold Spec.l2norm. apply sqrt_pos. Qed.

Lemma similarity_of_distance (metric : string) (a b : list R) :
  supported metric ->
  distance_to_similarity (Rdistance metric a b) metric
  = Ok (Rsimilarity metric (Rdistance metric a b))
  /\ 0 <= Rsimilarity metric (Rdistance metric a b) <= 1.
Proof.
  intros [-> | ->]; unfold Rsimilarity; simpl.
  - split; [apply similarity_cosine_eq | apply Rclip_bounds; lra].
  - pose proof (Rdistance_euclidean_nonneg a b) as Hd.
    split; [apply similarity_euclidean_eq; lra | apply Rclip_bounds; lra].
Qed.

End RankingExact.

Section Ranking.
Context {F : Type} `{Flt F} `{Single F}.

Lemma match_of_ok (query : list F) (metric : string) (r : ReferenceEmbedding F)
    (m : MatchResult F) :
  match_of (vec (map f32 query)) metric r = Ok m ->
  match_of_reference query metric m r.
Proof.
  unfold match_of, match_of_reference.
  destruct (calculate_distance _ _ _) as [d |] eqn:Hd; simpl; [| discriminate].
  destruct (distance_to_similarity d metric) as [sim |] eqn:Hs; simpl; [| discriminate].
  unfold new_MatchResult. destruct (fleb f0 sim && fleb sim f1); [| discriminate].
  intros [= <-]. simpl. split; [reflexivity | split; [reflexivity | exact Hs]].
Qed.

Lemma collect_matches_ok (query : list F) (metric : string)
    (refs : list (ReferenceEmbedding F)) (ms : list (MatchResult F)) :
  collect_matches (vec (map f32 query)) metric refs = Ok ms ->
  Forall2 (match_of_reference query metric) ms refs.
Proof.
  revert ms. induction refs as [| r refs IH]; intros ms; simpl.
  - intros [= <-]. constructor.
  - destruct (match_of _ metric r) as [m |] eqn:Hm; simpl; [| discriminate].
    destruct (collect_matches _ metric refs) as [ms' |]; simpl; [| discriminate].
    intros [= <-]. constructor; [apply match_of_ok; exact Hm | apply IH; reflexivity].
Qed.

End Ranking.

(* ================================================================== *)
(** * The backend adapter: get_embedding                                *)
(* ================================================================== *)

Section Adapter.
Context {F : Type}.
Implicit Types (self : FaceRecognitionModel F) (image : ndarray Z) (face : Face F).

Lemma get_embedding_loaded self image rdi get faces :
  model self = Some get -> get image = Ok faces ->
  get_embedding self image rdi
  = ([EvInference image],
     try_except (single_face self rdi faces) embedding_handler).
Proof.
  intros Hm Hg. unfold get_embedding, io_try, call, io_bind. rewrite Hm, Hg.
  destruct (single_face self rdi faces) as [r | e]; reflexivity.
Qed.


(** C2 (amended): on the success path (model loaded, exactly one face) the
    extracted embedding is checked against the configured dimension only: a
    missing embedding, or one whose length is not [embedding_size], fails
    with InvalidEmbedding; one of that length is returned as it is, whatever
    its components. *)
Theorem C2_embedding_dimension_check self image rdi get face :
  model self = Some get -> get image = Ok [face] ->
  (embedding face = None ->
     get_embedding self image rdi
     = ([EvInference image],
        Raise (FaceModelError
                 (invalid_embedding_message (embedding_size self) "None")
                 INVALID_EMBEDDING)))
  /\ (forall emb n,
        embedding face = Some emb -> len emb = Ok n ->
        Z.of_nat n <> embedding_size self ->
        get_embedding self image rdi
        = ([EvInference image],
           Raise (FaceModelError
                    (invalid_embedding_message (embedding_size self) (str_nat n))
                    INVALID_EMBEDDING)))
  /\ (forall emb n,
        embedding face = Some emb -> len emb = Ok n ->
        Z.of_nat n = embedding_size self ->
        get_embedding self image rdi
        = ([EvInference image],
           Ok (emb, if rdi then det_score face else None))).
Proof.
  intros Hm Hg. rewrite (get_embedding_loaded _ _ _ _ _ Hm Hg).
  unfold single_face; simpl. split; [| split].
  - intros ->. reflexivity.
  - intros emb n -> -> Hne. simpl.
    apply Z.eqb_neq in Hne. rewrite Hne. reflexivity.
  - intros emb n -> -> Heq. simpl.
    apply Z.eqb_eq in Heq. rewrite Heq. reflexivity.
Qed.

End Adapter.

(* ================================================================== *)
(** * The adapter on binary64 inputs                                    *)
(* ================================================================== *)

Section AdapterExamples.

(** C2, as the claim states it, fails: an embedding of the configured
    length 2 that holds NaN and an infinity is returned by [get_embedding],
    not refused with InvalidEmbedding ([is_valid_embedding], which would
    refuse it, is not called). *)
Lemma C2_nan_embedding_is_returned :
  get_embedding (loaded_model [face_nan] 2) tiny_image true
  = ([EvInference tiny_image], Ok (vec [nan; infinity], Some 0.75%float))
  /\ is_valid_embedding [nan; infinity] 2 = false.
Proof. split; reflexivity. Qed.

(** The amended C2 on a backend that reports [face_ok]: returned when the
    configured size is 2, refused when it is 3. *)
Lemma C2_embedding_dimension_check_witness :
  get_embedding (loaded_model [face_ok] 2) tiny_image true
  = ([EvInference tiny_image], Ok (vec [0.5; 0.25]%float, Some 0.75%float))
  /\ get_embedding (loaded_model [face_ok] 3) tiny_image true
     = ([EvInference tiny_image],
        Raise (FaceModelError "Invalid embedding extracted. Expected size 3, got 2"
                 INVALID_EMBEDDING)).
Proof.
  split.
  - destruct (C2_embedding_dimension_check (loaded_model [face_ok] 2) tiny_image true
                _ face_ok eq_refl eq_refl) as (_ & _ & Hok).
    apply (Hok _ 2%nat eq_refl eq_refl eq_refl).
  - destruct (C2_embedding_dimension_check (loaded_model [face_ok] 3) tiny_image true
                _ face_ok eq_refl eq_refl) as (_ & Hbad & _).
    apply (Hbad _ 2%nat eq_refl eq_refl). discriminate.
Defined.


End AdapterExamples.

(* ================================================================== *)
(** * Image ingestion: the size cap and the error kinds                 *)
(* ================================================================== *)

Section IngestionFacts.
Variable settings : Config.Settings.
Variable b64decode : string -> result (list Byte.byte).
Variable requests_get : string -> Z -> result Response.
Variable Image_open : list Byte.byte -> result PilImage.
Variable convert : PilImage -> string -> result PilImage.

Local Abbreviation load := (load_image_from_bytes settings Image_open convert).
Local Abbreviation decode := (decode_base64_image settings b64decode Image_open convert).
Local Abbreviation fetch := (fetch_image_from_url settings requests_get Image_open convert).

(** [load_image_from_bytes] opens the image once and raises nothing but
    ImageProcessingError. *)
Lemma load_trace (image_bytes : list Byte.byte) :
  fst (load image_bytes) = [EvImageOpen image_bytes].
Proof.
  unfold load_image_from_bytes, io_try, call, io_bind.
  destruct (Image_open image_bytes) as [pil | e]; [| reflexivity].
  destruct (match format pil with Some _ => _ | None => _ end); [| reflexivity].
  destruct (bind _ _); reflexivity.
Qed.

Lemma load_raises (image_bytes : list Byte.byte) (e : exn) :
  snd (load image_bytes) = Raise e -> is_image_processing_error e.
Proof.
  unfold load_image_from_bytes, io_try. simpl snd.
  destruct (snd _) as [a | e0]; simpl; [discriminate |].
  intros [= <-]. unfold load_handler.
  destruct e0; eexists; eexists; reflexivity.
Qed.

(** A failing pixel decode is an InvalidImage failure. *)
Lemma load_open_fails (image_bytes : list Byte.byte) (e : exn) :
  Image_open image_bytes = Raise e ->
  load image_bytes = ([EvImageOpen image_bytes], Raise (load_handler e)).
Proof.
  intros Ho. unfold load_image_from_bytes, io_try, call, io_bind.
  rewrite Ho. reflexivity.
Qed.

Lemma decode_handler_keeps (r : result (ndarray Z)) :
  (forall e, r = Raise e -> is_image_processing_error e) ->
  try_except r decode_handler = r.
Proof.
  destruct r as [a | e]; [reflexivity |].
  intros He. destruct (He e eq_refl) as (m & c & ->). reflexivity.
Qed.

Lemma fetch_handler_keeps (url : string) (r : result (ndarray Z)) :
  (forall e, r = Raise e -> is_image_processing_error e) ->
  try_except r (fetch_handler url) = r.
Proof.
  destruct r as [a | e]; [reflexivity |].
  intros He. destruct (He e eq_refl) as (m & c & ->). reflexivity.
Qed.

(** [decode_base64_image] once the base64 text has decoded. *)
Lemma decode_after_b64 (s : string) (image_bytes : list Byte.byte) :
  b64decode (strip_data_uri s) = Ok image_bytes ->
  decode s
  = if (Z.of_nat (length image_bytes) >? Config.max_image_size settings)%Z
    then ([EvB64Decode (strip_data_uri s)], Raise (too_large settings (length image_bytes)))
    else (EvB64Decode (strip_data_uri s) :: fst (load image_bytes),
          snd (load image_bytes)).
Proof.
  intros Hd. unfold decode_base64_image, io_try, call, io_bind. rewrite Hd.
  destruct (Z.of_nat (length image_bytes) >? Config.max_image_size settings)%Z;
    [reflexivity |].
  destruct (load image_bytes) as [t r] eqn:Hl. simpl.
  f_equal. apply decode_handler_keeps.
  intros e ->. apply (load_raises image_bytes). rewrite Hl. reflexivity.
Qed.

(** [fetch_image_from_url] once the response has arrived with a status that
    [raise_for_status] lets through. *)
Lemma fetch_after_response (url : string) (timeout : Z) (response : Response) :
  http_scheme url = true ->
  requests_get url timeout = Ok response ->
  raise_for_status response = Ok tt ->
  fetch url timeout
  = if (Z.of_nat (length (content response)) >? Config.max_image_size settings)%Z
    then ([EvHttpGet url timeout],
          Raise (too_large settings (length (content response))))
    else (EvHttpGet url timeout :: fst (load (content response)),
          snd (load (content response))).
Proof.
  intros Hs Hg Hr.
  unfold fetch_image_from_url, io_try, call, io_bind.
  rewrite Hs, Hg, Hr. simpl negb. cbv iota.
  destruct (Z.of_nat (length (content response)) >? Config.max_image_size settings)%Z;
    [reflexivity |].
  destruct (load (content response)) as [t r] eqn:Hl. simpl.
  f_equal. apply fetch_handler_keeps.
  intros e ->. apply (load_raises (content response)). rewrite Hl. reflexivity.
Qed.

(** [fetch_image_from_url] when [requests.get] raises. *)
Lemma fetch_request_fails (url : string) (timeout : Z) (e : exn) :
  http_scheme url = true ->
  requests_get url timeout = Raise e ->
  fetch url timeout = ([EvHttpGet url timeout], Raise (fetch_handler url e)).
Proof.
  intros Hs Hg.
  unfold fetch_image_from_url, io_try, call, io_bind.
  rewrite Hs, Hg. reflexivity.
Qed.

(** [fetch_image_from_url] when [raise_for_status] raises. *)
Lemma fetch_status_fails (url : string) (timeout : Z) (response : Response) (e : exn) :
  http_scheme url = true ->
  requests_get url timeout = Ok response ->
  raise_for_status response = Raise e ->
  fetch url timeout = ([EvHttpGet url timeout], Raise (fetch_handler url e)).
Proof.
  intros Hs Hg Hr.
  unfold fetch_image_from_url, io_try, call, io_bind.
  rewrite Hs, Hg, Hr. reflexivity.
Qed.

(** C7: on both paths a payload whose raw byte length is over the
    configured cap fails with ImageTooLarge, and the trace of the call holds
    no pixel decode ([Image.open]); the test is on the decoded bytes: a
    payload within the cap goes on to the pixel decode whatever the length
    of the base64 text; the default cap is 10 MiB. *)
Theorem C7_size_cap_before_pixel_decode :
  (forall s image_bytes,
     b64decode (strip_data_uri s) = Ok image_bytes ->
     over_cap settings image_bytes ->
     exists trace msg,
       decode s = (trace, Raise (ImageProcessingError msg IMAGE_TOO_LARGE))
       /\ existsb is_image_open trace = false)
  /\ (forall url timeout response,
        http_scheme url = true ->
        requests_get url timeout = Ok response ->
        raise_for_status response = Ok tt ->
        over_cap settings (content response) ->
        exists trace msg,
          fetch url timeout = (trace, Raise (ImageProcessingError msg IMAGE_TOO_LARGE))
          /\ existsb is_image_open trace = false)
  /\ (forall s image_bytes,
        b64decode (strip_data_uri s) = Ok image_bytes ->
        ~ over_cap settings image_bytes ->
        decode s = (EvB64Decode (strip_data_uri s) :: [EvImageOpen image_bytes],
                    snd (load image_bytes)))
  /\ Config.max_image_size Config.settings = (10 * 1024 * 1024)%Z.
Proof.
  unfold over_cap. split; [| split; [| split]].
  - intros s image_bytes Hd Hover.
    rewrite (decode_after_b64 _ _ Hd).
    apply Z.gtb_gt in Hover. rewrite Hover.
    eexists; eexists; split; reflexivity.
  - intros url timeout response Hs Hg Hr Hover.
    rewrite (fetch_after_response _ _ _ Hs Hg Hr).
    apply Z.gtb_gt in Hover. rewrite Hover.
    eexists; eexists; split; reflexivity.
  - intros s image_bytes Hd Hin.
    rewrite (decode_after_b64 _ _ Hd), load_trace.
    destruct (Z.of_nat (length image_bytes) >? Config.max_image_size settings)%Z eqn:E;
      [| reflexivity].
    apply Z.gtb_gt in E. contradiction.
  - reflexivity.
Qed.


End IngestionFacts.

(* ================================================================== *)
(** * Image ingestion on concrete worlds                                *)
(* ================================================================== *)

Section IngestionExamples.

(** C7 with a cap of 4 bytes: six decoded bytes are refused on both paths
    with no pixel decode in the trace, and three bytes, decoded from the
    four characters "AAEC", go on to the pixel decode. *)
Lemma C7_size_cap_before_pixel_decode_witness :
  (exists trace msg,
     decode_base64_image small_cap b64decode_example open_fails convert_none
       "data:image/png;base64,AAECAwQF"
     = (trace, Raise (ImageProcessingError msg IMAGE_TOO_LARGE))
     /\ existsb is_image_open trace = false)
  /\ (exists trace msg,
        fetch_image_from_url small_cap get_six_bytes open_fails convert_none face_url 30
        = (trace, Raise (ImageProcessingError msg IMAGE_TOO_LARGE))
        /\ existsb is_image_open trace = false)
  /\ fst (decode_base64_image small_cap b64decode_example open_fails convert_none "AAEC")
     = [EvB64Decode "AAEC"; EvImageOpen three_bytes].
Proof.
  destruct (C7_size_cap_before_pixel_decode small_cap b64decode_example get_six_bytes
              open_fails convert_none) as (Hb64 & Hurl & Hin & _).
  split; [| split].
  - apply (Hb64 "data:image/png;base64,AAECAwQF" six_bytes eq_refl).
    unfold over_cap; simpl; lia.
  - apply (Hurl face_url 30%Z _ eq_refl eq_refl eq_refl).
    unfold over_cap; simpl; lia.
  - rewrite (Hin "AAEC" three_bytes eq_refl); [reflexivity |].
    unfold over_cap; simpl; lia.
Defined.



End IngestionExamples.

(* ================================================================== *)
(** * preprocess_image                                                  *)
(* ================================================================== *)

Section Preprocessing.

Lemma dims_ok_checks (height width : nat) :
  dims_ok height width ->
  (Z.of_nat height <? 32)%Z || (Z.of_nat width <? 32)%Z = false
  /\ (Z.of_nat height >? 8192)%Z || (Z.of_nat width >? 8192)%Z = false.
Proof.
  intros [Hh Hw]. split; apply orb_false_iff; split;
    try (apply Z.ltb_ge; lia);
    rewrite Z.gtb_ltb; apply Z.ltb_ge; lia.
Qed.

Lemma dims_ok_size (height width k : nat) (values : list Z) :
  dims_ok height width -> (0 < k)%nat ->
  (size (mkarray [height; width; k] values) =? 0)%nat = false.
Proof.
  intros [Hh Hw] Hk. apply Nat.eqb_neq. unfold size; simpl. nia.
Qed.

(** A 2-d array of accepted dimensions becomes a 3-channel one of the same
    height and width, every value three times. *)
Lemma preprocess_image_gray2d (height width : nat) (values : list Z) :
  dims_ok height width ->
  preprocess_image (Some (mkarray [height; width] values))
  = Ok (mkarray [height; width; 3%nat] (flat_map (fun p => [p; p; p]) values)).
Proof.
  intros Hd. destruct (dims_ok_checks _ _ Hd) as [Hmin Hmax].
  unfold preprocess_image, validate_image, size; simpl shape; simpl fold_right.
  replace (height * (width * 1) =? 0)%nat with false
    by (symmetry; destruct Hd; apply Nat.eqb_neq; nia).
  rewrite Hmin, Hmax. reflexivity.
Qed.

(** A 4-channel array of accepted dimensions loses its fourth channel. *)
Lemma preprocess_image_bgra (height width : nat) (values : list Z) :
  dims_ok height width ->
  preprocess_image (Some (mkarray [height; width; 4%nat] values))
  = Ok (mkarray [height; width; 3%nat] (drop_alpha values)).
Proof.
  intros Hd. destruct (dims_ok_checks _ _ Hd) as [Hmin Hmax].
  unfold preprocess_image, validate_image.
  rewrite (dims_ok_size _ _ 4 _ Hd) by lia.
  simpl shape. simpl negb. cbv iota. rewrite Hmin, Hmax. reflexivity.
Qed.

(** A 3-channel array of accepted dimensions is returned as it is. *)
Lemma preprocess_image_bgr (height width : nat) (values : list Z) :
  dims_ok height width ->
  preprocess_image (Some (mkarray [height; width; 3%nat] values))
  = Ok (mkarray [height; width; 3%nat] values).
Proof.
  intros Hd. destruct (dims_ok_checks _ _ Hd) as [Hmin Hmax].
  unfold preprocess_image, validate_image.
  rewrite (dims_ok_size _ _ 3 _ Hd) by lia.
  simpl shape. simpl negb. cbv iota. rewrite Hmin, Hmax. reflexivity.
Qed.

(** And so is a 3-d array with ONE channel: no branch converts it. *)
Lemma preprocess_image_one_channel (height width : nat) (values : list Z) :
  dims_ok height width ->
  preprocess_image (Some (mkarray [height; width; 1%nat] values))
  = Ok (mkarray [height; width; 1%nat] values).
Proof.
  intros Hd. destruct (dims_ok_checks _ _ Hd) as [Hmin Hmax].
  unfold preprocess_image, validate_image.
  rewrite (dims_ok_size _ _ 1 _ Hd) by lia.
  simpl shape. simpl negb. cbv iota. rewrite Hmin, Hmax. reflexivity.
Qed.

(** What [validate_image] accepts: a 2-d array, or a 3-d one with 1, 3 or 4
    channels, of accepted height and width. *)
Lemma validate_image_accepts (image : option (ndarray Z)) (msg : option string) :
  validate_image image = (true, msg) ->
  exists height width values,
    dims_ok height width
    /\ (image = Some (mkarray [height; width] values)
        \/ exists channels,
             image = Some (mkarray [height; width; channels] values)
             /\ (channels = 1 \/ channels = 3 \/ channels = 4)%nat).
Proof.
  unfold validate_image. destruct image as [[sh values] |]; [| discriminate].
  destruct (size _ =? 0)%nat; [discriminate |]. simpl shape.
  destruct sh as [| height [| width [| channels [| ? ?]]]]; try discriminate.
  - destruct ((Z.of_nat height <? 32)%Z || (Z.of_nat width <? 32)%Z) eqn:Emin;
      [discriminate |].
    destruct ((Z.of_nat height >? 8192)%Z || (Z.of_nat width >? 8192)%Z) eqn:Emax;
      [discriminate |].
    intros _. exists height, width, values. split; [| left; reflexivity].
    apply orb_false_iff in Emin, Emax. destruct Emin as [E1 E2], Emax as [E3 E4].
    rewrite Z.ltb_ge in E1, E2. rewrite Z.gtb_ltb, Z.ltb_ge in E3, E4.
    unfold dims_ok. lia.
  - destruct (negb ((channels =? 1)%nat || (channels =? 3)%nat || (channels =? 4)%nat))
      eqn:Ec; [discriminate |].
    destruct ((Z.of_nat height <? 32)%Z || (Z.of_nat width <? 32)%Z) eqn:Emin;
      [discriminate |].
    destruct ((Z.of_nat height >? 8192)%Z || (Z.of_nat width >? 8192)%Z) eqn:Emax;
      [discriminate |].
    intros _. exists height, width, values. split.
    + apply orb_false_iff in Emin, Emax. destruct Emin as [E1 E2], Emax as [E3 E4].
      rewrite Z.ltb_ge in E1, E2. rewrite Z.gtb_ltb, Z.ltb_ge in E3, E4.
      unfold dims_ok. lia.
    + right. exists channels. split; [reflexivity |].
      apply negb_false_iff in Ec. rewrite !orb_true_iff, !Nat.eqb_eq in Ec. tauto.
Qed.

(** [preprocess_image] returns on every buffer [validate_image] accepts, and
    what it raises on another is the InvalidImage rejection. *)
Lemma preprocess_image_fails_only_on_invalid (image : option (ndarray Z)) (e : exn) :
  preprocess_image image = Raise e ->
  fst (validate_image image) = false
  /\ exists m, e = ImageProcessingError m INVALID_IMAGE.
Proof.
  intros Hp. destruct (validate_image image) as [[|] msg] eqn:Hv.
  - exfalso.
    destruct (validate_image_accepts _ _ Hv)
      as (height & width & values & Hd & [-> | (channels & -> & [-> | [-> | ->]])]).
    + rewrite (preprocess_image_gray2d _ _ _ Hd) in Hp. discriminate.
    + rewrite (preprocess_image_one_channel _ _ _ Hd) in Hp. discriminate.
    + rewrite (preprocess_image_bgr _ _ _ Hd) in Hp. discriminate.
    + rewrite (preprocess_image_bgra _ _ _ Hd) in Hp. discriminate.
  - split; [reflexivity |].
    unfold preprocess_image in Hp. rewrite Hv in Hp. simpl in Hp.
    injection Hp as <-. eexists; reflexivity.
Qed.

(** C9 at its failing input: the 32 x 32 x 1 buffer passes [validate_image]
    and [preprocess_image] returns it unchanged, with 1 channel, not 3. *)
Theorem C9_one_channel_buffer_is_not_expanded :
  validate_image (Some gray_32x32x1) = (true, None)
  /\ preprocess_image (Some gray_32x32x1) = Ok gray_32x32x1
  /\ shape gray_32x32x1 = [32; 32; 1]%nat
  /\ cvtColor_GRAY2BGR gray_32x32x1
     = Ok (mkarray [32; 32; 3]%nat (repeat 0%Z 3072)).
Proof. repeat split; vm_compute; reflexivity. Qed.

End Preprocessing.

(* ================================================================== *)
(** * batch_calculate_distances                                         *)
(* ================================================================== *)

Section Batch.

(** C1 at its failing input, in binary64: for the query (1, 0) and the
    references (3, 0) and (0, 4) the batched cosine distances are 0.4 and 1,
    while [calculate_distance] gives 0 and 1: the batch divides every
    reference by the norm 5 of the whole matrix, not by its own norm.  With
    the Euclidean metric the two agree on this input. *)
Theorem C1_batch_cosine_is_not_pairwise :
  batch_calculate_distances (vec [1; 0]%float) (mat 2 2 [3; 0; 0; 4]%float) "cosine"
  = Ok (vec [0x1.999999999999ap-2; 1]%float)
  /\ calculate_distance (vec [1; 0]%float) (vec [3; 0]%float) "cosine" = Ok 0%float
  /\ calculate_distance (vec [1; 0]%float) (vec [0; 4]%float) "cosine" = Ok 1%float
  /\ PrimFloat.eqb 0x1.999999999999ap-2 0 = false
  /\ batch_calculate_distances (vec [1; 0]%float) (mat 2 2 [3; 0; 0; 4]%float) "euclidean"
     = Ok (vec [2; 0x1.07e0f66afed07p+2]%float)
  /\ calculate_distance (vec [1; 0]%float) (vec [3; 0]%float) "euclidean" = Ok 2%float
  /\ calculate_distance (vec [1; 0]%float) (vec [0; 4]%float) "euclidean"
     = Ok 0x1.07e0f66afed07p+2%float.
Proof. repeat split; vm_compute; reflexivity. Qed.

End Batch.

Section BatchExact.
Open Scope R_scope.

Lemma normalize_embedding_R (a : ndarray R) :
  normalize_embedding a = mkarray (shape a) (Spec.normalize (data a)).
Proof.
  unfold normalize_embedding, linalg_norm, Spec.normalize, Spec.l2norm; simpl.
  rewrite inner_Rdot. unfold Req_bool.
  destruct (Req_dec_T (sqrt (Spec.Rdot (data a) (data a))) 0);
    [destruct a |]; reflexivity.
Qed.

Lemma normalize_nonzero (v : list R) (n : R) :
  Spec.l2norm v = n -> n <> 0 -> Spec.normalize v = map (fun x => x / n) v.
Proof.
  intros <- Hn. unfold Spec.normalize.
  destruct (Req_dec_T (Spec.l2norm v) 0); [contradiction | reflexivity].
Qed.

Lemma l2norm_of_square (v : list R) (n : R) :
  0 <= n -> Spec.Rdot v v = n * n -> Spec.l2norm v = n.
Proof. intros Hn Hd. unfold Spec.l2norm. rewrite Hd. apply sqrt_square. exact Hn. Qed.

(** The failing input of C1 in exact arithmetic: the batch gives 2/5 where
    the per-pair function gives 0, so the difference is no rounding effect. *)
Lemma batch_cosine_exact_example :
  batch_calculate_distances (vec [1; 0]) (mat 2 2 [3; 0; 0; 4]) "cosine"
  = Ok (vec [2 / 5; 1])
  /\ calculate_distance (vec [1; 0]) (vec [3; 0]) "cosine" = Ok 0
  /\ calculate_distance (vec [1; 0]) (vec [0; 4]) "cosine" = Ok 1.
Proof.
  assert (H1 : Spec.normalize [1; 0] = map (fun x => x / 1) [1; 0]).
  { apply normalize_nonzero; [apply l2norm_of_square; simpl |]; lra. }
  assert (H3 : Spec.normalize [3; 0] = map (fun x => x / 3) [3; 0]).
  { apply normalize_nonzero; [apply l2norm_of_square; simpl |]; lra. }
  assert (H4 : Spec.normalize [0; 4] = map (fun x => x / 4) [0; 4]).
  { apply normalize_nonzero; [apply l2norm_of_square; simpl |]; lra. }
  assert (H5 : Spec.normalize [3; 0; 0; 4] = map (fun x => x / 5) [3; 0; 0; 4]).
  { apply normalize_nonzero; [apply l2norm_of_square; simpl |]; lra. }
  split; [| split].
  - unfold batch_calculate_distances; simpl String.eqb; cbv iota.
    rewrite !normalize_embedding_R. simpl shape. simpl data. rewrite H1, H5.
    unfold dot, vec, amap; simpl. do 2 f_equal.
    f_equal; [lra |]. f_equal. lra.
  - unfold calculate_distance; simpl String.eqb; cbv iota.
    rewrite cosine_distance_vec by reflexivity. f_equal.
    unfold Spec.cosineDistance. rewrite H1, H3. simpl.
    rewrite Rclip_id; lra.
  - unfold calculate_distance; simpl String.eqb; cbv iota.
    rewrite cosine_distance_vec by reflexivity. f_equal.
    unfold Spec.cosineDistance. rewrite H1, H4. simpl.
    rewrite Rclip_id; lra.
Qed.

End BatchExact.

(* ================================================================== *)
(** * More on the two distances, in exact arithmetic                    *)
(* ================================================================== *)

Section MetricFacts.
Open Scope R_scope.

Lemma Rdot_self_zero (v : list R) : Spec.Rdot v v = 0 -> Forall (fun x => x = 0) v.
Proof.
  induction v as [| x v IH]; simpl; intros Hz; constructor.
  - pose proof (Rdot_self_nonneg v). nra.
  - apply IH. pose proof (Rdot_self_nonneg v). nra.
Qed.

Lemma zip_sub_zero (a b : list R) :
  length a = length b -> Forall (fun x => x = 0) (zip_with Rminus a b) -> a = b.
Proof.
  revert b. induction a as [| x a IH]; intros [| y b] Hlen Hall; simpl in *;
    try discriminate; [reflexivity |].
  inversion Hall; subst. f_equal; [lra |].
  apply IH; [lia | assumption].
Qed.

Lemma zip_sub_self (a : list R) : Spec.Rdot (zip_with Rminus a a) (zip_with Rminus a a) = 0.
Proof. induction a as [| x a IH]; simpl; [reflexivity |]. rewrite IH. ring. Qed.

(** Cauchy-Schwarz on lists. *)
Lemma Rdot_cauchy_schwarz (a b : list R) :
  Spec.Rdot a b * Spec.Rdot a b <= Spec.Rdot a a * Spec.Rdot b b.
Proof.
  revert b. induction a as [| x a IH]; intros [| y b]; simpl; try lra.
  specialize (IH b).
  pose proof (Rdot_self_nonneg a) as HA. pose proof (Rdot_self_nonneg b) as HB.
  set (A := Spec.Rdot a a) in *. set (B := Spec.Rdot b b) in *.
  set (C := Spec.Rdot a b) in *.
  assert (HE : 0 <= x * x * B + y * y * A - 2 * (x * y * C)).
  { destruct (Req_dec_T B 0) as [HB0 | HBn].
    - assert (HC : C = 0) by nra. rewrite HB0, HC. nra.
    - assert (HBp : 0 < B) by lra.
      pose proof (Rle_0_sqr (x * B - y * C)) as Hs. unfold Rsqr in Hs.
      assert (Hprod : 0 <= B * (x * x * B + y * y * A - 2 * (x * y * C))) by nra.
      nra. }
  nra.
Qed.

Lemma sqrt_sum_sq_le (s t c : R) :
  0 <= s -> 0 <= t -> c * c <= s * t -> c <= sqrt s * sqrt t.
Proof.
  intros Hs Ht Hc. rewrite <- sqrt_mult by assumption.
  destruct (Rle_lt_dec c 0) as [Hneg | Hpos].
  - pose proof (sqrt_pos (s * t)). lra.
  - rewrite <- (sqrt_square c) by lra. apply sqrt_le_1_alt. exact Hc.
Qed.

(** The product of two normalised vectors lies in [-1, 1]: the clip of
    [cosine_distance] changes nothing in exact arithmetic. *)
Lemma normalized_dot_bounds (a b : list R) :
  -1 <= Spec.Rdot (Spec.normalize a) (Spec.normalize b) <= 1.
Proof.
  assert (Hunit : forall v, Spec.Rdot (Spec.normalize v) (Spec.normalize v) <= 1).
  { intros v. destruct (Req_dec_T (Spec.l2norm v) 0) as [Hz | Hn].
    - rewrite (normalize_zero _ Hz), (l2norm_zero_dot _ Hz). lra.
    - rewrite (normalize_unit _ Hn). lra. }
  pose proof (Rdot_cauchy_schwarz (Spec.normalize a) (Spec.normalize b)) as Hcs.
  pose proof (Hunit a) as Ha. pose proof (Hunit b) as Hb.
  pose proof (Rdot_self_nonneg (Spec.normalize a)) as Ha0.
  pose proof (Rdot_self_nonneg (Spec.normalize b)) as Hb0.
  set (c := Spec.Rdot (Spec.normalize a) (Spec.normalize b)) in *.
  assert (Hc : c * c <= 1) by nra.
  split; nra.
Qed.

Lemma zip_sub_add (a b c : list R) :
  length a = length b -> length b = length c ->
  zip_with Rminus a c = zip_with Rplus (zip_with Rminus a b) (zip_with Rminus b c).
Proof.
  revert b c. induction a as [| x a IH]; intros [| y b] [| z c] H1 H2; simpl in *;
    try discriminate; [reflexivity |].
  f_equal; [ring |]. apply IH; lia.
Qed.

Lemma Rdot_add_self (u v : list R) :
  length u = length v ->
  Spec.Rdot (zip_with Rplus u v) (zip_with Rplus u v)
  = Spec.Rdot u u + 2 * Spec.Rdot u v + Spec.Rdot v v.
Proof.
  revert v. induction u as [| x u IH]; intros [| y v] Hlen; simpl in *;
    try discriminate; [ring |].
  rewrite IH by lia. ring.
Qed.

Lemma zip_with_length (f : R -> R -> R) (a b : list R) :
  length a = length b -> length (zip_with f a b) = length a.
Proof.
  revert b. induction a as [| x a IH]; intros [| y b] Hlen; simpl in *;
    try discriminate; [reflexivity |].
  f_equal. apply IH. lia.
Qed.

(** Minkowski: the norm of a sum is at most the sum of the norms. *)
Lemma l2norm_triangle (u v : list R) :
  length u = length v ->
  Spec.l2norm (zip_with Rplus u v) <= Spec.l2norm u + Spec.l2norm v.
Proof.
  intros Hlen. unfold Spec.l2norm. rewrite (Rdot_add_self _ _ Hlen).
  pose proof (Rdot_self_nonneg u) as Hu. pose proof (Rdot_self_nonneg v) as Hv.
  pose proof (sqrt_sum_sq_le _ _ _ Hu Hv (Rdot_cauchy_schwarz u v)) as Hcs.
  pose proof (sqrt_pos (Spec.Rdot u u)) as Hsu. pose proof (sqrt_pos (Spec.Rdot v v)) as Hsv.
  pose proof (sqrt_sqrt _ Hu) as Hqu. pose proof (sqrt_sqrt _ Hv) as Hqv.
  apply Rsqr_incr_0_var; [| lra].
  unfold Rsqr. rewrite sqrt_sqrt.
  - nra.
  - pose proof (Rdot_self_nonneg (zip_with Rplus u v)) as Hs.
    rewrite (Rdot_add_self _ _ Hlen) in Hs. exact Hs.
Qed.

End MetricFacts.

Section MetricTheorems.
Open Scope R_scope.

(** X1: on vectors of one length [euclidean_distance] is a metric: it
    returns a non-negative number, which is 0 exactly when the two vectors
    are equal, and it satisfies the triangle inequality. *)
Theorem euclidean_distance_metric (a b c : list R) :
  length a = length b -> length b = length c ->
  exists dab dbc dac,
    euclidean_distance (vec a) (vec b) = Ok dab
    /\ euclidean_distance (vec b) (vec c) = Ok dbc
    /\ euclidean_distance (vec a) (vec c) = Ok dac
    /\ 0 <= dab
    /\ (dab = 0 <-> a = b)
    /\ dac <= dab + dbc.
Proof.
  intros Hab Hbc.
  exists (Spec.l2norm (zip_with Rminus a b)), (Spec.l2norm (zip_with Rminus b c)),
         (Spec.l2norm (zip_with Rminus a c)).
  split; [apply euclidean_distance_vec; exact Hab |].
  split; [apply euclidean_distance_vec; exact Hbc |].
  split; [apply euclidean_distance_vec; congruence |].
  split; [apply sqrt_pos |].
  split.
  - split.
    + intros Hz. apply zip_sub_zero; [exact Hab |].
      apply Rdot_self_zero. apply l2norm_zero_dot. exact Hz.
    + intros ->. unfold Spec.l2norm. rewrite zip_sub_self. apply sqrt_0.
  - rewrite (zip_sub_add a b c Hab Hbc). apply l2norm_triangle.
    rewrite !zip_with_length by assumption. exact Hab.
Qed.

(** X1 at (0, 0), (3, 4) and (3, 0). *)
Lemma euclidean_distance_metric_witness :
  exists dab dbc dac,
    euclidean_distance (vec [0; 0]) (vec [3; 4]) = Ok dab
    /\ euclidean_distance (vec [3; 4]) (vec [3; 0]) = Ok dbc
    /\ euclidean_distance (vec [0; 0]) (vec [3; 0]) = Ok dac
    /\ 0 <= dab
    /\ (dab = 0 <-> [0; 0] = [3; 4])
    /\ dac <= dab + dbc.
Proof.
  exact (euclidean_distance_metric [0; 0] [3; 4] [3; 0] eq_refl eq_refl).
Defined.

(** X2: in exact arithmetic the clip of [cosine_distance] never acts: on
    vectors of one length the result is [1 - dot(normalize a, normalize b)]
    itself, because that product already lies in [-1, 1]. *)
Theorem cosine_distance_clip_is_identity (a b : list R) :
  length a = length b ->
  cosine_distance (vec a) (vec b)
  = Ok (1 - Spec.Rdot (Spec.normalize a) (Spec.normalize b))
  /\ -1 <= Spec.Rdot (Spec.normalize a) (Spec.normalize b) <= 1.
Proof.
  intros Hlen. split; [| apply normalized_dot_bounds].
  rewrite (cosine_distance_vec _ _ Hlen). unfold Spec.cosineDistance.
  rewrite Rclip_id by apply normalized_dot_bounds. reflexivity.
Qed.

(** X2 at (1, 2) and (2, -1). *)
Lemma cosine_distance_clip_is_identity_witness :
  cosine_distance (vec [1; 2]) (vec [2; -1])
  = Ok (1 - Spec.Rdot (Spec.normalize [1; 2]) (Spec.normalize [2; -1]))
  /\ -1 <= Spec.Rdot (Spec.normalize [1; 2]) (Spec.normalize [2; -1]) <= 1.
Proof.
  exact (cosine_distance_clip_is_identity [1; 2] [2; -1] eq_refl).
Defined.

Lemma Rdot_scale_l (k : R) (a b : list R) :
  Spec.Rdot (map (Rmult k) a) b = k * Spec.Rdot a b.
Proof.
  revert b. induction a as [| x a IH]; intros [| y b]; simpl; try ring.
  rewrite IH. ring.
Qed.

Lemma Rdot_scale_both (k : R) (a : list R) :
  Spec.Rdot (map (Rmult k) a) (map (Rmult k) a) = (k * k) * Spec.Rdot a a.
Proof. induction a as [| x a IH]; simpl; [ring |]. rewrite IH. ring. Qed.

Lemma l2norm_scale (k : R) (a : list R) :
  0 <= k -> Spec.l2norm (map (Rmult k) a) = k * Spec.l2norm a.
Proof.
  intros Hk. unfold Spec.l2norm. rewrite Rdot_scale_both.
  rewrite sqrt_mult; [| nra | apply Rdot_self_nonneg].
  rewrite sqrt_square by exact Hk. reflexivity.
Qed.

Lemma zero_norm_all_zero (a : list R) : Spec.l2norm a = 0 -> Forall (fun x => x = 0) a.
Proof. intros Hz. apply Rdot_self_zero. apply l2norm_zero_dot. exact Hz. Qed.

(** Scaling by a positive number does not change the normalised vector. *)
Lemma normalize_scale (k : R) (a : list R) :
  0 < k -> Spec.normalize (map (Rmult k) a) = Spec.normalize a.
Proof.
  intros Hk. unfold Spec.normalize. rewrite l2norm_scale by lra.
  destruct (Req_dec_T (Spec.l2norm a) 0) as [Hz | Hn].
  - rewrite Hz, Rmult_0_r. destruct (Req_dec_T 0 0) as [_ | Hne]; [| contradiction].
    pose proof (zero_norm_all_zero a Hz) as Hall.
    clear Hz. induction Hall as [| x a Hx _ IH]; simpl; [reflexivity |].
    rewrite IH, Hx. f_equal. ring.
  - destruct (Req_dec_T (k * Spec.l2norm a) 0) as [Hz | _]; [nra |].
    rewrite map_map. apply map_ext. intros x. field. split; lra.
Qed.

Lemma l2norm_opp (a : list R) : Spec.l2norm (map Ropp a) = Spec.l2norm a.
Proof.
  unfold Spec.l2norm. f_equal.
  induction a as [| x a IH]; simpl; [reflexivity |]. rewrite IH. ring.
Qed.

Lemma normalize_opp (a : list R) :
  Spec.normalize (map Ropp a) = map Ropp (Spec.normalize a).
Proof.
  unfold Spec.normalize. rewrite l2norm_opp.
  destruct (Req_dec_T (Spec.l2norm a) 0); [reflexivity |].
  rewrite !map_map. apply map_ext. intros x. unfold Rdiv. ring.
Qed.

Lemma Rdot_opp_l (a b : list R) : Spec.Rdot (map Ropp a) b = - Spec.Rdot a b.
Proof.
  revert b. induction a as [| x a IH]; intros [| y b]; simpl; try ring.
  rewrite IH. ring.
Qed.

(** X3: [cosine_distance] looks at directions only: multiplying the first
    vector by a positive number leaves the distance as it is, and negating it
    turns the distance [d] into [2 - d]. *)
Theorem cosine_distance_scaling (k : R) (a b : list R) :
  length a = length b -> 0 < k ->
  cosine_distance (vec (map (Rmult k) a)) (vec b) = cosine_distance (vec a) (vec b)
  /\ exists d,
       cosine_distance (vec a) (vec b) = Ok d
       /\ cosine_distance (vec (map Ropp a)) (vec b) = Ok (2 - d).
Proof.
  intros Hlen Hk. split.
  - rewrite !cosine_distance_vec by (rewrite ?length_map; exact Hlen).
    unfold Spec.cosineDistance. rewrite (normalize_scale _ _ Hk). reflexivity.
  - exists (Spec.cosineDistance a b).
    rewrite !cosine_distance_vec by (rewrite ?length_map; exact Hlen).
    split; [reflexivity |]. f_equal.
    unfold Spec.cosineDistance. rewrite normalize_opp, Rdot_opp_l.
    pose proof (normalized_dot_bounds a b) as Hb.
    rewrite !Rclip_id by lra. ring.
Qed.

(** X3 at [a = (1, 2)], [b = (2, 1)] and the factor 3. *)
Lemma cosine_distance_scaling_witness :
  cosine_distance (vec (map (Rmult 3) [1; 2])) (vec [2; 1])
  = cosine_distance (vec [1; 2]) (vec [2; 1]).
Proof.
  assert (H3 : 0 < 3) by lra.
  exact (proj1 (cosine_distance_scaling 3 [1; 2] [2; 1] eq_refl H3)).
Defined.

End MetricTheorems.

(* ================================================================== *)
(** * The batch against the per-pair function, in exact arithmetic      *)
(* ================================================================== *)

Section RowFacts.
Context {T : Type}.

Lemma firstn_app_exact (r l : list T) : firstn (length r) (r ++ l) = r.
Proof. induction r as [| x r IH]; simpl; [reflexivity | f_equal; exact IH]. Qed.

Lemma skipn_app_exact (r l : list T) : skipn (length r) (r ++ l) = l.
Proof. induction r as [| x r IH]; simpl; [reflexivity | exact IH]. Qed.

(** The rows of a matrix built from rows of one length are those rows. *)
Lemma rows_concat (n c : nat) (rws : list (list T)) :
  n = length rws -> Forall (fun r => length r = c) rws ->
  rows n c (concat rws) = rws.
Proof.
  intros -> Hall. induction Hall as [| r rws Hr _ IH]; simpl; [reflexivity |].
  subst c. rewrite firstn_app_exact, skipn_app_exact. f_equal. exact IH.
Qed.

End RowFacts.

Section MatrixOps.
Context {F : Type} `{Flt F}.

Lemma sub_mat_vec (r : nat) (l q : list F) :
  sub (mat r (length q) l) (vec q)
  = Ok (mkarray [r; length q]
          (concat (map (fun row => zip_with fsub row q) (rows r (length q) l)))).
Proof. unfold sub, mat, vec; simpl. rewrite Nat.eqb_refl. reflexivity. Qed.

End MatrixOps.

Section BatchTheorems.
Open Scope R_scope.

(** X4: with the Euclidean metric the batch is the per-pair function: for a
    query and a matrix whose rows have the query's length, the i-th batched
    distance is [calculate_distance] of the query and the i-th row. *)
Theorem batch_euclidean_is_pairwise (query : list R) (rws : list (list R)) :
  Forall (fun r => length r = length query) rws ->
  exists ds,
    batch_calculate_distances (vec query)
      (mat (length rws) (length query) (concat rws)) "euclidean"
    = Ok (mkarray [length rws] ds)
    /\ Forall2 (fun d r => calculate_distance (vec query) (vec r) "euclidean" = Ok d)
         ds rws.
Proof.
  intros Hall.
  exists (map (fun r => Spec.l2norm (zip_with Rminus r query)) rws). split.
  - unfold batch_calculate_distances; simpl String.eqb; cbv iota.
    rewrite sub_mat_vec. rewrite (rows_concat _ _ rws eq_refl Hall). simpl bind.
    unfold linalg_norm_axis1; simpl shape; simpl data. cbv iota.
    rewrite rows_concat.
    + rewrite map_map. reflexivity.
    + rewrite length_map. reflexivity.
    + rewrite Forall_map. apply Forall_impl with (2 := Hall).
      intros r Hr. rewrite zip_with_length by exact Hr. exact Hr.
  - induction Hall as [| r rws Hr _ IH]; simpl; constructor; [| exact IH].
    unfold calculate_distance; simpl String.eqb; cbv iota.
    rewrite euclidean_distance_vec by congruence.
    unfold Spec.l2norm. rewrite zip_sub_sqr. reflexivity.
Qed.

(** X4 on the query (1, 0) and the rows (3, 0) and (0, 4). *)
Lemma batch_euclidean_is_pairwise_witness :
  exists ds,
    batch_calculate_distances (vec [1; 0]) (mat 2 2 [3; 0; 0; 4]) "euclidean"
    = Ok (mkarray [2%nat] ds)
    /\ Forall2 (fun d r => calculate_distance (vec [1; 0]) (vec r) "euclidean" = Ok d)
         ds [[3; 0]; [0; 4]].
Proof.
  apply (batch_euclidean_is_pairwise [1; 0] [[3; 0]; [0; 4]]).
  repeat constructor.
Defined.

End BatchTheorems.

Section BatchOneRow.
Context {F : Type} `{Flt F}.

Lemma normalize_embedding_data (sh : list nat) (l : list F) :
  normalize_embedding (mkarray sh l)
  = mkarray sh (data (normalize_embedding (vec l))).
Proof.
  unfold normalize_embedding, linalg_norm, vec; simpl.
  destruct (feqb _ _); reflexivity.
Qed.

Lemma normalize_embedding_data_length (l : list F) :
  length (data (normalize_embedding (vec l))) = length l.
Proof.
  unfold normalize_embedding. destruct (feqb _ _); simpl; [reflexivity |].
  apply length_map.
Qed.

(** X5: the cosine batch on exactly one reference row, for every float
    type.  With [p] the product of the normalised row and the normalised
    query, the batch returns [1 - p] where the per-pair function returns
    [1 - clip(p, -1, 1)]: with one row the two differ by the clip alone,
    which the batch does not apply. *)
Theorem batch_cosine_single_row_lacks_the_clip (query row : list F) :
  length row = length query ->
  batch_calculate_distances (vec query) (mat 1 (length query) row) "cosine"
  = Ok (vec [fsub f1 (inner (data (normalize_embedding (vec row)))
                            (data (normalize_embedding (vec query))))])
  /\ calculate_distance (vec row) (vec query) "cosine"
     = Ok (fsub f1 (clip1 (inner (data (normalize_embedding (vec row)))
                                 (data (normalize_embedding (vec query))))
                          (fopp f1) f1)).
Proof.
  intros Hlen. split.
  - unfold batch_calculate_distances; simpl String.eqb; cbv iota.
    unfold mat. rewrite normalize_embedding_data.
    unfold dot. rewrite normalize_embedding_shape. simpl shape; cbv beta iota.
    rewrite Nat.eqb_refl. simpl bind. simpl rows.
    rewrite <- Hlen, <- (normalize_embedding_data_length row), firstn_all.
    reflexivity.
  - unfold calculate_distance; simpl String.eqb; cbv iota.
    apply cosine_distance_formula. exact Hlen.
Qed.

End BatchOneRow.

Section BatchOneRowExamples.

(** X5 on binary64 floats: at the query and row (1, 1, 1) the product is
    above 1, the batch returns a negative distance and the per-pair function
    0; at the query (1, 0) and the row (3, 4) the two agree. *)
Lemma batch_cosine_single_row_lacks_the_clip_witness :
  batch_calculate_distances (vec [1; 1; 1]%float) (mat 1 3 [1; 1; 1]%float) "cosine"
  = Ok (vec [(-0x1p-52)%float])
  /\ calculate_distance (vec [1; 1; 1]%float) (vec [1; 1; 1]%float) "cosine"
     = Ok 0%float
  /\ batch_calculate_distances (vec [1; 0]%float) (mat 1 2 [3; 4]%float) "cosine"
     = Ok (vec [0x1.999999999999ap-2%float])
  /\ calculate_distance (vec [3; 4]%float) (vec [1; 0]%float) "cosine"
     = Ok 0x1.999999999999ap-2%float.
Proof.
  destruct (batch_cosine_single_row_lacks_the_clip [1; 1; 1]%float [1; 1; 1]%float
              eq_refl) as [Hb1 Hp1].
  destruct (batch_cosine_single_row_lacks_the_clip [1; 0]%float [3; 4]%float
              eq_refl) as [Hb2 Hp2].
  cbn [length] in Hb1, Hb2.
  split; [rewrite Hb1; vm_compute; reflexivity |].
  split; [rewrite Hp1; vm_compute; reflexivity |].
  split; [rewrite Hb2; vm_compute; reflexivity |].
  rewrite Hp2. vm_compute. reflexivity.
Defined.

End BatchOneRowExamples.


(* ================================================================== *)
(** * More on find_best_match                                           *)
(* ================================================================== *)

Section RankingTheorems.
Context {F : Type} `{Flt F} `{Single F}.

(** X6: [find_best_match] for every float type.  Without references it
    raises IndexError.  With references, when the loop over them completes
    and [<] orders the computed distances (as it does when none of them is
    NaN), the result holds the matches of the references (each with the
    reference's id, the distance of the two float32 arrays and the
    similarity of that distance) in ascending order of distance, matches
    that rank alike in the order of their references, and the best match is
    the first of them, below which no distance lies. *)
Theorem find_best_match_sorts_ordered_distances (query : list F) (metric : string) :
  find_best_match query [] metric = Raise (IndexError "list index out of range")
  /\ (forall (refs : list (ReferenceEmbedding F)) (ms : list (MatchResult F)),
        refs <> [] ->
        collect_matches (vec (map f32 query)) metric refs = Ok ms ->
        keys_ordered (map (@distance F) ms) = true ->
        exists matches best,
          find_best_match query refs metric = Ok (matches, best)
          /\ Forall2 (match_of_reference query metric) ms refs
          /\ Permutation matches ms
          /\ StronglySorted (fun m1 m2 => not_below (distance m1) (distance m2)) matches
          /\ (forall m0, In m0 ms ->
                filter (fun m => ties_with (distance m0) (distance m)) matches
                = filter (fun m => ties_with (distance m0) (distance m)) ms)
          /\ hd_error matches = Some best
          /\ (forall m, In m ms -> not_below (distance best) (distance m))).
Proof.
  split; [reflexivity |].
  intros refs ms Hne Hc Hkeys.
  assert (Hin : forall m, In m ms -> In (distance m) (map (@distance F) ms)).
  { intros m Hm. apply in_map. exact Hm. }
  pose proof (list_sort_perm (@distance F) ms) as Hperm.
  pose proof (list_sort_sorted (@distance F) _ Hkeys ms Hin) as Hsorted.
  destruct (list_sort (@distance F) ms) as [| best rest] eqn:Hsort.
  { apply Permutation_nil in Hperm. subst ms.
    pose proof (collect_matches_ok _ _ _ _ Hc) as Hall. inversion Hall; subst.
    contradiction. }
  exists (best :: rest), best.
  split.
  { unfold find_best_match. rewrite Hc. simpl bind. rewrite Hsort. reflexivity. }
  split; [apply collect_matches_ok; exact Hc |].
  split; [exact Hperm |].
  split; [exact Hsorted |].
  split.
  { intros m0 Hm0. rewrite <- Hsort.
    apply (list_sort_stable (@distance F) _ Hkeys); [apply Hin; exact Hm0 | exact Hin]. }
  split; [reflexivity |].
  intros m Hm.
  assert (Hbest : In best ms).
  { apply (Permutation_in best Hperm). left. reflexivity. }
  apply (sorted_head_least (@distance F) best rest).
  - destruct (fltb (distance best) (distance best)) eqn:E; [| reflexivity].
    pose proof (proj1 (keys_ordered_spec _ Hkeys _ _ _ (Hin _ Hbest) (Hin _ Hbest)
                         (Hin _ Hbest)) E) as E'.
    congruence.
  - exact Hsorted.
  - apply (Permutation_in m (Permutation_sym Hperm)). exact Hm.
Qed.

End RankingTheorems.

Section RankingOnFloats.

(** C3 fails on the code.  The second reference holds 1e39, a finite float
    that the cast to float32 turns into an infinity; its distance is NaN,
    against which [<] never holds, so that the sort leaves the three matches
    (distances 1, NaN, 0) where they are: the list is not in ascending order
    and the best match is the reference at distance 1, not the one at
    distance 0, which comes last.  [is_valid_embedding], which tests for
    such components after the same cast, refuses that reference, but
    [find_best_match] does not call it. *)
Lemma C3_nan_distance_breaks_the_order :
  exists matches best,
    find_best_match query_512 refs_overflow "cosine" = Ok (matches, best)
    /\ map (@match_id float) matches = ["a"; "b"; "c"]
    /\ map (fun m => PrimFloat.is_nan (distance m)) matches = [false; true; false]
    /\ best = {| match_id := "a"; distance := 1%float; similarity := 0.5%float |}
    /\ nth 2 matches best
       = {| match_id := "c"; distance := 0%float; similarity := 1%float |}
    /\ PrimFloat.ltb 0 1 = true
    /\ is_valid_embedding (ref_embedding (nth 1 refs_overflow
                                           {| ref_id := ""; ref_embedding := [] |}))
         512 = false.
Proof.
  eexists _, _. split; [vm_compute; reflexivity |].
  split; [vm_compute; reflexivity |].
  split; [vm_compute; reflexivity |].
  split; [vm_compute; reflexivity |].
  split; [vm_compute; reflexivity |].
  split; vm_compute; reflexivity.
Qed.

(** X6 on binary64 inputs, the distances computed in single precision: the
    two references at cosine distance 0 from the query come first, in their
    input order. *)
Lemma find_best_match_sorts_ordered_distances_witness :
  find_best_match [1; 0]%float refs_example "cosine"
  = Ok ([ {| match_id := "same"; distance := 0%float; similarity := 1%float |};
          {| match_id := "longer"; distance := 0%float; similarity := 1%float |};
          {| match_id := "far"; distance := 1%float; similarity := 0.5%float |} ],
        {| match_id := "same"; distance := 0%float; similarity := 1%float |})
  /\ find_best_match [1; 0]%float [] "cosine"
     = Raise (IndexError "list index out of range").
Proof.
  destruct (find_best_match_sorts_ordered_distances [1; 0]%float "cosine")
    as [Hempty Hsome].
  split; [| exact Hempty].
  assert (Hne : refs_example <> []) by discriminate.
  assert (Hc : collect_matches (vec (map f32 [1; 0]%float)) "cosine" refs_example
               = Ok [ {| match_id := "far"; distance := 1%float;
                         similarity := 0.5%float |};
                      {| match_id := "same"; distance := 0%float;
                         similarity := 1%float |};
                      {| match_id := "longer"; distance := 0%float;
                         similarity := 1%float |} ]).
  { vm_compute. reflexivity. }
  assert (Hkeys : keys_ordered [1; 0; 0]%float = true).
  { vm_compute. reflexivity. }
  destruct (Hsome refs_example _ Hne Hc Hkeys)
    as (matches & best & Hrun & _ & _ & Hsorted & _ & _ & _).
  rewrite Hrun. vm_compute in Hrun. symmetry. exact Hrun.
Defined.

End RankingOnFloats.

(* ================================================================== *)
(** * Errors of the distance functions, for every float type            *)
(* ================================================================== *)

Section DistanceErrors.
Context {F : Type} `{Flt F} `{Single F}.

Lemma cosine_distance_returns (a b : list F) :
  length a = length b -> exists d, cosine_distance (vec a) (vec b) = Ok d.
Proof.
  intros Hlen. unfold cosine_distance, dot.
  rewrite !normalize_embedding_shape. simpl shape; cbv beta iota.
  rewrite Hlen, Nat.eqb_refl. simpl. eexists. reflexivity.
Qed.

Lemma cosine_distance_mismatch (a b : list F) :
  length a <> length b ->
  exists msg, cosine_distance (vec a) (vec b) = Raise (ValueError msg).
Proof.
  intros Hlen. unfold cosine_distance, dot.
  rewrite !normalize_embedding_shape. simpl shape; cbv beta iota.
  apply Nat.eqb_neq in Hlen. rewrite Hlen. simpl. eexists. reflexivity.
Qed.

(** X8: a metric string other than "cosine" and "euclidean" (the test is
    case-sensitive) makes [calculate_distance], [distance_to_similarity] and
    [batch_calculate_distances] raise ValueError whatever their other
    arguments are, and [find_best_match] too as soon as there is one
    reference: the metric is tested before any arithmetic. *)
Theorem unsupported_metric_raises (metric : string) (a b : ndarray F) (d : F)
    (query : list F) (r : ReferenceEmbedding F) (rest : list (ReferenceEmbedding F)) :
  metric <> "cosine" -> metric <> "euclidean" ->
  calculate_distance a b metric
  = Raise (ValueError ("Unsupported distance metric: " ++ metric))
  /\ distance_to_similarity d metric
     = Raise (ValueError ("Unsupported distance metric: " ++ metric))
  /\ batch_calculate_distances a b metric
     = Raise (ValueError ("Unsupported distance metric: " ++ metric))
  /\ find_best_match query (r :: rest) metric
     = Raise (ValueError ("Unsupported distance metric: " ++ metric)).
Proof.
  intros Hc He. apply String.eqb_neq in Hc, He.
  assert (Hcalc : forall (arithmetic : Flt F) x y,
                    @calculate_distance F arithmetic x y metric
                    = Raise (ValueError ("Unsupported distance metric: " ++ metric))).
  { intros arithmetic x y. unfold calculate_distance. rewrite Hc, He. reflexivity. }
  split; [apply Hcalc |].
  split; [unfold distance_to_similarity; rewrite Hc, He; reflexivity |].
  split; [unfold batch_calculate_distances; rewrite Hc, He; reflexivity |].
  unfold find_best_match. simpl collect_matches. unfold match_of.
  rewrite Hcalc. reflexivity.
Qed.

(** X9: for every float type, [calculate_distance] with a supported metric
    returns on two vectors of one length (it has no failing input there,
    NaN components included); on vectors of different lengths
    [cosine_distance] raises ValueError, and [euclidean_distance] raises
    ValueError too unless one of the two has exactly one element, which
    numpy broadcasts, so that the call returns. *)
Theorem distance_length_behaviour (a b : list F) :
  (length a = length b ->
     forall metric, supported metric ->
     exists d, calculate_distance (vec a) (vec b) metric = Ok d)
  /\ (length a <> length b ->
        exists msg, cosine_distance (vec a) (vec b) = Raise (ValueError msg))
  /\ (length a <> length b -> length a <> 1%nat -> length b <> 1%nat ->
        exists msg, euclidean_distance (vec a) (vec b) = Raise (ValueError msg))
  /\ (length a <> length b -> length a = 1%nat \/ length b = 1%nat ->
        exists d, euclidean_distance (vec a) (vec b) = Ok d).
Proof.
  split; [| split; [| split]].
  - intros Hlen metric [-> | ->]; unfold calculate_distance; simpl String.eqb; cbv iota.
    + apply cosine_distance_returns. exact Hlen.
    + unfold euclidean_distance, sub; simpl shape; cbv beta iota.
      rewrite Hlen, Nat.eqb_refl. simpl. eexists. reflexivity.
  - apply cosine_distance_mismatch.
  - intros Hne Ha Hb. unfold euclidean_distance, sub; simpl shape; cbv beta iota.
    apply Nat.eqb_neq in Hne, Ha, Hb. rewrite Hne, Ha, Hb. simpl.
    eexists. reflexivity.
  - intros Hne Hone. unfold euclidean_distance, sub; simpl shape; cbv beta iota.
    apply Nat.eqb_neq in Hne. rewrite Hne.
    destruct (length b =? 1)%nat eqn:Eb; [simpl; eexists; reflexivity |].
    destruct Hone as [Ha | Hb].
    + rewrite Ha. simpl. eexists. reflexivity.
    + apply Nat.eqb_neq in Eb. contradiction.
Qed.

End DistanceErrors.

Section DistanceErrorExamples.

(** X8 on binary64: "Cosine" with a capital is not a supported metric. *)
Lemma unsupported_metric_raises_witness :
  calculate_distance (vec [1; 0]%float) (vec [0; 1]%float) "Cosine"
  = Raise (ValueError "Unsupported distance metric: Cosine")
  /\ find_best_match [1; 0]%float
       [ {| ref_id := "a"; ref_embedding := [1; 0]%float |} ] "Cosine"
     = Raise (ValueError "Unsupported distance metric: Cosine").
Proof.
  assert (Hc : "Cosine" <> "cosine") by discriminate.
  assert (He : "Cosine" <> "euclidean") by discriminate.
  destruct (unsupported_metric_raises "Cosine" (vec [1; 0]%float) (vec [0; 1]%float)
              0%float [1; 0]%float {| ref_id := "a"; ref_embedding := [1; 0]%float |} []
              Hc He) as (H1 & _ & _ & H4).
  split; [exact H1 | exact H4].
Defined.

(** X9 on binary64: vectors of lengths 3 and 2, and of lengths 3 and 1. *)
Lemma distance_length_behaviour_witness :
  (exists msg, cosine_distance (vec [1; 2; 3]%float) (vec [1; 2]%float)
               = Raise (ValueError msg))
  /\ (exists msg, euclidean_distance (vec [1; 2; 3]%float) (vec [1; 2]%float)
                  = Raise (ValueError msg))
  /\ (exists d, euclidean_distance (vec [1; 2; 3]%float) (vec [1]%float) = Ok d)
  /\ (exists d, calculate_distance (vec [nan; 1]%float) (vec [1; 2]%float) "cosine"
                = Ok d).
Proof.
  destruct (distance_length_behaviour [1; 2; 3]%float [1; 2]%float)
    as (_ & Hcos & Heuc & _).
  destruct (distance_length_behaviour [1; 2; 3]%float [1]%float) as (_ & _ & _ & Hb).
  destruct (distance_length_behaviour [nan; 1]%float [1; 2]%float) as (Hret & _).
  split; [apply Hcos; simpl; lia |].
  split; [apply Heuc; simpl; lia |].
  split; [apply Hb; [simpl; lia | right; reflexivity] |].
  apply Hret; [reflexivity | left; reflexivity].
Defined.

End DistanceErrorExamples.

(* ================================================================== *)
(** * validate_image and preprocess_image, further                      *)
(* ================================================================== *)

Section ValidationTheorems.

Lemma dims_checks_ok (height width : nat) :
  (Z.of_nat height <? 32)%Z || (Z.of_nat width <? 32)%Z = false ->
  (Z.of_nat height >? 8192)%Z || (Z.of_nat width >? 8192)%Z = false ->
  dims_ok height width.
Proof.
  intros Emin Emax.
  apply orb_false_iff in Emin, Emax. destruct Emin as [E1 E2], Emax as [E3 E4].
  rewrite Z.ltb_ge in E1, E2. rewrite Z.gtb_ltb, Z.ltb_ge in E3, E4.
  unfold dims_ok. lia.
Qed.

Lemma validate_image_message (image : option (ndarray Z)) :
  (fst (validate_image image) = true /\ snd (validate_image image) = None)
  \/ (fst (validate_image image) = false /\ exists m, snd (validate_image image) = Some m).
Proof.
  unfold validate_image. destruct image as [[sh values] |];
    [| right; split; [reflexivity | eexists; reflexivity]].
  destruct (size _ =? 0)%nat; [right; split; [reflexivity | eexists; reflexivity] |].
  simpl shape.
  destruct sh as [| height [| width [| channels [| ? ?]]]];
    try (right; split; [reflexivity | eexists; reflexivity]).
  - destruct ((Z.of_nat height <? 32)%Z || (Z.of_nat width <? 32)%Z);
      [right; split; [reflexivity | eexists; reflexivity] |].
    destruct ((Z.of_nat height >? 8192)%Z || (Z.of_nat width >? 8192)%Z);
      [right; split; [reflexivity | eexists; reflexivity] |].
    left. split; reflexivity.
  - destruct (negb ((channels =? 1)%nat || (channels =? 3)%nat || (channels =? 4)%nat));
      [right; split; [reflexivity | eexists; reflexivity] |].
    destruct ((Z.of_nat height <? 32)%Z || (Z.of_nat width <? 32)%Z);
      [right; split; [reflexivity | eexists; reflexivity] |].
    destruct ((Z.of_nat height >? 8192)%Z || (Z.of_nat width >? 8192)%Z);
      [right; split; [reflexivity | eexists; reflexivity] |].
    left. split; reflexivity.
Qed.

Lemma validate_image_of_shape (height width : nat) (values : list Z)
    (sh : list nat) :
  dims_ok height width ->
  sh = [height; width] \/ sh = [height; width; 1%nat]
  \/ sh = [height; width; 3%nat] \/ sh = [height; width; 4%nat] ->
  validate_image (Some (mkarray sh values)) = (true, None).
Proof.
  intros Hd Hsh. destruct (dims_ok_checks _ _ Hd) as [Hmin Hmax].
  unfold validate_image.
  destruct Hsh as [-> | [-> | [-> | ->]]].
  - replace (size _ =? 0)%nat with false.
    + simpl shape. cbv beta iota zeta. rewrite Hmin, Hmax. reflexivity.
    + symmetry. apply Nat.eqb_neq. unfold size; simpl. destruct Hd. nia.
  - rewrite (dims_ok_size _ _ 1 _ Hd) by lia. simpl shape. simpl negb. cbv iota.
    rewrite Hmin, Hmax. reflexivity.
  - rewrite (dims_ok_size _ _ 3 _ Hd) by lia. simpl shape. simpl negb. cbv iota.
    rewrite Hmin, Hmax. reflexivity.
  - rewrite (dims_ok_size _ _ 4 _ Hd) by lia. simpl shape. simpl negb. cbv iota.
    rewrite Hmin, Hmax. reflexivity.
Qed.

(** X10: [validate_image] accepts an array exactly when it is 2-d, or 3-d
    with 1, 3 or 4 channels, and its height and width lie in [32, 8192];
    [None] is rejected; and the error message is [None] exactly when the
    image is accepted. *)
Theorem validate_image_characterised (image : ndarray Z) :
  (fst (validate_image (Some image)) = true
   <-> exists height width,
         dims_ok height width
         /\ (shape image = [height; width]
             \/ shape image = [height; width; 1%nat]
             \/ shape image = [height; width; 3%nat]
             \/ shape image = [height; width; 4%nat]))
  /\ validate_image None = (false, Some "Image is None")
  /\ (forall im : option (ndarray Z),
        fst (validate_image im) = true <-> snd (validate_image im) = None).
Proof.
  split; [| split; [reflexivity |]].
  - split.
    + intros Hv. destruct (validate_image (Some image)) as [ok msg] eqn:E.
      simpl in Hv. subst ok.
      destruct (validate_image_accepts _ _ E)
        as (height & width & values & Hd & [Heq | (c & Heq & Hc)]);
        injection Heq as ->; exists height, width; split; try exact Hd; simpl.
      * left. reflexivity.
      * right. destruct Hc as [-> | [-> | ->]]; tauto.
    + intros (height & width & Hd & Hsh). destruct image as [sh values].
      simpl in Hsh. rewrite (validate_image_of_shape height width values sh Hd Hsh).
      reflexivity.
  - intros im. destruct (validate_image_message im) as [[H1 H2] | [H1 [m H2]]];
      rewrite H1, H2; split; congruence.
Qed.

Lemma flat_map_triple_length (l : list Z) :
  length (flat_map (fun p => [p; p; p]) l) = (3 * length l)%nat.
Proof. induction l as [| x l IH]; simpl; [reflexivity | rewrite IH; lia]. Qed.

Lemma drop_alpha_length (n : nat) (l : list Z) :
  length l = (4 * n)%nat -> length (drop_alpha l) = (3 * n)%nat.
Proof.
  revert l. induction n as [| n IH]; intros l Hl.
  - destruct l; [reflexivity | discriminate].
  - destruct l as [| b [| g [| r [| a l]]]]; simpl in Hl; try lia.
    simpl. rewrite (IH l) by lia. lia.
Qed.

Lemma drop_alpha_nth (n i k : nat) (l : list Z) :
  length l = (4 * n)%nat -> (i < n)%nat -> (k < 3)%nat ->
  nth (3 * i + k) (drop_alpha l) 0%Z = nth (4 * i + k) l 0%Z.
Proof.
  revert i l. induction n as [| n IH]; intros i l Hl Hi Hk; [lia |].
  destruct l as [| b [| g [| r [| a l]]]]; simpl in Hl; try lia.
  destruct i as [| i].
  - destruct k as [| [| [| k]]]; try lia; reflexivity.
  - replace (3 * S i + k)%nat with (S (S (S (3 * i + k)))) by lia.
    replace (4 * S i + k)%nat with (S (S (S (S (4 * i + k))))) by lia.
    simpl drop_alpha. simpl nth. apply IH; lia.
Qed.

(** X11: on a buffer of accepted height and width [preprocess_image] keeps
    height and width and returns three channels: a 2-d array has every value
    three times, a 4-channel array loses the fourth value of every pixel
    (pixel [i] keeps its first three values), a 3-channel array is returned
    as it is; and an output holds height * width * 3 values when the input
    held height * width (2-d) or height * width * 4 values. *)
Theorem preprocess_image_three_channels (height width : nat) (values : list Z) :
  dims_ok height width ->
  preprocess_image (Some (mkarray [height; width] values))
  = Ok (mkarray [height; width; 3%nat] (flat_map (fun p => [p; p; p]) values))
  /\ preprocess_image (Some (mkarray [height; width; 3%nat] values))
     = Ok (mkarray [height; width; 3%nat] values)
  /\ preprocess_image (Some (mkarray [height; width; 4%nat] values))
     = Ok (mkarray [height; width; 3%nat] (drop_alpha values))
  /\ (wf (mkarray [height; width] values) ->
        wf (mkarray [height; width; 3%nat] (flat_map (fun p => [p; p; p]) values)))
  /\ (wf (mkarray [height; width; 4%nat] values) ->
        wf (mkarray [height; width; 3%nat] (drop_alpha values))
        /\ forall i k, (i < height * width)%nat -> (k < 3)%nat ->
             nth (3 * i + k) (drop_alpha values) 0%Z = nth (4 * i + k) values 0%Z).
Proof.
  intros Hd.
  split; [apply preprocess_image_gray2d; exact Hd |].
  split; [apply preprocess_image_bgr; exact Hd |].
  split; [apply preprocess_image_bgra; exact Hd |].
  unfold wf, size; simpl. split.
  - intros Hwf. rewrite flat_map_triple_length, Hwf. lia.
  - intros Hwf.
    assert (Hl : length values = (4 * (height * width))%nat) by (rewrite Hwf; lia).
    split.
    + rewrite (drop_alpha_length _ _ Hl). lia.
    + intros i k Hi Hk. apply (drop_alpha_nth (height * width)); assumption.
Qed.

(** X11 on a 40 x 40 gray buffer and a 32 x 32 buffer with alpha. *)
Lemma preprocess_image_three_channels_witness :
  preprocess_image (Some gray_40x40)
  = Ok (mkarray [40; 40; 3]%nat (flat_map (fun p => [p; p; p]) (repeat 7%Z 1600)))
  /\ preprocess_image (Some (mkarray [32; 32; 4]%nat (repeat 7%Z 4096)))
     = Ok (mkarray [32; 32; 3]%nat (drop_alpha (repeat 7%Z 4096))).
Proof.
  assert (Hd : dims_ok 40 40) by (unfold dims_ok; lia).
  assert (Hd' : dims_ok 32 32) by (unfold dims_ok; lia).
  split.
  - exact (proj1 (preprocess_image_three_channels 40 40 (repeat 7%Z 1600) Hd)).
  - exact (proj1 (proj2 (proj2
             (preprocess_image_three_channels 32 32 (repeat 7%Z 4096) Hd')))).
Defined.

(** X12: [preprocess_image] is idempotent: whatever it returns, it returns
    unchanged when given it again. *)
Theorem preprocess_image_idempotent (image : option (ndarray Z)) (out : ndarray Z) :
  preprocess_image image = Ok out -> preprocess_image (Some out) = Ok out.
Proof.
  intros Hp. destruct (validate_image image) as [[|] msg] eqn:Hv.
  - destruct (validate_image_accepts _ _ Hv)
      as (height & width & values & Hd & [-> | (channels & -> & [-> | [-> | ->]])]).
    + rewrite (preprocess_image_gray2d _ _ _ Hd) in Hp. injection Hp as <-.
      apply preprocess_image_bgr. exact Hd.
    + rewrite (preprocess_image_one_channel _ _ _ Hd) in Hp. injection Hp as <-.
      apply preprocess_image_one_channel. exact Hd.
    + rewrite (preprocess_image_bgr _ _ _ Hd) in Hp. injection Hp as <-.
      apply preprocess_image_bgr. exact Hd.
    + rewrite (preprocess_image_bgra _ _ _ Hd) in Hp. injection Hp as <-.
      apply preprocess_image_bgr. exact Hd.
  - unfold preprocess_image in Hp. rewrite Hv in Hp. discriminate Hp.
Qed.

(** X12 on the 40 x 40 gray buffer. *)
Lemma preprocess_image_idempotent_witness :
  preprocess_image
    (Some (mkarray [40; 40; 3]%nat (flat_map (fun p => [p; p; p]) (repeat 7%Z 1600))))
  = Ok (mkarray [40; 40; 3]%nat (flat_map (fun p => [p; p; p]) (repeat 7%Z 1600))).
Proof.
  apply (preprocess_image_idempotent (Some gray_40x40)).
  apply preprocess_image_gray2d. unfold dims_ok; lia.
Defined.

End ValidationTheorems.

(* ================================================================== *)
(** * Image ingestion, further                                          *)
(* ================================================================== *)

Section IngestionTheorems.
Variable settings : Config.Settings.
Variable b64decode : string -> result (list Byte.byte).
Variable requests_get : string -> Z -> result Response.
Variable Image_open : list Byte.byte -> result PilImage.
Variable convert : PilImage -> string -> result PilImage.

Local Abbreviation load' := (load_image_from_bytes settings Image_open convert).
Local Abbreviation decode' := (decode_base64_image settings b64decode Image_open convert).
Local Abbreviation fetch' := (fetch_image_from_url settings requests_get Image_open convert).

Lemma handlers_raise_image_processing_error (url : string) (e : exn) :
  is_image_processing_error (load_handler e)
  /\ is_image_processing_error (decode_handler e)
  /\ is_image_processing_error (fetch_handler url e)
  /\ is_image_processing_error (preprocess_handler e).
Proof.
  unfold is_image_processing_error.
  repeat split; destruct e as [| | | | | | [| | |] ? | | | |];
    simpl; eexists; eexists; reflexivity.
Qed.

(** X13: no exception other than ImageProcessingError leaves the ingestion
    functions: whatever base64, the network, PIL or OpenCV raise,
    [decode_base64_image], [fetch_image_from_url], [load_image_from_bytes]
    and [preprocess_image] raise ImageProcessingError or return. *)
Theorem ingestion_raises_only_image_processing_error :
  (forall s e, snd (decode' s) = Raise e -> is_image_processing_error e)
  /\ (forall url timeout e,
        snd (fetch' url timeout) = Raise e -> is_image_processing_error e)
  /\ (forall image_bytes e,
        snd (load' image_bytes) = Raise e -> is_image_processing_error e)
  /\ (forall image e, preprocess_image image = Raise e -> is_image_processing_error e).
Proof.
  split; [| split; [| split]].
  - intros s e. unfold decode_base64_image, io_try. simpl snd.
    destruct (snd _) as [a | e0]; simpl; [discriminate |].
    intros [= <-]. apply (handlers_raise_image_processing_error "" e0).
  - intros url timeout e. unfold fetch_image_from_url, io_try. simpl snd.
    destruct (snd _) as [a | e0]; simpl; [discriminate |].
    intros [= <-]. apply (handlers_raise_image_processing_error url e0).
  - intros image_bytes e. apply load_raises.
  - intros image e. unfold preprocess_image.
    destruct (let '(is_valid, error_msg) := validate_image image in _) as [a | e0];
      simpl; [discriminate |].
    intros [= <-]. apply (handlers_raise_image_processing_error "" e0).
Qed.

(** X14: the pixel decode ([Image.open]) runs only on bytes within the size
    cap: on the base64 path on the bytes base64 returned; on the URL path on
    the body of a response that arrived for an http(s) URL and whose status
    [raise_for_status] let through.  In particular the body of a 4xx or 5xx
    response is never decoded. *)
Theorem pixel_decode_only_after_checks (image_bytes : list Byte.byte) :
  (forall s,
     In (EvImageOpen image_bytes) (fst (decode' s)) ->
     b64decode (strip_data_uri s) = Ok image_bytes
     /\ ~ over_cap settings image_bytes)
  /\ (forall url timeout,
        In (EvImageOpen image_bytes) (fst (fetch' url timeout)) ->
        http_scheme url = true
        /\ ~ over_cap settings image_bytes
        /\ exists response,
             requests_get url timeout = Ok response
             /\ content response = image_bytes
             /\ raise_for_status response = Ok tt).
Proof.
  split.
  - intros s Hin. destruct (b64decode (strip_data_uri s)) as [bytes | e] eqn:Hd.
    + rewrite (decode_after_b64 _ _ _ _ _ _ Hd) in Hin.
      destruct (Z.of_nat (length bytes) >? Config.max_image_size settings)%Z eqn:E.
      * simpl in Hin. destruct Hin as [Hin | []]. discriminate Hin.
      * rewrite load_trace in Hin. simpl in Hin.
        destruct Hin as [Hin | [Hin | []]]; [discriminate Hin |].
        injection Hin as ->. split; [reflexivity |].
        unfold over_cap. intros Hover. apply Z.gtb_gt in Hover. congruence.
    + unfold decode_base64_image, io_try, call, io_bind in Hin. rewrite Hd in Hin.
      simpl in Hin. destruct Hin as [Hin | []]. discriminate Hin.
  - intros url timeout Hin. destruct (http_scheme url) eqn:Hs.
    + destruct (requests_get url timeout) as [response | e] eqn:Hg.
      * destruct (raise_for_status response) as [[] | e] eqn:Hr.
        -- rewrite (fetch_after_response _ _ _ _ _ _ _ Hs Hg Hr) in Hin.
           destruct (Z.of_nat (length (content response))
                     >? Config.max_image_size settings)%Z eqn:E.
           ++ simpl in Hin. destruct Hin as [Hin | []]. discriminate Hin.
           ++ rewrite load_trace in Hin. simpl in Hin.
              destruct Hin as [Hin | [Hin | []]]; [discriminate Hin |].
              injection Hin as <-. split; [reflexivity |]. split.
              ** unfold over_cap. intros Hover. apply Z.gtb_gt in Hover. congruence.
              ** exists response. repeat split; assumption.
        -- rewrite (fetch_status_fails _ _ _ _ _ _ _ _ Hs Hg Hr) in Hin.
           simpl in Hin. destruct Hin as [Hin | []]. discriminate Hin.
      * rewrite (fetch_request_fails _ _ _ _ _ _ _ Hs Hg) in Hin.
        simpl in Hin. destruct Hin as [Hin | []]. discriminate Hin.
    + unfold fetch_image_from_url, io_try in Hin. rewrite Hs in Hin.
      simpl in Hin. contradiction.
Qed.

(** X15: [fetch_image_from_url] refuses a URL that starts with neither
    "http://" nor "https://" with InvalidImage and without any request (the
    prefix test is case-sensitive); for an http(s) URL it issues exactly one
    request, with the given timeout, whatever happens then: no retry. *)
Theorem fetch_image_from_url_requests (url : string) (timeout : Z) :
  (http_scheme url = false ->
     fetch' url timeout
     = ([], Raise (ImageProcessingError
                     "Invalid URL format. URL must start with http:// or https://"
                     INVALID_IMAGE)))
  /\ (http_scheme url = true ->
        filter (fun ev => negb (is_image_open ev)) (fst (fetch' url timeout))
        = [EvHttpGet url timeout]).
Proof.
  split; intros Hs.
  - unfold fetch_image_from_url, io_try. rewrite Hs. reflexivity.
  - destruct (requests_get url timeout) as [response | e] eqn:Hg.
    + destruct (raise_for_status response) as [[] | e] eqn:Hr.
      * rewrite (fetch_after_response _ _ _ _ _ _ _ Hs Hg Hr).
        destruct (Z.of_nat (length (content response))
                  >? Config.max_image_size settings)%Z; [reflexivity |].
        rewrite load_trace. reflexivity.
      * rewrite (fetch_status_fails _ _ _ _ _ _ _ _ Hs Hg Hr). reflexivity.
    + rewrite (fetch_request_fails _ _ _ _ _ _ _ Hs Hg). reflexivity.
Qed.


Lemma load_opened (image_bytes : list Byte.byte) (pil : PilImage) :
  Image_open image_bytes = Ok pil ->
  load' image_bytes
  = ([EvImageOpen image_bytes],
     try_except
       (match format pil with
        | Some fmt =>
            if negb (fmt =? "")
               && negb (str_in (lower fmt) (Config.allowed_image_formats settings))
            then Raise (ImageProcessingError
                          ("Unsupported image format: " ++ fmt ++ ". Allowed formats: "
                           ++ str_formats (Config.allowed_image_formats settings))
                          UNSUPPORTED_FORMAT)
            else
              pil_image <- (if negb (mode pil =? "RGB") then convert pil "RGB" else Ok pil) ;;
              cvtColor_RGB2BGR (pixels pil_image)
        | None =>
            pil_image <- (if negb (mode pil =? "RGB") then convert pil "RGB" else Ok pil) ;;
            cvtColor_RGB2BGR (pixels pil_image)
        end)
       load_handler).
Proof.
  intros Ho. unfold load_image_from_bytes, io_try, call, io_bind. rewrite Ho.
  destruct (format pil) as [fmt |].
  - destruct (negb (fmt =? "")
              && negb (str_in (lower fmt) (Config.allowed_image_formats settings)));
      [reflexivity |].
    destruct (bind _ _); reflexivity.
  - destruct (bind _ _); reflexivity.
Qed.

(** X17: [load_image_from_bytes] tests the format PIL recognised against the
    allow-list in lower case and before any conversion: a format outside the
    list fails with UnsupportedFormat whatever the pixels are; an RGB image
    of an allowed format (or of none) with [height x width x 3] pixels comes
    back with the same shape and the first and third value of every pixel
    exchanged (BGR order). *)
Theorem load_image_from_bytes_format (image_bytes : list Byte.byte) (pil : PilImage) :
  Image_open image_bytes = Ok pil ->
  (forall fmt,
     format pil = Some fmt -> fmt <> "" ->
     str_in (lower fmt) (Config.allowed_image_formats settings) = false ->
     exists msg,
       load' image_bytes
       = ([EvImageOpen image_bytes], Raise (ImageProcessingError msg UNSUPPORTED_FORMAT)))
  /\ (forall height width,
        (format pil = None
         \/ exists fmt, format pil = Some fmt
                        /\ str_in (lower fmt) (Config.allowed_image_formats settings) = true) ->
        mode pil = "RGB" ->
        shape (pixels pil) = [height; width; 3%nat] ->
        load' image_bytes
        = ([EvImageOpen image_bytes],
           Ok (mkarray [height; width; 3%nat] (swap_rb3 (data (pixels pil)))))).
Proof.
  intros Ho. rewrite (load_opened _ _ Ho). split.
  - intros fmt -> Hne Hin. apply String.eqb_neq in Hne. rewrite Hne, Hin. simpl.
    eexists. reflexivity.
  - intros height width Hfmt Hmode Hshape.
    assert (Hbody : (pil_image <- (if negb (mode pil =? "RGB") then convert pil "RGB"
                                   else Ok pil) ;;
                     cvtColor_RGB2BGR (pixels pil_image))
                    = Ok (mkarray [height; width; 3%nat] (swap_rb3 (data (pixels pil))))).
    { rewrite Hmode. simpl. unfold cvtColor_RGB2BGR. rewrite Hshape. reflexivity. }
    destruct Hfmt as [-> | (fmt & -> & Hin)].
    + rewrite Hbody. reflexivity.
    + rewrite Hin, andb_false_r. rewrite Hbody. reflexivity.
Qed.

End IngestionTheorems.

Section IngestionTheoremExamples.

(** X13 where PIL cannot read the bytes, and on a 404. *)
Lemma ingestion_raises_only_image_processing_error_witness :
  (exists e,
     snd (decode_base64_image Config.settings b64decode_example open_fails convert_none
            "AAEC") = Raise e
     /\ is_image_processing_error e)
  /\ (exists e,
        snd (fetch_image_from_url Config.settings get_404 open_fails convert_none
               face_url 30) = Raise e
        /\ is_image_processing_error e).
Proof.
  destruct (ingestion_raises_only_image_processing_error Config.settings
              b64decode_example get_404 open_fails convert_none) as (Hd & Hf & _).
  split.
  - eexists. split; [reflexivity |]. apply (Hd "AAEC"). reflexivity.
  - eexists. split; [reflexivity |]. apply (Hf face_url 30%Z). reflexivity.
Defined.

(** X14 on the three bytes of "AAEC" and on the six bytes of a 200 response. *)
Lemma pixel_decode_only_after_checks_witness :
  (b64decode_example (strip_data_uri "AAEC") = Ok three_bytes
   /\ ~ over_cap Config.settings three_bytes)
  /\ (http_scheme face_url = true /\ ~ over_cap Config.settings six_bytes).
Proof.
  split.
  - apply (proj1 (pixel_decode_only_after_checks Config.settings b64decode_example
                    get_six_bytes open_fails convert_none three_bytes) "AAEC").
    simpl. right. left. reflexivity.
  - destruct (proj2 (pixel_decode_only_after_checks Config.settings b64decode_example
                       get_six_bytes open_fails convert_none six_bytes) face_url 30%Z)
      as (Hs & Hcap & _).
    + simpl. right. left. reflexivity.
    + split; assumption.
Defined.

(** X15 on an ftp URL and on a server that answers 404. *)
Lemma fetch_image_from_url_requests_witness :
  fetch_image_from_url Config.settings get_404 open_fails convert_none
    "ftp://example.org/face.jpg" 30
  = ([], Raise (ImageProcessingError
                  "Invalid URL format. URL must start with http:// or https://"
                  INVALID_IMAGE))
  /\ filter (fun ev => negb (is_image_open ev))
       (fst (fetch_image_from_url Config.settings get_404 open_fails convert_none
               face_url 30))
     = [EvHttpGet face_url 30].
Proof.
  split.
  - apply (proj1 (fetch_image_from_url_requests Config.settings get_404 open_fails
                    convert_none "ftp://example.org/face.jpg" 30)).
    reflexivity.
  - apply (proj2 (fetch_image_from_url_requests Config.settings get_404 open_fails
                    convert_none face_url 30)).
    reflexivity.
Defined.


(** X17 with the default allow-list: a GIF is refused, an RGB PNG of two
    pixels (1, 2, 3) and (4, 5, 6) comes back as (3, 2, 1) and (6, 5, 4). *)
Lemma load_image_from_bytes_format_witness :
  (exists msg,
     load_image_from_bytes Config.settings open_gif convert_none three_bytes
     = ([EvImageOpen three_bytes], Raise (ImageProcessingError msg UNSUPPORTED_FORMAT)))
  /\ load_image_from_bytes Config.settings open_png convert_none three_bytes
     = ([EvImageOpen three_bytes], Ok (mkarray [2; 1; 3]%nat [3; 2; 1; 6; 5; 4]%Z)).
Proof.
  split.
  - apply (proj1 (load_image_from_bytes_format Config.settings open_gif convert_none
                    three_bytes _ eq_refl) "GIF"); [reflexivity | discriminate | reflexivity].
  - apply (proj2 (load_image_from_bytes_format Config.settings open_png convert_none
                    three_bytes _ eq_refl) 2%nat 1%nat).
    + right. exists "PNG". split; reflexivity.
    + reflexivity.
    + reflexivity.
Defined.

End IngestionTheoremExamples.

(* ================================================================== *)
(** * encode_image_to_base64 and the way back                           *)
(* ================================================================== *)

Section StringFacts.

Lemma string_app_assoc (a b c : string) : ((a ++ b) ++ c = a ++ (b ++ c))%string.
Proof. induction a as [| x a IH]; simpl; [reflexivity | rewrite IH; reflexivity]. Qed.

Lemma lower_ascii_comma (c : ascii) :
  Ascii.eqb (lower_ascii c) "," = Ascii.eqb c ",".
Proof. destruct c as [[] [] [] [] [] [] [] []]; reflexivity. Qed.

Lemma contains_comma_lower (s : string) :
  contains_char "," (lower s) = contains_char "," s.
Proof.
  induction s as [| c s IH]; simpl; [reflexivity |].
  rewrite lower_ascii_comma, IH. reflexivity.
Qed.

Lemma contains_char_app (c : ascii) (a b : string) :
  contains_char c (a ++ b) = contains_char c a || contains_char c b.
Proof.
  induction a as [| x a IH]; simpl; [reflexivity |].
  rewrite IH. apply orb_assoc.
Qed.

Lemma after_first_app (c : ascii) (p s : string) :
  contains_char c p = false -> after_first c (p ++ String c s) = s.
Proof.
  induction p as [| x p IH]; simpl; intros Hp.
  - rewrite Ascii.eqb_refl. reflexivity.
  - apply orb_false_iff in Hp. destruct Hp as [Hx Hp]. rewrite Hx. apply IH. exact Hp.
Qed.

(** The prefix the encoder writes is the prefix the decoder cuts off. *)
Lemma strip_data_uri_prefix (format payload : string) :
  contains_char "," format = false ->
  strip_data_uri (data_uri_prefix format ++ payload) = payload.
Proof.
  intros Hf.
  assert (Heq : (data_uri_prefix format ++ payload
                 = ("data:image/" ++ lower format ++ ";base64") ++ String "," payload)%string).
  { unfold data_uri_prefix. rewrite !string_app_assoc. reflexivity. }
  assert (Hp : contains_char "," ("data:image/" ++ lower format ++ ";base64") = false).
  { rewrite !contains_char_app, contains_comma_lower, Hf. reflexivity. }
  unfold strip_data_uri.
  replace (startswith (data_uri_prefix format ++ payload) "data:") with true
    by reflexivity.
  rewrite Heq, contains_char_app, Hp. simpl contains_char.
  simpl andb. cbv iota. apply after_first_app. exact Hp.
Qed.

Lemma swap_rb3_involutive (n : nat) (l : list Z) :
  length l = (3 * n)%nat -> swap_rb3 (swap_rb3 l) = l.
Proof.
  revert l. induction n as [| n IH]; intros l Hl.
  - destruct l; [reflexivity | discriminate].
  - destruct l as [| r [| g [| b l]]]; simpl in Hl; try lia.
    simpl. rewrite (IH l) by lia. reflexivity.
Qed.

End StringFacts.

Section EncodingTheorems.
Variable settings : Config.Settings.
Variable b64decode : string -> result (list Byte.byte).
Variable Image_open : list Byte.byte -> result PilImage.
Variable convert : PilImage -> string -> result PilImage.
Variable Image_fromarray : ndarray Z -> result PilImage.
Variable Image_save : PilImage -> string -> result (list Byte.byte).
Variable b64encode : list Byte.byte -> string.

Local Abbreviation encode' := (encode_image_to_base64 Image_fromarray Image_save b64encode).

Lemma encode_ok (image : ndarray Z) (format text : string) :
  encode' image format = Ok text ->
  exists image_rgb pil_image buffer,
    image_rgb_of image = Ok image_rgb
    /\ Image_fromarray image_rgb = Ok pil_image
    /\ Image_save pil_image format = Ok buffer
    /\ text = (data_uri_prefix format ++ b64encode buffer)%string.
Proof.
  unfold encode_image_to_base64.
  destruct (image_rgb_of image) as [image_rgb | e]; [| discriminate].
  cbn [bind]. destruct (Image_fromarray image_rgb) as [pil | e] eqn:Hpil; [| discriminate].
  cbn [bind]. destruct (Image_save pil format) as [buffer | e] eqn:Hsave; [| discriminate].
  cbn [bind try_except]. intros [= <-]. exists image_rgb, pil, buffer.
  split; [reflexivity |]. split; [exact Hpil |]. split; [exact Hsave | reflexivity].
Qed.

(** [decode_base64_image] on a data URI of the encoder's making. *)
Lemma decode_data_uri (format : string) (buffer : list Byte.byte) :
  contains_char "," format = false ->
  b64decode (b64encode buffer) = Ok buffer ->
  ~ over_cap settings buffer ->
  decode_base64_image settings b64decode Image_open convert
    (data_uri_prefix format ++ b64encode buffer)
  = ([EvB64Decode (b64encode buffer); EvImageOpen buffer],
     snd (load_image_from_bytes settings Image_open convert buffer)).
Proof.
  intros Hf Hrt Hcap.
  pose proof (strip_data_uri_prefix format (b64encode buffer) Hf) as Hstrip.
  rewrite <- Hstrip in Hrt.
  rewrite (decode_after_b64 _ _ _ _ _ _ Hrt), load_trace, Hstrip.
  destruct (Z.of_nat (length buffer) >? Config.max_image_size settings)%Z eqn:E;
    [| reflexivity].
  exfalso. apply Hcap. unfold over_cap. apply Z.gtb_gt. exact E.
Qed.

(** X18: what [encode_image_to_base64] returns, [decode_base64_image] reads
    back (the format name holding no comma).  A text the encoder returns is
    the data URI "data:image/<format in lower case>;base64," followed by the
    base64 of the bytes [save] wrote for the image [Image.fromarray] made of
    [image_rgb]; and when base64 decoding is the inverse of encoding on
    those bytes and they are within the cap, the decoder on that text hands
    those very bytes to the pixel decode.  For every payload the decoder
    cuts exactly that prefix off.  When the encoder fails, it fails with
    ProcessingError, whatever was raised. *)
Theorem decode_reads_what_encode_writes (image : ndarray Z) (format : string) :
  contains_char "," format = false ->
  (forall text,
     encode' image format = Ok text ->
     exists image_rgb pil_image buffer,
       image_rgb_of image = Ok image_rgb
       /\ Image_fromarray image_rgb = Ok pil_image
       /\ Image_save pil_image format = Ok buffer
       /\ text = (data_uri_prefix format ++ b64encode buffer)%string
       /\ (b64decode (b64encode buffer) = Ok buffer ->
           ~ over_cap settings buffer ->
           decode_base64_image settings b64decode Image_open convert text
           = ([EvB64Decode (b64encode buffer); EvImageOpen buffer],
              snd (load_image_from_bytes settings Image_open convert buffer))))
  /\ (forall payload, strip_data_uri (data_uri_prefix format ++ payload) = payload)
  /\ (forall buffer,
        b64decode (b64encode buffer) = Ok buffer ->
        ~ over_cap settings buffer ->
        decode_base64_image settings b64decode Image_open convert
          (data_uri_prefix format ++ b64encode buffer)
        = ([EvB64Decode (b64encode buffer); EvImageOpen buffer],
           snd (load_image_from_bytes settings Image_open convert buffer)))
  /\ (forall e,
        encode' image format = Raise e ->
        exists msg, e = ImageProcessingError msg PROCESSING_ERROR).
Proof.
  intros Hf. split; [| split; [| split]].
  - intros text Hok.
    destruct (encode_ok _ _ _ Hok) as (image_rgb & pil & buffer & Hrgb & Hpil & Hsave & ->).
    exists image_rgb, pil, buffer.
    split; [exact Hrgb |]. split; [exact Hpil |]. split; [exact Hsave |].
    split; [reflexivity |].
    intros Hrt Hcap. apply (decode_data_uri _ _ Hf Hrt Hcap).
  - intros payload. apply strip_data_uri_prefix. exact Hf.
  - intros buffer Hrt Hcap. apply (decode_data_uri _ _ Hf Hrt Hcap).
  - intros e. unfold encode_image_to_base64.
    destruct (bind _ _) as [t | e0]; simpl; [discriminate |].
    intros [= <-]. eexists. reflexivity.
Qed.

(** X19: the channel order survives the way there and back: when OpenCV
    turns PIL's [height x width x 3] RGB pixels into the BGR array the
    service works on, [encode_image_to_base64] on that array hands
    [Image.fromarray] the very pixels PIL gave. *)
Theorem encode_restores_rgb_order (pil_pixels bgr : ndarray Z) (format : string)
    (height width : nat) :
  shape pil_pixels = [height; width; 3%nat] ->
  length (data pil_pixels) = (3 * (height * width))%nat ->
  cvtColor_RGB2BGR pil_pixels = Ok bgr ->
  encode' bgr format
  = try_except
      (pil_image <- Image_fromarray pil_pixels ;;
       buffer <- Image_save pil_image format ;;
       Ok (data_uri_prefix format ++ b64encode buffer)%string)
      encode_handler.
Proof.
  intros Hshape Hlen Hcvt. destruct pil_pixels as [sh values]. simpl in *. subst sh.
  unfold cvtColor_RGB2BGR in Hcvt; simpl in Hcvt. injection Hcvt as <-.
  unfold encode_image_to_base64, image_rgb_of; simpl.
  unfold cvtColor_RGB2BGR; simpl.
  rewrite (swap_rb3_involutive _ _ Hlen). reflexivity.
Qed.

End EncodingTheorems.

Section EncodingExamples.

(** X18 where PIL saves three bytes, whose base64 is "AAEC": the encoder
    hands [Image.fromarray] the two pixels in RGB order, and the decoder
    hands the three saved bytes to the pixel decode. *)
Lemma decode_reads_what_encode_writes_witness :
  encode_image_to_base64 fromarray_rgb save_three_bytes b64encode_example
    two_pixels "JPEG"
  = Ok "data:image/jpeg;base64,AAEC"
  /\ (exists image_rgb pil_image,
        image_rgb_of two_pixels = Ok image_rgb
        /\ data image_rgb = [3; 2; 1; 6; 5; 4]%Z
        /\ fromarray_rgb image_rgb = Ok pil_image
        /\ save_three_bytes pil_image "JPEG" = Ok three_bytes)
  /\ decode_base64_image Config.settings b64decode_example open_png convert_none
       "data:image/jpeg;base64,AAEC"
     = ([EvB64Decode "AAEC"; EvImageOpen three_bytes],
        snd (load_image_from_bytes Config.settings open_png convert_none three_bytes)).
Proof.
  assert (Hrun : encode_image_to_base64 fromarray_rgb save_three_bytes b64encode_example
                   two_pixels "JPEG"
                 = Ok "data:image/jpeg;base64,AAEC") by reflexivity.
  split; [exact Hrun |].
  destruct (decode_reads_what_encode_writes Config.settings b64decode_example open_png
              convert_none fromarray_rgb save_three_bytes b64encode_example
              two_pixels "JPEG" eq_refl) as (Henc & _ & _ & _).
  destruct (Henc _ Hrun)
    as (image_rgb & pil & buffer & Hrgb & Hpil & Hsave & _ & Hdec).
  assert (Hbuf : buffer = three_bytes).
  { unfold save_three_bytes in Hsave. injection Hsave as <-. reflexivity. }
  subst buffer. split.
  - exists image_rgb, pil. split; [exact Hrgb |].
    split; [| split; [exact Hpil | exact Hsave]].
    vm_compute in Hrgb. injection Hrgb as <-. reflexivity.
  - apply Hdec; [reflexivity |].
    unfold over_cap; simpl; lia.
Defined.

(** X19 on the two pixels (1, 2, 3) and (4, 5, 6). *)
Lemma encode_restores_rgb_order_witness :
  encode_image_to_base64 fromarray_rgb save_three_bytes b64encode_example
    (mkarray [2; 1; 3]%nat [3; 2; 1; 6; 5; 4]%Z) "PNG"
  = try_except
      (pil_image <- fromarray_rgb two_pixels ;;
       buffer <- save_three_bytes pil_image "PNG" ;;
       Ok (data_uri_prefix "PNG" ++ b64encode_example buffer)%string)
      (@encode_handler).
Proof.
  apply (encode_restores_rgb_order fromarray_rgb save_three_bytes b64encode_example
           two_pixels _ "PNG" 2 1); reflexivity.
Defined.

End EncodingExamples.

(* ================================================================== *)
(** * The face model: counting faces, loading, the singleton            *)
(* ================================================================== *)

Section FaceCounting.
Context {F : Type}.
Implicit Types (self : FaceRecognitionModel F) (image : ndarray Z).

Lemma single_face_fails_unless_one self rdi (faces : list (Face F)) :
  length faces <> 1%nat ->
  exists msg c,
    single_face self rdi faces = Raise (FaceModelError msg c)
    /\ (c = NO_FACE_DETECTED \/ c = MULTIPLE_FACES_DETECTED).
Proof.
  intros Hlen. unfold single_face.
  destruct faces as [| f1 [| f2 rest]]; simpl in *.
  - eexists _, _. split; [reflexivity | left; reflexivity].
  - contradiction Hlen. reflexivity.
  - eexists _, _. split; [reflexivity | right; reflexivity].
Qed.

(** [get_embedding] raises nothing but FaceModelError. *)
Lemma get_embedding_raises self image rdi (e : exn) :
  snd (get_embedding self image rdi) = Raise e ->
  exists msg c, e = FaceModelError msg c.
Proof.
  unfold get_embedding. destruct (model self) as [get |].
  - unfold io_try. simpl snd. destruct (snd _) as [r | e0]; simpl; [discriminate |].
    intros [= <-]. destruct e0; simpl; eexists _, _; reflexivity.
  - simpl. intros [= <-]. eexists _, _. reflexivity.
Qed.

(** X20: [detect_faces] and [get_embedding] agree: both refuse a model that
    is not loaded without calling the backend, and both call it exactly once
    otherwise; [detect_faces] returns the number of faces the backend
    reports, and [get_embedding] returns only when that number is 1 and
    fails with NoFaceDetected or MultipleFacesDetected otherwise.  When the
    backend raises, [detect_faces] reports ProcessingError with the message
    "Failed to detect faces: ...", whatever was raised. *)
Theorem detect_faces_agrees_with_get_embedding self image rdi :
  (model self = None ->
     detect_faces self image = ([], Raise not_loaded_error)
     /\ get_embedding self image rdi = ([], Raise not_loaded_error))
  /\ (forall get faces,
        model self = Some get -> get image = Ok faces ->
        detect_faces self image = ([EvInference image], Ok (length faces))
        /\ fst (get_embedding self image rdi) = [EvInference image]
        /\ (forall r, snd (get_embedding self image rdi) = Ok r ->
              length faces = 1%nat)
        /\ (length faces <> 1%nat ->
              exists msg c,
                snd (get_embedding self image rdi) = Raise (FaceModelError msg c)
                /\ (c = NO_FACE_DETECTED \/ c = MULTIPLE_FACES_DETECTED)))
  /\ (forall get e,
        model self = Some get -> get image = Raise e ->
        detect_faces self image
        = ([EvInference image],
           Raise (FaceModelError ("Failed to detect faces: " ++ str_exn e)
                    PROCESSING_ERROR))
        /\ get_embedding self image rdi
           = ([EvInference image], Raise (embedding_handler e))).
Proof.
  split; [| split].
  - intros Hm. unfold detect_faces, get_embedding. rewrite Hm. split; reflexivity.
  - intros get faces Hm Hg.
    rewrite (get_embedding_loaded _ _ _ _ _ Hm Hg). simpl fst. simpl snd.
    split; [| split; [reflexivity | split]].
    + unfold detect_faces, io_try, call, io_bind, ret. rewrite Hm, Hg. reflexivity.
    + intros r Hr. destruct (Nat.eq_dec (length faces) 1) as [Heq | Hne]; [exact Heq |].
      destruct (single_face_fails_unless_one self rdi faces Hne) as (msg & c & Hs & _).
      rewrite Hs in Hr. discriminate.
    + intros Hne.
      destruct (single_face_fails_unless_one self rdi faces Hne) as (msg & c & Hs & Hc).
      rewrite Hs. exists msg, c. split; [reflexivity | exact Hc].
  - intros get e Hm Hg. split.
    + unfold detect_faces, io_try, call, io_bind. rewrite Hm, Hg. reflexivity.
    + unfold get_embedding, io_try, call, io_bind. rewrite Hm, Hg. reflexivity.
Qed.

End FaceCounting.

Section LifecycleTheorems.
Context {F : Type}.
Variable raw : ModelSettings F.
Variable new_FaceAnalysis : string -> option (list string) -> result (FaceAnalysis F).

Local Abbreviation configured := (Settings_init raw).
Local Abbreviation initialize := (initialize_model configured new_FaceAnalysis).
Local Abbreviation ctx_id := (if (cfg_device raw =? "cpu")%string then (-1)%Z else 0%Z).

Lemma Settings_init_fields :
  cfg_model_name configured = cfg_model_name raw
  /\ cfg_detection_threshold configured = cfg_detection_threshold raw
  /\ cfg_embedding_size configured = cfg_embedding_size raw
  /\ cfg_device configured = cfg_device raw.
Proof. unfold Settings_init. destruct (cfg_providers raw); repeat split; reflexivity. Qed.

(** X21: what [initialize_model] leaves behind, whatever instance was there
    before.  The settings always name providers, the CPU one among them when
    the environment gave none.  When the backend's constructor raises, the
    call raises ModelNotLoaded and the stored instance is not loaded.  When
    the constructor returns and [prepare] raises, the call raises
    ModelNotLoaded as well, but the stored instance holds the unprepared
    backend and [is_loaded] answers True.  When both return, the stored
    instance holds the prepared backend and the configured embedding size.
    [prepare] is given the context -1 exactly for the device "cpu".
    [get_model] hands out the stored instance in all three cases, and raises
    ModelNotLoaded once [cleanup_model] has run. *)
Theorem initialize_model_outcomes (previous : instance_state F) :
  (exists providers,
     cfg_providers configured = Some providers
     /\ (cfg_providers raw = None -> In "CPUExecutionProvider" providers))
  /\ (exists m, get_model (fst (initialize previous)) = Ok m)
  /\ get_model (cleanup_model (fst (initialize previous)))
     = Raise (FaceModelError
                "Face recognition model not initialized. Call initialize_model() first."
                MODEL_NOT_LOADED)
  /\ (forall e,
        new_FaceAnalysis (cfg_model_name raw) (cfg_providers configured) = Raise e ->
        exists m,
          initialize previous = (Some m, Raise (load_error e))
          /\ is_loaded m = false)
  /\ (forall fa,
        new_FaceAnalysis (cfg_model_name raw) (cfg_providers configured) = Ok fa ->
        (forall e,
           prepare fa ctx_id (640, 640)%nat (cfg_detection_threshold raw) = Raise e ->
           exists m,
             initialize previous = (Some m, Raise (load_error e))
             /\ model m = Some (get fa false)
             /\ is_loaded m = true)
        /\ (forall u,
              prepare fa ctx_id (640, 640)%nat (cfg_detection_threshold raw) = Ok u ->
              exists m,
                initialize previous = (Some m, Ok tt)
                /\ get_model (fst (initialize previous)) = Ok m
                /\ model m = Some (get fa true)
                /\ embedding_size m = cfg_embedding_size raw)).
Proof.
  destruct Settings_init_fields as (Hname & Hthr & Hsize & Hdev).
  split; [| split; [| split; [| split]]].
  - unfold Settings_init. destruct (cfg_providers raw) as [p |] eqn:Hp.
    + exists p. split; [exact Hp | discriminate].
    + simpl. eexists. split; [reflexivity |]. intros _.
      destruct (cfg_device raw =? "cuda")%string; simpl; auto.
  - unfold initialize_model. destruct (load _ _ _) as [m r]. exists m. reflexivity.
  - unfold initialize_model. destruct (load _ _ _) as [m r]. reflexivity.
  - intros e He. unfold initialize_model, load, new_FaceRecognitionModel.
    simpl model_name. rewrite Hname, He. eexists. split; reflexivity.
  - intros fa Hfa. split.
    + intros e He. unfold initialize_model, load, new_FaceRecognitionModel.
      simpl model_name. rewrite Hname, Hfa. simpl. rewrite Hdev, Hthr, He.
      eexists. repeat split; reflexivity.
    + intros u Hu. unfold initialize_model, load, new_FaceRecognitionModel.
      simpl model_name. rewrite Hname, Hfa. simpl. rewrite Hdev, Hthr, Hu.
      eexists. repeat split. simpl. exact Hsize.
Qed.

End LifecycleTheorems.

Section LifecycleExamples.

(** X20 on a backend that reports two faces and on a model that is not
    loaded. *)
Lemma detect_faces_agrees_with_get_embedding_witness :
  detect_faces (loaded_model [face_ok; face_nan] 2) tiny_image
  = ([EvInference tiny_image], Ok 2%nat)
  /\ (exists msg c,
        snd (get_embedding (loaded_model [face_ok; face_nan] 2) tiny_image true)
        = Raise (FaceModelError msg c)
        /\ (c = NO_FACE_DETECTED \/ c = MULTIPLE_FACES_DETECTED))
  /\ detect_faces unloaded_model tiny_image = ([], Raise not_loaded_error).
Proof.
  destruct (detect_faces_agrees_with_get_embedding
              (loaded_model [face_ok; face_nan] 2) tiny_image true)
    as (_ & Hloaded & _).
  destruct (Hloaded _ [face_ok; face_nan] eq_refl eq_refl) as (Hcount & _ & _ & Hfail).
  split; [exact Hcount |]. split.
  - apply Hfail. simpl. lia.
  - destruct (detect_faces_agrees_with_get_embedding unloaded_model tiny_image true)
      as (Hnone & _).
    apply (Hnone eq_refl).
Defined.

(** X21 on the default settings: a model pack that is not found, a backend
    whose [prepare] fails, and one that loads. *)
Lemma initialize_model_outcomes_witness :
  cfg_providers (Settings_init model_settings) = Some ["CPUExecutionProvider"]
  /\ (exists m,
        initialize_model (Settings_init model_settings) new_analysis_missing None
        = (Some m, Raise (FaceModelError
                            "Failed to load face recognition model: model not found"
                            MODEL_NOT_LOADED))
        /\ is_loaded m = false)
  /\ (exists m,
        initialize_model (Settings_init model_settings) new_analysis_broken None
        = (Some m, Raise (FaceModelError
                            "Failed to load face recognition model: no detection model"
                            MODEL_NOT_LOADED))
        /\ model m = Some (analysis_get false)
        /\ is_loaded m = true)
  /\ (exists m,
        initialize_model (Settings_init model_settings) new_analysis_ok None
        = (Some m, Ok tt)
        /\ get_model (fst (initialize_model (Settings_init model_settings)
                             new_analysis_ok None)) = Ok m
        /\ model m = Some (analysis_get true)
        /\ embedding_size m = 512%Z).
Proof.
  split; [reflexivity |]. split; [| split].
  - destruct (initialize_model_outcomes model_settings new_analysis_missing None)
      as (_ & _ & _ & Hctor & _).
    apply (Hctor _ eq_refl).
  - destruct (initialize_model_outcomes model_settings new_analysis_broken None)
      as (_ & _ & _ & _ & Hfa).
    destruct (Hfa analysis_broken eq_refl) as [Hbad _].
    apply (Hbad _ eq_refl).
  - destruct (initialize_model_outcomes model_settings new_analysis_ok None)
      as (_ & _ & _ & _ & Hfa).
    destruct (Hfa analysis_ok eq_refl) as [_ Hgood].
    apply (Hgood tt eq_refl).
Defined.

End LifecycleExamples.

(* ================================================================== *)
(** * The endpoints: comparing embeddings                               *)
(* ================================================================== *)

Section RequestValidation.
Context {F : Type} `{Flt F}.

Lemma validate_metric_ok (v m : string) :
  validate_metric v = Ok m -> m = lower v /\ supported m.
Proof.
  unfold validate_metric, str_in. simpl existsb.
  destruct (lower v =? "cosine")%string eqn:Ec.
  - simpl. intros [= <-]. split; [reflexivity |].
    left. apply String.eqb_eq. exact Ec.
  - destruct (lower v =? "euclidean")%string eqn:Ee; simpl; [| discriminate].
    intros [= <-]. split; [reflexivity |].
    right. apply String.eqb_eq. exact Ee.
Qed.

Lemma new_references_ok (raw : list (string * list F))
    (refs : list (ReferenceEmbedding F)) :
  new_references raw = Ok refs ->
  Forall (fun r => length (ref_embedding r) = 512%nat) refs
  /\ map (@ref_id F) refs = map fst raw.
Proof.
  revert refs. induction raw as [| [id embedding] rest IH]; intros refs; simpl.
  - intros [= <-]. split; [constructor | reflexivity].
  - unfold new_ReferenceEmbedding.
    destruct (String.length id <? 1)%nat; simpl; [discriminate |].
    destruct (length embedding =? 512)%nat eqn:El; simpl; [| discriminate].
    destruct (new_references rest) as [rs |]; simpl; [| discriminate].
    intros [= <-]. destruct (IH rs eq_refl) as [Hall Hids]. split.
    + constructor; [apply Nat.eqb_eq; exact El | exact Hall].
    + simpl. f_equal. exact Hids.
Qed.

Lemma new_CompareRequest_ok (query : list F) (raw : list (string * list F))
    (metric : string) (request : CompareRequest F) :
  new_CompareRequest query raw metric = Ok request ->
  query_embedding request = query
  /\ length query = 512%nat
  /\ Forall (fun r => length (ref_embedding r) = 512%nat) (reference_embeddings request)
  /\ map (@ref_id F) (reference_embeddings request) = map fst raw
  /\ reference_embeddings request <> []
  /\ distance_metric request = lower metric
  /\ supported (distance_metric request).
Proof.
  unfold new_CompareRequest.
  destruct (length query =? 512)%nat eqn:Eq; simpl; [| discriminate].
  destruct (new_references raw) as [refs |] eqn:Er; simpl; [| discriminate].
  destruct (length refs <? 1)%nat eqn:El; [discriminate |].
  destruct (validate_metric metric) as [m |] eqn:Em; [| discriminate].
  intros [= <-]. simpl.
  destruct (new_references_ok _ _ Er) as [Hall Hids].
  destruct (validate_metric_ok _ _ Em) as [Hm Hs].
  repeat split; try assumption.
  - apply Nat.eqb_eq. exact Eq.
  - intros ->. discriminate El.
Qed.

(** With a supported metric, two vectors of one length have a distance. *)
Lemma calculate_distance_returns (metric : string) (a b : list F) :
  supported metric -> length a = length b ->
  exists d, calculate_distance (vec a) (vec b) metric = Ok d.
Proof.
  intros [-> | ->] Hlen; unfold calculate_distance; simpl String.eqb; cbv iota.
  - unfold cosine_distance, dot.
    rewrite !normalize_embedding_shape. simpl shape; cbv beta iota.
    rewrite Hlen, Nat.eqb_refl. simpl. eexists. reflexivity.
  - unfold euclidean_distance, sub; simpl shape; cbv beta iota.
    rewrite Hlen, Nat.eqb_refl. simpl. eexists. reflexivity.
Qed.

(** With a supported metric, [distance_to_similarity] raises nothing but
    ZeroDivisionError. *)
Lemma distance_to_similarity_raises (d : F) (metric : string) (e : exn) :
  supported metric -> distance_to_similarity d metric = Raise e ->
  e = ZeroDivisionError "float division by zero".
Proof.
  intros [-> | ->]; unfold distance_to_similarity, py_div; simpl String.eqb; cbv iota.
  - destruct (feqb f2 f0); simpl; [| discriminate].
    intros [= <-]. reflexivity.
  - destruct (feqb (fadd f1 d) f0); simpl; [| discriminate].
    intros [= <-]. reflexivity.
Qed.

End RequestValidation.

Section ValidatedComparison.
Context {F : Type} `{Flt F} `{Single F}.

Lemma match_of_raises (query : list F) (metric : string) (r : ReferenceEmbedding F)
    (e : exn) :
  supported metric -> length (ref_embedding r) = length query ->
  match_of (vec (map f32 query)) metric r = Raise e ->
  e = ZeroDivisionError "float division by zero" \/ exists msg, e = ValidationError msg.
Proof.
  intros Hs Hlen. unfold match_of. cbv zeta.
  destruct (@calculate_distance_returns F single metric (map f32 query)
              (map f32 (ref_embedding r)) Hs) as [d Hd].
  { rewrite !length_map. symmetry. exact Hlen. }
  rewrite Hd. cbn [bind].
  destruct (distance_to_similarity d metric) as [sim | e'] eqn:Hsim; cbn [bind].
  - unfold new_MatchResult. destruct (fleb f0 sim && fleb sim f1); [discriminate |].
    intros [= <-]. right. eexists. reflexivity.
  - intros [= <-]. left. apply (distance_to_similarity_raises _ _ _ Hs Hsim).
Qed.

Lemma collect_matches_raises (query : list F) (metric : string)
    (refs : list (ReferenceEmbedding F)) (e : exn) :
  supported metric ->
  Forall (fun r => length (ref_embedding r) = length query) refs ->
  collect_matches (vec (map f32 query)) metric refs = Raise e ->
  e = ZeroDivisionError "float division by zero" \/ exists msg, e = ValidationError msg.
Proof.
  intros Hs Hall. induction Hall as [| r refs Hr Hall IH]; simpl.
  - discriminate.
  - destruct (match_of _ metric r) as [m | e'] eqn:Hm; cbn [bind].
    + destruct (collect_matches _ metric refs) as [ms | e''] eqn:Hc; cbn [bind];
        [discriminate |].
      intros [= <-]. apply IH. reflexivity.
    + intros [= <-]. apply (match_of_raises _ _ _ _ Hs Hr Hm).
Qed.

Lemma matches_carry_the_ids (query : list F) (metric : string)
    (ms : list (MatchResult F)) (refs : list (ReferenceEmbedding F)) :
  Forall2 (match_of_reference query metric) ms refs ->
  map (@match_id F) ms = map (@ref_id F) refs.
Proof.
  induction 1 as [| m r ms refs Hm _ IH]; simpl; [reflexivity |].
  destruct Hm as (Hid & _). rewrite Hid, IH. reflexivity.
Qed.


End ValidatedComparison.

Section ComparisonExamples.


End ComparisonExamples.

(* ================================================================== *)
(** * The endpoints: the match verdict                                  *)
(* ================================================================== *)

Section Verdict.
Open Scope R_scope.

(** The distances of [calculate_distance], on arrays of any shape. *)
Lemma calculate_distance_range (embedding1 embedding2 : ndarray R) (metric : string)
    (d : R) :
  supported metric ->
  calculate_distance embedding1 embedding2 metric = Ok d ->
  0 <= d /\ (metric = "cosine" -> d <= 2).
Proof.
  intros [-> | ->]; unfold calculate_distance; simpl String.eqb; cbv iota.
  - unfold cosine_distance. destruct (dot _ _) as [cs |]; simpl; [| discriminate].
    unfold to_float, amap, clip, amap. simpl.
    destruct (data cs) as [| x [| y l]]; simpl; try discriminate.
    intros [= <-]. rewrite clip1_R by lra.
    assert (Hb : -1 <= Spec.Rclip x (- (1)) 1 <= 1) by (apply Rclip_bounds; lra).
    split; [| intros _]; lra.
  - unfold euclidean_distance. destruct (sub _ _) as [diff |]; simpl; [| discriminate].
    intros [= <-]. split; [apply sqrt_pos | discriminate].
Qed.

(** X24: the verdict of [compare_photos] is a threshold on the similarity
    it reports.  In exact arithmetic, for two embeddings of any shape on
    which [calculate_distance] returns: the distance is never negative and
    the similarity lies in [0, 1]; with the cosine metric the similarity is
    1 - d/2 and the verdict "distance < 0.4" holds exactly when the
    similarity exceeds 0.8; with the Euclidean metric the similarity is
    1/(1+d) and the verdict "distance < 1.0" holds exactly when the
    similarity exceeds 0.5. *)
Theorem is_match_is_similarity_threshold (embedding1 embedding2 : ndarray R)
    (metric : string) (d s : R) :
  supported metric ->
  calculate_distance embedding1 embedding2 metric = Ok d ->
  distance_to_similarity d metric = Ok s ->
  0 <= d /\ 0 <= s <= 1
  /\ (metric = "cosine" ->
        s = 1 - d / 2 /\ (is_match metric d = true <-> 8 / 10 < s))
  /\ (metric = "euclidean" ->
        s = 1 / (1 + d) /\ (is_match metric d = true <-> 1 / 2 < s)).
Proof.
  intros Hm Hd Hs. destruct (calculate_distance_range _ _ _ _ Hm Hd) as [Hd0 Hd2].
  split; [exact Hd0 |]. destruct Hm as [-> | ->].
  - specialize (Hd2 eq_refl). rewrite similarity_cosine_eq in Hs. injection Hs as <-.
    unfold Spec.cosine_similarity. rewrite Rclip_id by lra.
    split; [lra |]. split; [| discriminate]. intros _. split; [reflexivity |].
    unfold is_match; simpl. rewrite Rlt_bool_true. lra.
  - rewrite similarity_euclidean_eq in Hs by lra. injection Hs as <-.
    destruct (euclidean_similarity_unclipped d Hd0) as [-> [Hpos Hle]].
    split; [lra |]. split; [discriminate |]. intros _.
    split; [unfold Rdiv; rewrite Rmult_1_l; reflexivity |].
    unfold is_match; simpl. rewrite Rlt_bool_true.
    assert (Hx : (1 + d) * / (1 + d) = 1) by (apply Rinv_r; lra).
    split; intros Hlt; nra.
Qed.

(** X24 on the embeddings (3, 4) and (0, 0) with the Euclidean metric. *)
Lemma is_match_is_similarity_threshold_witness :
  exists d s,
    calculate_distance (vec [3; 4]) (vec [0; 0]) "euclidean" = Ok d
    /\ distance_to_similarity d "euclidean" = Ok s
    /\ (is_match "euclidean" d = true <-> 1 / 2 < s).
Proof.
  assert (Hm : supported "euclidean") by (right; reflexivity).
  assert (Hlen : length [3; 4] = length [0; 0]) by reflexivity.
  pose proof (calculate_distance_vec "euclidean" [3; 4] [0; 0] Hm Hlen) as Hd.
  destruct (similarity_of_distance "euclidean" [3; 4] [0; 0] Hm) as [Hs _].
  destruct (is_match_is_similarity_threshold _ _ _ _ _ Hm Hd Hs) as (_ & _ & _ & He).
  eexists _, _. split; [exact Hd |]. split; [exact Hs |]. apply (He eq_refl).
Defined.

End Verdict.

(* ================================================================== *)
(** * The endpoints: from an image to an answer                         *)
(* ================================================================== *)

Section IoFacts.

Lemma io_bind_lift_ok {A B : Type} (a : A) (f : A -> io B) :
  io_bind (lift (Ok a)) f = f a.
Proof. unfold io_bind, lift. destruct (f a). reflexivity. Qed.

Lemma io_bind_lift_raise {A B : Type} (e : exn) (f : A -> io B) :
  io_bind (lift (Raise e)) f = ([], Raise e).
Proof. reflexivity. Qed.

Lemma io_bind_pair {A B : Type} (m : io A) (f : A -> io B) :
  io_bind m f
  = match snd m with
    | Ok a => ((fst m ++ fst (f a))%list, snd (f a))
    | Raise e => (fst m, Raise e)
    end.
Proof.
  destruct m as [t [a | e]]; simpl; [| reflexivity].
  destruct (f a). reflexivity.
Qed.

Lemma io_bind_ok {A B : Type} (m : io A) (f : A -> io B) (t : list event) (b : B) :
  io_bind m f = (t, Ok b) ->
  exists t1 a t2, m = (t1, Ok a) /\ f a = (t2, Ok b) /\ t = (t1 ++ t2)%list.
Proof.
  destruct m as [t1 [a | e]]; simpl; [| discriminate].
  destruct (f a) as [t2 r] eqn:Hf. intros [= <- Hr]. subst r.
  exists t1, a, t2. split; [reflexivity | split; [exact Hf | reflexivity]].
Qed.

Lemma lift_ok {A : Type} (r : result A) (t : list event) (a : A) :
  lift r = (t, Ok a) -> r = Ok a /\ t = [].
Proof. unfold lift. intros [= <- ->]. split; reflexivity. Qed.

End IoFacts.

Section EndpointTheorems.
Context {F : Type} `{Flt F} `{FltLit F}.
Variable settings : Config.Settings.
Variable b64decode : string -> result (list Byte.byte).
Variable Image_open : list Byte.byte -> result PilImage.
Variable convert : PilImage -> string -> result PilImage.
Variable requests_get : string -> Z -> result Response.
Variable b64encode : list Byte.byte -> string.
Variable strip : string -> string.
Variable str_HTTPException : nat -> string -> string.

Local Abbreviation decode_image := (decode_base64_image settings b64decode Image_open convert).
Local Abbreviation fetch_image :=
  (fetch_image_from_url settings requests_get Image_open convert).
Local Abbreviation extract := (extract_embedding settings b64decode Image_open convert).
Local Abbreviation photos :=
  (compare_photos settings b64decode Image_open convert requests_get b64encode strip
     str_HTTPException).

Lemma decode_raises (s : string) (e : exn) :
  snd (decode_image s) = Raise e -> is_image_processing_error e.
Proof.
  unfold decode_base64_image, io_try. simpl snd.
  destruct (snd _) as [a | e0]; simpl; [discriminate |].
  intros [= <-]. apply (handlers_raise_image_processing_error "" e0).
Qed.

Lemma fetch_raises (url : string) (timeout : Z) (e : exn) :
  snd (fetch_image url timeout) = Raise e -> is_image_processing_error e.
Proof.
  unfold fetch_image_from_url, io_try. simpl snd.
  destruct (snd _) as [a | e0]; simpl; [discriminate |].
  intros [= <-]. apply (handlers_raise_image_processing_error url e0).
Qed.

Lemma decode_trace_has_no_inference (s : string) :
  forallb (fun ev => negb (is_inference ev)) (fst (decode_image s)) = true.
Proof.
  destruct (b64decode (strip_data_uri s)) as [bytes | e] eqn:Hd.
  - rewrite (decode_after_b64 _ _ _ _ _ _ Hd).
    destruct (Z.of_nat (length bytes) >? Config.max_image_size settings)%Z;
      [reflexivity |].
    rewrite load_trace. reflexivity.
  - unfold decode_base64_image, io_try, call, io_bind. rewrite Hd. reflexivity.
Qed.

Lemma get_embedding_ok_trace (self : FaceRecognitionModel F) (image : ndarray Z)
    (rdi : bool) (t : list event) (r : ndarray F * option F) :
  get_embedding self image rdi = (t, Ok r) -> t = [EvInference image].
Proof.
  unfold get_embedding. destruct (model self) as [get |]; [| discriminate].
  unfold io_try, call, io_bind. destruct (get image) as [faces | e]; [| discriminate].
  destruct (single_face self rdi faces); simpl; [| discriminate].
  intros [= <- _]. reflexivity.
Qed.

(** X25: how [extract_embedding] answers.  An image that cannot be decoded
    or does not pass the preprocessing is answered with status 400 and the
    error code of the failure, whether a model is there or not, and without
    any inference.  With a good image and no model instance the answer is
    400 with ModelNotLoaded.  With a model, the backend is asked after the
    decoding; every failure of [get_embedding] is answered with 400 and its
    error code; a body with status 200 carries the 512 numbers of the
    embedding and the detection score that [get_embedding] returned, and
    [face_detected] is true; status 500 is left for an embedding or a score
    that [EmbedResponse] refuses. *)
Theorem extract_embedding_answers (instance : instance_state F) (s : string) :
  forallb (fun ev => negb (is_inference ev)) (fst (decode_image s)) = true
  /\ (forall e,
        snd (decode_image s) = Raise e ->
        exists msg c,
          e = ImageProcessingError msg c
          /\ extract instance s = (fst (decode_image s), HttpErrorResponse 400 msg c))
  /\ (forall image,
        snd (decode_image s) = Ok image ->
        (forall e,
           preprocess_image (Some image) = Raise e ->
           exists msg,
             e = ImageProcessingError msg INVALID_IMAGE
             /\ extract instance s
                = (fst (decode_image s), HttpErrorResponse 400 msg INVALID_IMAGE))
        /\ (forall image',
              preprocess_image (Some image) = Ok image' ->
              (instance = None ->
                 extract instance s
                 = (fst (decode_image s),
                    HttpErrorResponse 400
                      "Face recognition model not initialized. Call initialize_model() first."
                      MODEL_NOT_LOADED))
              /\ (forall m,
                    instance = Some m ->
                    fst (extract instance s)
                    = (fst (decode_image s) ++ fst (get_embedding m image' true))%list
                    /\ (forall e,
                          snd (get_embedding m image' true) = Raise e ->
                          exists msg c,
                            e = FaceModelError msg c
                            /\ snd (extract instance s) = HttpErrorResponse 400 msg c)
                    /\ (forall body,
                          snd (extract instance s) = Http200 body ->
                          exists emb,
                            snd (get_embedding m image' true)
                            = Ok (emb, detection_score body)
                            /\ tolist emb = Some (response_embedding body)
                            /\ length (response_embedding body) = 512%nat
                            /\ face_detected body = true)
                    /\ (forall detail,
                          snd (extract instance s) = HTTPException 500 detail ->
                          exists emb score e,
                            snd (get_embedding m image' true) = Ok (emb, score)
                            /\ new_EmbedResponse (tolist emb) true score = Raise e)))).
Proof.
  split; [apply decode_trace_has_no_inference |].
  unfold extract_embedding. rewrite io_bind_pair.
  destruct (decode_image s) as [td rd] eqn:Hd. cbn [fst snd].
  split.
  - intros e ->.
    destruct (decode_raises s e) as (msg & c & ->); [rewrite Hd; reflexivity |].
    exists msg, c. split; reflexivity.
  - intros image ->. split.
    + intros e He.
      destruct (preprocess_image_fails_only_on_invalid _ _ He) as (_ & msg & ->).
      exists msg. split; [reflexivity |].
      rewrite He, io_bind_lift_raise. cbn [fst snd]. rewrite app_nil_r. reflexivity.
    + intros image' Hp. rewrite Hp, io_bind_lift_ok. split.
      * intros ->. cbn [get_model]. rewrite io_bind_lift_raise. cbn [fst snd].
        rewrite app_nil_r. reflexivity.
      * intros m ->. cbn [get_model]. rewrite io_bind_lift_ok, io_bind_pair.
        destruct (get_embedding m image' true) as [tg rg] eqn:Hg. cbn [fst snd].
        destruct rg as [[emb score] | e].
        -- cbn [fst snd lift]. rewrite app_nil_r. split; [reflexivity |].
           split; [discriminate |]. split.
           ++ intros body Hbody. exists emb.
              unfold new_EmbedResponse in Hbody.
              destruct (tolist emb) as [l |]; [| discriminate].
              destruct (length l =? 512)%nat eqn:El; cbn [negb] in Hbody;
                [| discriminate].
              apply Nat.eqb_eq in El.
              destruct score as [x |].
              ** destruct (fleb f0 x && fleb x f1); [| discriminate].
                 injection Hbody as <-. cbn. repeat split; assumption.
              ** injection Hbody as <-. cbn. repeat split; assumption.
           ++ intros detail Hdetail. exists emb, score.
              destruct (new_EmbedResponse (tolist emb) true score) as [body | e];
                [discriminate |].
              exists e. split; reflexivity.
        -- destruct (get_embedding_raises m image' true e) as (msg & c & ->);
             [rewrite Hg; reflexivity |].
           cbn [fst snd]. split; [reflexivity |]. split.
           ++ intros e [= <-]. exists msg, c. split; reflexivity.
           ++ split; [discriminate |]. discriminate.
Qed.

Lemma metric_allowed (metric : string) :
  str_in (lower metric) ["cosine"; "euclidean"] = true -> supported (lower metric).
Proof.
  unfold str_in. simpl existsb.
  destruct (lower metric =? "cosine")%string eqn:Ec.
  - intros _. left. apply String.eqb_eq. exact Ec.
  - destruct (lower metric =? "euclidean")%string eqn:Ee; simpl; [| discriminate].
    intros _. right. apply String.eqb_eq. exact Ee.
Qed.

(** X26: the three input checks of [compare_photos] do not answer with the
    status 400 they raise: an empty or blank URL, a URL that is not http(s)
    and an unsupported metric are all answered with status 500, the text of
    the refused [HTTPException] behind "Internal server error: ", because
    the checks sit inside the [try] whose last handler takes every
    exception but the two domain errors.  Nothing is fetched or decoded. *)
Theorem compare_photos_input_checks_answer_500 (instance : instance_state F)
    (image1 : string) (image2_bytes : list Byte.byte) (metric : string) :
  (image1 = "" \/ strip image1 = "" ->
     photos instance image1 image2_bytes metric
     = ([], HTTPException 500
              ("Internal server error: "
               ++ str_HTTPException 400 "Image URL cannot be empty")))
  /\ (image1 <> "" -> strip image1 <> "" ->
      http_scheme (strip image1) = false ->
      photos instance image1 image2_bytes metric
      = ([], HTTPException 500
               ("Internal server error: "
                ++ str_HTTPException 400
                     "Image URL must start with http:// or https://")))
  /\ (image1 <> "" -> strip image1 <> "" ->
      http_scheme (strip image1) = true ->
      str_in (lower metric) ["cosine"; "euclidean"] = false ->
      photos instance image1 image2_bytes metric
      = ([], HTTPException 500
               ("Internal server error: "
                ++ str_HTTPException 400
                     ("Distance metric must be 'cosine' or 'euclidean', got '"
                      ++ metric ++ "'")))).
Proof.
  split; [| split].
  - intros Hempty. unfold compare_photos.
    assert (Hc : ((image1 =? "") || (strip image1 =? ""))%string = true).
    { destruct Hempty as [-> | ->]; [reflexivity |].
      rewrite String.eqb_refl. apply orb_true_r. }
    rewrite Hc. unfold raise_HTTPException. rewrite io_bind_lift_raise. reflexivity.
  - intros H1 H2 Hs. unfold compare_photos.
    apply String.eqb_neq in H1, H2. rewrite H1, H2. cbn [orb].
    rewrite io_bind_lift_ok, Hs. cbn [negb].
    unfold raise_HTTPException. rewrite io_bind_lift_raise. reflexivity.
  - intros H1 H2 Hs Hm. unfold compare_photos.
    apply String.eqb_neq in H1, H2. rewrite H1, H2. cbn [orb].
    rewrite io_bind_lift_ok, Hs. cbn [negb]. rewrite io_bind_lift_ok, Hm. cbn [negb].
    unfold raise_HTTPException. rewrite io_bind_lift_raise. reflexivity.
Qed.

(** X27: [compare_photos] on inputs that pass its checks, up to the first
    embedding.  A failure to fetch the first image is answered with status
    400 and the error code of the failure; with the image fetched and
    accepted, a missing model instance is answered with 400 and
    ModelNotLoaded, and a failure of [get_embedding] with 400 and its code;
    an embedding that comes without a detection score is answered with 500,
    because the score is formatted with four decimals for the log.  In all
    these cases the trace ends with the first image: the upload is not
    decoded. *)
Theorem compare_photos_first_image (instance : instance_state F)
    (image1 : string) (image2_bytes : list Byte.byte) (metric : string) :
  image1 <> "" -> strip image1 <> "" ->
  http_scheme (strip image1) = true ->
  str_in (lower metric) ["cosine"; "euclidean"] = true ->
  (forall e,
     snd (fetch_image (strip image1) 30) = Raise e ->
     exists msg c,
       e = ImageProcessingError msg c
       /\ photos instance image1 image2_bytes metric
          = (fst (fetch_image (strip image1) 30), HttpErrorResponse 400 msg c))
  /\ (forall img1 img1',
        snd (fetch_image (strip image1) 30) = Ok img1 ->
        preprocess_image (Some img1) = Ok img1' ->
        (instance = None ->
           photos instance image1 image2_bytes metric
           = (fst (fetch_image (strip image1) 30),
              HttpErrorResponse 400
                "Face recognition model not initialized. Call initialize_model() first."
                MODEL_NOT_LOADED))
        /\ (forall m e,
              instance = Some m ->
              snd (get_embedding m img1' true) = Raise e ->
              exists msg c,
                e = FaceModelError msg c
                /\ photos instance image1 image2_bytes metric
                   = ((fst (fetch_image (strip image1) 30)
                       ++ fst (get_embedding m img1' true))%list,
                      HttpErrorResponse 400 msg c))
        /\ (forall m emb,
              instance = Some m ->
              snd (get_embedding m img1' true) = Ok (emb, None) ->
              photos instance image1 image2_bytes metric
              = ((fst (fetch_image (strip image1) 30)
                  ++ fst (get_embedding m img1' true))%list,
                 HTTPException 500
                   "Internal server error: unsupported format string passed to NoneType.__format__"))).
Proof.
  intros H1 H2 Hs Hm. unfold compare_photos.
  apply String.eqb_neq in H1, H2. rewrite H1, H2. cbn [orb].
  rewrite io_bind_lift_ok, Hs. cbn [negb]. rewrite io_bind_lift_ok, Hm. cbn [negb].
  rewrite io_bind_lift_ok, io_bind_pair.
  destruct (fetch_image (strip image1) 30) as [tf rf] eqn:Hf. cbn [fst snd].
  split.
  - intros e ->.
    destruct (fetch_raises (strip image1) 30 e) as (msg & c & ->);
      [rewrite Hf; reflexivity |].
    exists msg, c. split; reflexivity.
  - intros img1 img1' -> Hp. rewrite Hp, io_bind_lift_ok. split; [| split].
    + intros ->. cbn [get_model]. rewrite io_bind_lift_raise. cbn [fst snd].
      rewrite app_nil_r. reflexivity.
    + intros m e -> He. cbn [get_model]. rewrite io_bind_lift_ok, io_bind_pair.
      destruct (get_embedding_raises m img1' true e He) as (msg & c & ->).
      rewrite He. exists msg, c. split; reflexivity.
    + intros m emb -> He. cbn [get_model]. rewrite io_bind_lift_ok, io_bind_pair.
      rewrite He. cbn [format_4f]. rewrite io_bind_lift_raise. cbn [fst snd].
      rewrite app_nil_r. reflexivity.
Qed.

(** X28: what stands behind a status 200 of [compare_photos]: the URL was
    an http(s) one and the metric, in lower case, a supported one; a model
    instance was there and was asked exactly twice, first for the fetched
    image and, after the upload was decoded, for the uploaded one; both
    faces came with a detection score; the body carries the distance of the
    two embeddings, the similarity computed from that distance, the verdict
    computed from that distance, the metric in lower case and the two
    scores, and the similarity lies in [0, 1]. *)
Theorem compare_photos_ok (instance : instance_state F) (image1 : string)
    (image2_bytes : list Byte.byte) (metric : string) (t : list event)
    (body : ComparePhotosResponse F) :
  photos instance image1 image2_bytes metric = (t, Http200 body) ->
  http_scheme (strip image1) = true
  /\ supported (lower metric)
  /\ photos_metric body = lower metric
  /\ exists m img1 img2 emb1 emb2 score1 score2,
       instance = Some m
       /\ get_embedding m img1 true = ([EvInference img1], Ok (emb1, Some score1))
       /\ get_embedding m img2 true = ([EvInference img2], Ok (emb2, Some score2))
       /\ t = (fst (fetch_image (strip image1) 30)
               ++ [EvInference img1]
               ++ fst (decode_image (b64encode image2_bytes))
               ++ [EvInference img2])%list
       /\ calculate_distance emb1 emb2 (lower metric) = Ok (photos_distance body)
       /\ distance_to_similarity (photos_distance body) (lower metric)
          = Ok (photos_similarity body)
       /\ photos_match body = is_match (lower metric) (photos_distance body)
       /\ image1_detection_score body = Some score1
       /\ image2_detection_score body = Some score2
       /\ in_unit_interval (photos_similarity body) = true.
Proof.
  unfold compare_photos.
  destruct ((image1 =? "") || (strip image1 =? ""))%string.
  { unfold raise_HTTPException. rewrite io_bind_lift_raise. discriminate. }
  rewrite io_bind_lift_ok.
  destruct (http_scheme (strip image1)) eqn:Hs; cbn [negb].
  2:{ unfold raise_HTTPException. rewrite io_bind_lift_raise. discriminate. }
  rewrite io_bind_lift_ok.
  destruct (str_in (lower metric) ["cosine"; "euclidean"]) eqn:Hm; cbn [negb].
  2:{ unfold raise_HTTPException. rewrite io_bind_lift_raise. discriminate. }
  rewrite io_bind_lift_ok.
  destruct (io_bind (fetch_image (strip image1) 30) _) as [trace r] eqn:Hc.
  intros Hrun. injection Hrun as -> Hr.
  destruct r as [response | e]; [| destruct e; discriminate].
  injection Hr as ->.
  apply io_bind_ok in Hc. destruct Hc as (tf & img1 & t1 & Hfetch & Hc & ->).
  apply io_bind_ok in Hc. destruct Hc as (tp & img1' & t2 & Hpre & Hc & ->).
  apply lift_ok in Hpre. destruct Hpre as [Hpre ->].
  apply io_bind_ok in Hc. destruct Hc as (tm & m & t3 & Hmodel & Hc & ->).
  apply lift_ok in Hmodel. destruct Hmodel as [Hmodel ->].
  apply io_bind_ok in Hc. destruct Hc as (tg1 & [emb1 score1] & t4 & Hg1 & Hc & ->).
  apply io_bind_ok in Hc. destruct Hc as (tf1 & u1 & t5 & Hfmt1 & Hc & ->).
  apply lift_ok in Hfmt1. destruct Hfmt1 as [Hfmt1 ->].
  apply io_bind_ok in Hc. destruct Hc as (td & img2 & t6 & Hdec & Hc & ->).
  apply io_bind_ok in Hc. destruct Hc as (tp2 & img2' & t7 & Hpre2 & Hc & ->).
  apply lift_ok in Hpre2. destruct Hpre2 as [Hpre2 ->].
  apply io_bind_ok in Hc. destruct Hc as (tg2 & [emb2 score2] & t8 & Hg2 & Hc & ->).
  apply io_bind_ok in Hc. destruct Hc as (tf2 & u2 & t9 & Hfmt2 & Hc & ->).
  apply lift_ok in Hfmt2. destruct Hfmt2 as [Hfmt2 ->].
  apply io_bind_ok in Hc. destruct Hc as (tc & d & t10 & Hdist & Hc & ->).
  apply lift_ok in Hdist. destruct Hdist as [Hdist ->].
  apply io_bind_ok in Hc. destruct Hc as (ts & sim & t11 & Hsim & Hc & ->).
  apply lift_ok in Hsim. destruct Hsim as [Hsim ->].
  apply lift_ok in Hc. destruct Hc as [Hresp ->].
  destruct score1 as [s1 |]; [| discriminate].
  destruct score2 as [s2 |]; [| discriminate].
  destruct instance as [m0 |]; [| discriminate]. injection Hmodel as ->.
  pose proof (get_embedding_ok_trace _ _ _ _ _ Hg1) as ->.
  pose proof (get_embedding_ok_trace _ _ _ _ _ Hg2) as ->.
  unfold new_ComparePhotosResponse in Hresp.
  destruct (in_unit_interval sim) eqn:Hunit; [| discriminate].
  destruct (optional_in_unit_interval (Some s1)
            && optional_in_unit_interval (Some s2)) eqn:Hscores.
  2:{ cbn [andb] in Hresp. rewrite Hscores in Hresp. discriminate. }
  cbn [andb] in Hresp. rewrite Hscores in Hresp. injection Hresp as <-.
  split; [reflexivity |]. split; [apply metric_allowed; exact Hm |].
  split; [reflexivity |].
  exists m, img1', img2', emb1, emb2, s1, s2.
  rewrite Hfetch, Hdec.
  cbn [photos_distance photos_similarity photos_match image1_detection_score
       image2_detection_score app fst].
  repeat split; try assumption; try reflexivity.
Qed.

End EndpointTheorems.

Section EndpointExamples.

Local Abbreviation extract_example :=
  (extract_embedding Config.settings b64decode_example open_rgb_32 convert_none).
Local Abbreviation photos_example get :=
  (compare_photos Config.settings b64decode_example open_rgb_32 convert_none get
     b64encode_example strip_nothing str_status_detail).

(** X25 where base64 and PIL read "AAEC" as a black 32 x 32 image: with a
    backend that reports one face the answer is 200 with 512 numbers;
    without a model instance it is 400 with ModelNotLoaded. *)
Lemma extract_embedding_answers_witness :
  (exists body,
     snd (extract_example (Some (loaded_model [face_512] 512)) "AAEC") = Http200 body
     /\ length (response_embedding body) = 512%nat
     /\ face_detected body = true)
  /\ snd (extract_example None "AAEC")
     = HttpErrorResponse 400
         "Face recognition model not initialized. Call initialize_model() first."
         MODEL_NOT_LOADED.
Proof.
  split.
  - destruct (extract_embedding_answers Config.settings b64decode_example open_rgb_32
                convert_none (Some (loaded_model [face_512] 512)) "AAEC")
      as (_ & _ & Hok).
    destruct (Hok _ eq_refl) as [_ Hpre].
    destruct (Hpre _ eq_refl) as [_ Hm].
    destruct (Hm _ eq_refl) as (_ & _ & Hbody & _).
    destruct (snd (extract_example (Some (loaded_model [face_512] 512)) "AAEC"))
      as [body | c m ec | c d] eqn:Hrun.
    + destruct (Hbody body eq_refl) as (emb & _ & _ & Hlen & Hface).
      exists body. split; [reflexivity | split; assumption].
    + exfalso. vm_compute in Hrun. discriminate.
    + exfalso. vm_compute in Hrun. discriminate.
  - destruct (extract_embedding_answers Config.settings b64decode_example open_rgb_32
                convert_none (@None (FaceRecognitionModel float)) "AAEC")
      as (_ & _ & Hok).
    destruct (Hok _ eq_refl) as [_ Hpre].
    destruct (Hpre _ eq_refl) as [Hnone _].
    rewrite (Hnone eq_refl). reflexivity.
Defined.

(** X26 on an empty URL, an ftp URL and the metric "manhattan". *)
Lemma compare_photos_input_checks_answer_500_witness :
  photos_example get_six_bytes (@None (FaceRecognitionModel float)) "" three_bytes "cosine"
  = ([], HTTPException 500 "Internal server error: 400: Image URL cannot be empty")
  /\ photos_example get_six_bytes (@None (FaceRecognitionModel float))
       "ftp://example.org/face.jpg" three_bytes "cosine"
     = ([], HTTPException 500
              "Internal server error: 400: Image URL must start with http:// or https://")
  /\ photos_example get_six_bytes (@None (FaceRecognitionModel float))
       face_url three_bytes "manhattan"
     = ([], HTTPException 500
              "Internal server error: 400: Distance metric must be 'cosine' or 'euclidean', got 'manhattan'").
Proof.
  split; [| split].
  - destruct (compare_photos_input_checks_answer_500 Config.settings b64decode_example
                open_rgb_32 convert_none get_six_bytes b64encode_example strip_nothing
                str_status_detail (@None (FaceRecognitionModel float)) ""
                three_bytes "cosine") as (Hempty & _).
    apply Hempty. left. reflexivity.
  - destruct (compare_photos_input_checks_answer_500 Config.settings b64decode_example
                open_rgb_32 convert_none get_six_bytes b64encode_example strip_nothing
                str_status_detail (@None (FaceRecognitionModel float))
                "ftp://example.org/face.jpg" three_bytes "cosine") as (_ & Hscheme & _).
    apply Hscheme; [discriminate | discriminate | reflexivity].
  - destruct (compare_photos_input_checks_answer_500 Config.settings b64decode_example
                open_rgb_32 convert_none get_six_bytes b64encode_example strip_nothing
                str_status_detail (@None (FaceRecognitionModel float))
                face_url three_bytes "manhattan") as (_ & _ & Hmetric).
    apply Hmetric; [discriminate | discriminate | reflexivity | reflexivity].
Defined.

(** X27 on a server that answers 404, and on a backend whose face has no
    detection score. *)
Lemma compare_photos_first_image_witness :
  (exists msg c,
     photos_example get_404 (Some (loaded_model [face_512] 512)) face_url
       three_bytes "cosine"
     = ([EvHttpGet face_url 30], HttpErrorResponse 400 msg c))
  /\ snd (photos_example get_six_bytes (Some (loaded_model [face_512_no_score] 512))
            face_url three_bytes "cosine")
     = HTTPException 500
         "Internal server error: unsupported format string passed to NoneType.__format__".
Proof.
  split.
  - destruct (compare_photos_first_image Config.settings b64decode_example
                open_rgb_32 convert_none get_404 b64encode_example strip_nothing
                str_status_detail (Some (loaded_model [face_512] 512)) face_url
                three_bytes "cosine") as (Hfetch & _);
      [discriminate | discriminate | reflexivity | reflexivity |].
    destruct (Hfetch _ eq_refl) as (msg & c & _ & Hrun).
    exists msg, c. exact Hrun.
  - destruct (compare_photos_first_image Config.settings b64decode_example
                open_rgb_32 convert_none get_six_bytes b64encode_example strip_nothing
                str_status_detail (Some (loaded_model [face_512_no_score] 512)) face_url
                three_bytes "cosine") as (_ & Himage);
      [discriminate | discriminate | reflexivity | reflexivity |].
    destruct (Himage _ _ eq_refl eq_refl) as (_ & _ & Hscore).
    rewrite (Hscore _ _ eq_refl eq_refl). reflexivity.
Defined.

(** X28 on a backend that reports the same face for both images, the metric
    written "Cosine". *)
Lemma compare_photos_ok_witness :
  exists t body,
    photos_example get_six_bytes (Some (loaded_model [face_512] 512)) face_url
      three_bytes "Cosine"
    = (t, Http200 body)
    /\ photos_metric body = "cosine"
    /\ photos_match body = is_match "cosine" (photos_distance body)
    /\ in_unit_interval (photos_similarity body) = true.
Proof.
  destruct (photos_example get_six_bytes (Some (loaded_model [face_512] 512)) face_url
              three_bytes "Cosine") as [t [body | c m ec | c d]] eqn:Hrun.
  - destruct (compare_photos_ok _ _ _ _ _ _ _ _ _ _ _ _ _ _ Hrun)
      as (_ & _ & Hmetric & m & img1 & img2 & emb1 & emb2 & s1 & s2 & Hrest).
    destruct Hrest as (_ & _ & _ & _ & _ & _ & Hmatch & _ & _ & Hunit).
    exists t, body. split; [reflexivity |].
    split; [exact Hmetric |]. split; [exact Hmatch | exact Hunit].
  - exfalso. vm_compute in Hrun. discriminate.
  - exfalso. vm_compute in Hrun. discriminate.
Defined.

End EndpointExamples.

(* ================================================================== *)
(** * Normalised embeddings                                             *)
(* ================================================================== *)

Section NormalisedEmbeddings.
Open Scope R_scope.

Lemma linalg_norm_R (a : ndarray R) : linalg_norm a = Spec.l2norm (data a).
Proof. unfold linalg_norm, Spec.l2norm; simpl. rewrite inner_Rdot. reflexivity. Qed.

Lemma l2norm_normalize (v : list R) :
  Spec.l2norm v <> 0 -> Spec.l2norm (Spec.normalize v) = 1.
Proof.
  intros Hn. unfold Spec.l2norm at 1. rewrite (normalize_unit _ Hn). apply sqrt_1.
Qed.

Lemma normalize_idempotent (v : list R) :
  Spec.normalize (Spec.normalize v) = Spec.normalize v.
Proof.
  destruct (Req_dec_T (Spec.l2norm v) 0) as [Hz | Hn].
  - rewrite (normalize_zero _ Hz). apply normalize_zero. exact Hz.
  - rewrite (normalize_nonzero (Spec.normalize v) 1 (l2norm_normalize _ Hn)) by lra.
    rewrite <- (map_id (Spec.normalize v)) at 2.
    apply map_ext. intros x. field.
Qed.

Lemma Rdot_sub_self (u v : list R) :
  length u = length v ->
  Spec.Rdot (zip_with Rminus u v) (zip_with Rminus u v)
  = Spec.Rdot u u - 2 * Spec.Rdot u v + Spec.Rdot v v.
Proof.
  revert v. induction u as [| x u IH]; intros [| y v] Hlen; simpl in *;
    try discriminate; [ring |].
  rewrite IH by lia. ring.
Qed.

(** X29: [normalize_embedding] in exact arithmetic, on an array of any
    shape: the shape is kept; an array of norm 0 is returned as it is;
    any other comes back with norm 1; and normalising twice is normalising
    once. *)
Theorem normalize_embedding_unit_idempotent (a : ndarray R) :
  shape (normalize_embedding a) = shape a
  /\ (linalg_norm a = 0 -> normalize_embedding a = a)
  /\ (linalg_norm a <> 0 -> linalg_norm (normalize_embedding a) = 1)
  /\ normalize_embedding (normalize_embedding a) = normalize_embedding a.
Proof.
  rewrite !normalize_embedding_R, !linalg_norm_R. simpl shape. simpl data.
  split; [reflexivity |]. split; [| split].
  - intros Hz. rewrite (normalize_zero _ Hz). destruct a; reflexivity.
  - apply l2norm_normalize.
  - rewrite normalize_idempotent. reflexivity.
Qed.

(** X30: on normalised embeddings the two metrics say the same: for two
    vectors of one length and non-zero norm, the square of the Euclidean
    distance between their normalised forms is twice their cosine
    distance. *)
Theorem euclidean_of_normalized_is_cosine (a b : list R) :
  length a = length b ->
  Spec.l2norm a <> 0 -> Spec.l2norm b <> 0 ->
  exists dc de,
    cosine_distance (vec a) (vec b) = Ok dc
    /\ euclidean_distance (normalize_embedding (vec a)) (normalize_embedding (vec b))
       = Ok de
    /\ de * de = 2 * dc.
Proof.
  intros Hlen Ha Hb.
  assert (Hvec : forall v, normalize_embedding (vec v) = vec (Spec.normalize v)).
  { intros v. rewrite normalize_embedding_vec. unfold vec.
    rewrite normalize_length. reflexivity. }
  assert (Hlen' : length (Spec.normalize a) = length (Spec.normalize b)).
  { rewrite !normalize_length. exact Hlen. }
  eexists _, _. split; [apply cosine_distance_vec; exact Hlen |].
  split; [rewrite !Hvec; apply euclidean_distance_vec; exact Hlen' |].
  rewrite l2norm_sqr, (Rdot_sub_self _ _ Hlen').
  rewrite (normalize_unit _ Ha), (normalize_unit _ Hb).
  unfold Spec.cosineDistance.
  rewrite Rclip_id by apply normalized_dot_bounds. ring.
Qed.

(** X29 on the vector (3, 4), of norm 5. *)
Lemma normalize_embedding_unit_idempotent_witness :
  linalg_norm (normalize_embedding (vec [3; 4])) = 1
  /\ normalize_embedding (normalize_embedding (vec [3; 4]))
     = normalize_embedding (vec [3; 4]).
Proof.
  destruct (normalize_embedding_unit_idempotent (vec [3; 4])) as (_ & _ & Hunit & Hidem).
  split; [| exact Hidem]. apply Hunit.
  rewrite linalg_norm_R. simpl data.
  rewrite (l2norm_of_square [3; 4] 5); [lra | lra | simpl; lra].
Defined.

(** X30 on the vectors (3, 4) and (4, 3). *)
Lemma euclidean_of_normalized_is_cosine_witness :
  exists dc de,
    cosine_distance (vec [3; 4]) (vec [4; 3]) = Ok dc
    /\ euclidean_distance (normalize_embedding (vec [3; 4]))
         (normalize_embedding (vec [4; 3])) = Ok de
    /\ de * de = 2 * dc.
Proof.
  apply (euclidean_of_normalized_is_cosine [3; 4] [4; 3]).
  - reflexivity.
  - rewrite (l2norm_of_square [3; 4] 5); [lra | lra | simpl; lra].
  - rewrite (l2norm_of_square [4; 3] 5); [lra | lra | simpl; lra].
Defined.

End NormalisedEmbeddings.
